(** * tuqtng: simple planner, index analysis, Offset operator, parser test

    A shallow embedding of
      - planner/simple/index.go   (index usability, range merging, covering),
      - the simple planner        (Select / CreateIndex / DropIndex planning),
      - xpipeline/offset.go       (the Offset pipeline operator),
      - parser/goyacc/unql_parser_test.go (what the test asks of a parser),
    together with the properties the specification states about them.

    Conventions.
      - A Go [error] is a message string; a call returning [(T, error)] is a
        [result T].
      - A Go panic (nil dereference, index out of range) is an explicit
        outcome of the [Exec] monad.
      - A slice that the source compares against [nil] is an [option (list _)];
        every other slice is a [list], the nil slice being [[]].
      - Go's [int] is taken at 64 bits; arithmetic on it wraps.
      - Packages whose code is not at hand (ast's visitors, plan's
        [ScanRange.Overlap], the sargability visitor) are interfaces: the
        theorems hold for every implementation of them. *)

From stdpp Require Import base option list strings gmap.
From Stdlib Require Import ZArith Lia.

Local Open Scope string_scope.
Local Open Scope Z_scope.
Local Open Scope list_scope.

#[local] Set Warnings "-register-all".

(** ** Errors, results and panics *)

Definition error := string.

Inductive result (A : Type) : Type :=
| Ok (a : A)
| Err (e : error).
Arguments Ok {A} a.
Arguments Err {A} e.

Inductive PanicKind : Type :=
| NilDereference
| IndexOutOfRange.

Inductive Exec (A : Type) : Type :=
| Ret (a : A)
| Panic (p : PanicKind).
Arguments Ret {A} a.
Arguments Panic {A} p.

Definition bindE {A B : Type} (m : Exec A) (k : A -> Exec B) : Exec B :=
  match m with
  | Ret a => k a
  | Panic p => Panic p
  end.

Notation "'do!' x <- m ; k" := (bindE m (fun x => k))
  (at level 10, x pattern, m at level 100, k at level 200).

Definition bindR {A B : Type} (m : result A) (k : A -> result B) : result B :=
  match m with
  | Ok a => k a
  | Err e => Err e
  end.

Notation "'do?' x <- m ; k" := (bindR m (fun x => k))
  (at level 10, x pattern, m at level 100, k at level 200).

(** ** Package ast *)

Module ast.

Inductive ArithmeticOp : Type :=
| OpPlus | OpSubtract | OpMultiply | OpDivide | OpModulo | OpConcat.

Inductive ComparisonOp : Type :=
| OpGreaterThan | OpLessThan | OpEqual | OpNotEqual
| OpGreaterThanOrEqual | OpLessThanOrEqual | OpLike | OpNotLike.

Inductive AggregateKind : Type :=
| FunctionCallCount | FunctionCallSum | FunctionCallAvg
| FunctionCallMin | FunctionCallMax.

(** Modelled from the spec: the expression tree of package ast, whose type
    declarations are not among the sources (spec, section 3, Expression).
    A number literal is a decimal, [mantissa * 10 ^ exponent].  A function
    argument is the pair of its [Star] flag and its possibly nil
    expression. *)
Inductive Expression : Type :=
| LiteralNull
| LiteralBool (b : bool)
| LiteralNumber (mantissa exponent : Z)
| LiteralString (s : string)
| LiteralArray (elems : list Expression)
| LiteralObject (fields : list (string * Expression))
| Property (Path : string)
| DotMemberOperator (Left Right : Expression)
| BracketMemberOperator (Left Right : Expression)
| ChangeSignOperator (Operand : Expression)
| ArithmeticOperator (op : ArithmeticOp) (Left Right : Expression)
| ComparisonOperator (op : ComparisonOp) (Left Right : Expression)
| AndOperator (Operands : list Expression)
| OrOperator (Operands : list Expression)
| NotOperator (Operand : Expression)
| IsNullOperator (Operand : Expression)
| IsNotNullOperator (Operand : Expression)
| IsMissingOperator (Operand : Expression)
| IsNotMissingOperator (Operand : Expression)
| IsValuedOperator (Operand : Expression)
| IsNotValuedOperator (Operand : Expression)
| FunctionCall (Name : string) (Operands : list (bool * option Expression))
| AggregateFunctionCall (kind : AggregateKind)
    (Operands : list (bool * option Expression)).

Definition ExpressionList := list Expression.

Definition NewIsNotNullOperator (operand : Expression) : Expression :=
  IsNotNullOperator operand.

(** Modelled from the spec: the argument of a function call, a wildcard
    marker or an expression (section 3); its declaration is in package ast,
    and index.go reads the fields [Star] and [Expr]. *)
Module FunctionArgExpression.
Record t : Type := mk {
  Star : bool;
  Expr : option Expression
}.
End FunctionArgExpression.

Definition functionArg (p : bool * option Expression)
  : FunctionArgExpression.t :=
  FunctionArgExpression.mk (fst p) (snd p).

(** The type switch [case ast.AggregateFunctionCallExpression] followed by
    [GetOperands]: the kind and operand list of an aggregate call, [None] for
    every other expression (and for a nil one). *)
Definition asAggregateFunctionCall (e : option Expression)
  : option (AggregateKind * list FunctionArgExpression.t) :=
  match e with
  | Some (AggregateFunctionCall k ops) => Some (k, map functionArg ops)
  | _ => None
  end.

(** [_, isMin := expr.( *ast.FunctionCallMin)] *)
Definition isFunctionCallMin (k : AggregateKind) : bool :=
  match k with
  | FunctionCallMin => true
  | _ => false
  end.

(** Modelled from the spec: an entry of the result list, a wildcard marker or
    an expression with an optional alias (section 3); index.go reads the
    fields [Star] and [Expr]. *)
Module ResultExpression.
Record t : Type := mk {
  Star : bool;
  Expr : option Expression;
  As : string
}.
End ResultExpression.

Definition ResultExpressionList := list ResultExpression.t.

Definition NewStarResultExpression : ResultExpression.t :=
  ResultExpression.mk true None "".

Definition NewResultExpression (e : Expression) : ResultExpression.t :=
  ResultExpression.mk false (Some e) "".

(** Modelled from the spec: a sort term, an expression and its direction
    (section 3); index.go reads the field [Expr]. *)
Module SortExpression.
Record t : Type := mk {
  Expr : Expression;
  Ascending : bool
}.
End SortExpression.

(** Modelled from the spec: [*ast.From], a chain through [Over] (section 3),
    with the fields the planner reads. *)
Module From.
Inductive t : Type :=
| mk (Pool Bucket : string) (Projection : option Expression) (As : string)
     (Over : option t).

Definition Pool (f : t) : string := let 'mk p _ _ _ _ := f in p.
Definition Bucket (f : t) : string := let 'mk _ b _ _ _ := f in b.
Definition Projection (f : t) : option Expression :=
  let 'mk _ _ p _ _ := f in p.
Definition As (f : t) : string := let 'mk _ _ _ a _ := f in a.
Definition Over (f : t) : option t := let 'mk _ _ _ _ o := f in o.
End From.

(** Modelled from the spec: [*ast.SelectStatement] (section 3), with the
    fields the planner, index.go and the parser test read.  [GroupBy] and
    [OrderBy] are slices the planner compares against nil.  Each getter
    answers its field; the two derived tables [GetAggregateReferences] and
    [GetExplicitProjectionAliases] answer are carried as fields too. *)
Module SelectStatement.
Record t : Type := mk {
  Distinct : bool;
  Select : ResultExpressionList;
  From : option From.t;
  Where : option Expression;
  GroupBy : option ExpressionList;
  Having : option Expression;
  OrderBy : option (list SortExpression.t);
  Limit : Z;
  Offset : Z;
  ExplainOnly : bool;
  aggregateReferences : ExpressionList;
  explicitProjectionAliases : list (string * Expression)
}.

Definition GetFrom (s : t) := From s.
Definition GetWhere (s : t) := Where s.
Definition GetGroupBy (s : t) := GroupBy s.
Definition GetHaving (s : t) := Having s.
Definition GetOrderBy (s : t) := OrderBy s.
Definition GetLimit (s : t) := Limit s.
Definition GetOffset (s : t) := Offset s.
Definition IsDistinct (s : t) := Distinct s.
Definition GetResultExpressionList (s : t) := Select s.
Definition GetAggregateReferences (s : t) := aggregateReferences s.
Definition GetExplicitProjectionAliases (s : t) := explicitProjectionAliases s.
End SelectStatement.

(** Modelled from the spec: the CreateIndex and DropIndex statements
    (section 3), with the fields the planner reads. *)
Module CreateIndexStatement.
Record t : Type := mk {
  Pool : string;
  Bucket : string;
  Name : string;
  Method : string;
  On : ExpressionList;
  ExplainOnly : bool
}.
End CreateIndexStatement.

Module DropIndexStatement.
Record t : Type := mk {
  Pool : string;
  Bucket : string;
  Name : string;
  ExplainOnly : bool
}.
End DropIndexStatement.

(** The dynamic type of an [ast.Statement]; [OtherStatement] is any type the
    planner's switch has no case for. *)
Inductive Statement : Type :=
| Select_ (stmt : SelectStatement.t)
| CreateIndex_ (stmt : CreateIndexStatement.t)
| DropIndex_ (stmt : DropIndexStatement.t)
| OtherStatement.

(** The expression visitors index.go calls; their code is in package ast and
    not among the sources, so they are an interface here.
      - [NNF], [CNF]: [expr.Accept(NewExpressionNNF())] and
        [expr.Accept(NewExpressionCNF())];
      - [FormalNotation unqualified aliases default]: [Accept] of
        [NewExpressionFormalNotationConverter(unqualified, aliases, default)];
      - [DependencyCheck deps e]: the error component of
        [NewExpressionFunctionalDependencyCheckerFull(deps).Visit(e)], the
        only component a caller reads; [e] may be the nil interface. *)
Class Visitors : Type := {
  NNF : Expression -> result Expression;
  CNF : Expression -> result Expression;
  FormalNotation :
    list string -> list string -> string -> Expression -> result Expression;
  DependencyCheck : ExpressionList -> option Expression -> option error
}.

End ast.

(** ** Package catalog *)

Module catalog.

Definition IndexKey := list ast.Expression.

(** Modelled from the spec: the catalog (sections 3 and 4.3).  Site, pool,
    bucket and range index are interfaces of package catalog; each is the
    record of what its methods answer. *)
Module RangeIndex.
Record t : Type := mk {
  Name : string;
  Key : IndexKey
}.
End RangeIndex.

(** The dynamic type of a [catalog.Index] as the planner's type switch sees
    it: primary, range, or neither. *)
Inductive Index : Type :=
| PrimaryIndex (Name : string)
| RangeIndex_ (index : RangeIndex.t)
| OtherIndex (Name : string).

Module Bucket.
Record t : Type := mk {
  Name : string;
  Indexes : result (list Index)
}.
End Bucket.

Module Pool.
Record t : Type := mk {
  Name : string;
  BucketByName : string -> result Bucket.t
}.
End Pool.

Module Site.
Record t : Type := mk {
  PoolByName : string -> result Pool.t
}.
End Site.

End catalog.

(** The reserved names of the synthetic source (package catalog/system), which
    the planner substitutes for an absent FROM. *)
Module system.
Class Names : Type := {
  POOL_NAME : string;
  BUCKET_NAME_DUAL : string
}.
End system.

(** ** Package query *)

Module query.

(** Modelled from the spec: the errors of package query (section 6), named
    by the three constructors the planner calls. *)
Inductive Error : Type :=
| NewPoolDoesNotExist (poolName : string)
| NewBucketDoesNotExist (bucketName : string)
| NewError (cause : option error) (message : string).

End query.

(** ** Package plan *)

Module plan.

(** Modelled from the spec: a bound of a scan range, in the collation order
    missing, null, booleans, numbers, strings; a number is the decimal
    [mantissa * 10 ^ exponent]. *)
Inductive Value : Type :=
| VMissing
| VNull
| VBool (b : bool)
| VNumber (mantissa exponent : Z)
| VString (s : string).

(** Modelled from the spec: plan.ScanRange, whose declaration is not among the
    sources (spec, section 3: a low bound, a high bound, an inclusivity flag
    for each, and a row limit where 0 is unlimited).  An absent bound is
    unbounded on that side. *)
Module ScanRange.
Record t : Type := mk {
  Low : option Value;
  High : option Value;
  IncludeLow : bool;
  IncludeHigh : bool;
  Limit : Z
}.

(** [r.Limit = n], through the pointer a [ScanRanges] slice holds. *)
Definition setLimit (n : Z) (r : t) : t :=
  mk (Low r) (High r) (IncludeLow r) (IncludeHigh r) n.
End ScanRange.

Definition ScanRanges := list ScanRange.t.

(** [orig.Overlap(newr)]: the combined range, or nil.  The method is not among
    the sources. *)
Class ScanRangeOps : Type := {
  Overlap : ScanRange.t -> ScanRange.t -> option ScanRange.t
}.

(** Modelled from the spec: the plan steps (section 3, Plan), named by the
    constructor functions the planner calls, with their arguments. *)
Inductive PlanElement : Type :=
| NewScan (pool bucket index : string) (ranges : ScanRanges)
| NewFetch (source : PlanElement) (pool bucket : string)
    (projection : option ast.Expression) (as_ : string)
| NewDocumentJoin (source : PlanElement)
    (projection : option ast.Expression) (as_ : string)
| NewFilter (source : PlanElement) (expr : ast.Expression)
| NewGroup (source : PlanElement) (groupBy : ast.ExpressionList)
    (aggregates : ast.ExpressionList)
| NewProjector (source : PlanElement) (result : ast.ResultExpressionList)
    (includeMeta : bool)
| NewEliminateDuplicates (source : PlanElement)
| NewOrder (source : PlanElement) (sort : list ast.SortExpression.t)
    (explicitAliases : list (string * ast.Expression))
| NewOffset (source : PlanElement) (offset : Z)
| NewLimit (source : PlanElement) (limit : Z)
| NewExplain (source : PlanElement)
| NewCreateIndex (pool bucket name method : string) (on : ast.ExpressionList)
| NewDropIndex (pool bucket name : string).

Record Plan : Type := mkPlan {
  Root : PlanElement
}.

End plan.

(** ** Package planner/simple: index.go *)

Module simple.

Import ast.

(** [es := NewExpressionSargable(key); expr.Accept(es)]: what [es.IsSargable()]
    and [es.ScanRanges()] answer afterwards.  The visitor is in another file
    of this package, not among the sources. *)
Module ExpressionSargable.
Record t : Type := mk {
  IsSargable : bool;
  ScanRanges : plan.ScanRanges
}.
End ExpressionSargable.

Class Sargability : Type := {
  sargableAccept : Expression -> Expression -> ExpressionSargable.t
}.

(** What the two usability functions return:
    [(bool, plan.ScanRanges, ast.Expression, error)]. *)
Definition Usability : Type :=
  (bool * plan.ScanRanges * option Expression * option error)%type.

Definition cannotUse : Usability := (false, [], None, None).

(** [indexKeyFormal[0]] *)
Definition keyAt0 (indexKeyFormal : catalog.IndexKey) : Exec Expression :=
  match indexKeyFormal with
  | [] => Panic IndexOutOfRange
  | k :: _ => Ret k
  end.

Fixpoint formalKeyLoop `{Visitors} (bucket : string) (key : catalog.IndexKey)
  : result catalog.IndexKey :=
  match key with
  | [] => Ok []
  | kp :: rest =>
      match FormalNotation [] [bucket] bucket kp with
      | Err e => Err e
      | Ok nkey =>
          match formalKeyLoop bucket rest with
          | Err e => Err e
          | Ok fkey => Ok (nkey :: fkey)
          end
      end
  end.

Definition IndexKeyInFormalNotation `{Visitors} (key : catalog.IndexKey)
    (bucket : string) : result catalog.IndexKey :=
  formalKeyLoop bucket key.

(** The loop of [MergeRanges]; [rv] and [merged] are its variables. *)
Fixpoint mergeLoop `{plan.ScanRangeOps} (origr : plan.ScanRanges)
    (newr : plan.ScanRange.t) (rv : plan.ScanRanges) (merged : bool)
  : plan.ScanRanges * bool :=
  match origr with
  | [] => (rv, merged)
  | orig :: rest =>
      if negb merged then
        match plan.Overlap orig newr with
        | Some mergedRange => mergeLoop rest newr (rv ++ [mergedRange]) true
        | None => mergeLoop rest newr (rv ++ [orig]) merged
        end
      else mergeLoop rest newr (rv ++ [orig]) merged
  end.

Definition MergeRanges `{plan.ScanRangeOps} (origr : plan.ScanRanges)
    (newr : plan.ScanRange.t) : plan.ScanRanges :=
  let '(rv, merged) := mergeLoop origr newr [] false in
  if negb merged then rv ++ [newr] else rv.

(** [for _, ran := range es.ScanRanges() { rranges = MergeRanges(rranges, ran) }] *)
Fixpoint mergeEach `{plan.ScanRangeOps} (rs : plan.ScanRanges)
    (rranges : plan.ScanRanges) : plan.ScanRanges :=
  match rs with
  | [] => rranges
  | ran :: rest => mergeEach rest (MergeRanges rranges ran)
  end.

(** The loop over the conjuncts of a CNF [AndOperator]; [found] and [rranges]
    are its variables.  The key component is indexed inside the loop body. *)
Fixpoint whereAndLoop `{plan.ScanRangeOps} `{Sargability}
    (indexKeyFormal : catalog.IndexKey) (operands : list Expression)
    (found : bool) (rranges : plan.ScanRanges)
  : Exec (bool * plan.ScanRanges) :=
  match operands with
  | [] => Ret (found, rranges)
  | oper :: rest =>
      do! k0 <- keyAt0 indexKeyFormal;
      let es := sargableAccept k0 oper in
      if ExpressionSargable.IsSargable es then
        whereAndLoop indexKeyFormal rest true
          (mergeEach (ExpressionSargable.ScanRanges es) rranges)
      else whereAndLoop indexKeyFormal rest found rranges
  end.

Definition CanIUseThisIndexForThisWhereClause
    `{Visitors} `{plan.ScanRangeOps} `{Sargability}
    (index : catalog.RangeIndex.t) (where_ : Expression) (bucket : string)
  : Exec Usability :=
  match IndexKeyInFormalNotation (catalog.RangeIndex.Key index) bucket with
  | Err e => Ret (false, [], None, Some e)
  | Ok indexKeyFormal =>
  match NNF where_ with
  | Err e => Ret (false, [], None, Some e)
  | Ok whereNNF =>
  match CNF whereNNF with
  | Err e => Ret (false, [], None, Some e)
  | Ok whereCNF =>
      match whereCNF with
      | AndOperator operands =>
          do! r <- whereAndLoop indexKeyFormal operands false [];
          let '(found, rranges) := r in
          if found then Ret (true, rranges, None, None) else Ret cannotUse
      | _ =>
          do! k0 <- keyAt0 indexKeyFormal;
          let es := sargableAccept k0 whereCNF in
          if ExpressionSargable.IsSargable es then
            Ret (true, ExpressionSargable.ScanRanges es, None, None)
          else Ret cannotUse
      end
  end end end.

(** The loop over the result list of
    [CanIUseThisIndexForThisProjectionNoWhereNoGroupClause].  [None] is one of
    the early [return false]; [Some b] is the loop run to its end with
    [allAggregateFunctionsMin = b]. *)
Fixpoint projectionLoop `{Visitors} (deps : ExpressionList)
    (resultExprList : ResultExpressionList) (allAggregateFunctionsMin : bool)
  : option bool :=
  match resultExprList with
  | [] => Some allAggregateFunctionsMin
  | resultExpr :: rest =>
      if ResultExpression.Star resultExpr then None
      else
        match asAggregateFunctionCall (ResultExpression.Expr resultExpr) with
        | Some (kind, operands) =>
            let allMin :=
              if negb (isFunctionCallMin kind) then false
              else allAggregateFunctionsMin in
            match operands with
            | [] => None
            | aggOperand :: _ =>
                if FunctionArgExpression.Star aggOperand then None
                else
                  match DependencyCheck deps
                          (FunctionArgExpression.Expr aggOperand) with
                  | Some _ => None
                  | None => projectionLoop deps rest allMin
                  end
            end
        | None => None
        end
  end.

Definition CanIUseThisIndexForThisProjectionNoWhereNoGroupClause
    `{Visitors} `{Sargability}
    (index : catalog.RangeIndex.t) (resultExprList : ResultExpressionList)
    (bucket : string) : Exec Usability :=
  match IndexKeyInFormalNotation (catalog.RangeIndex.Key index) bucket with
  | Err e => Ret (false, [], None, Some e)
  | Ok indexKeyFormal =>
      do! k0 <- keyAt0 indexKeyFormal;
      let deps := [k0] in
      match projectionLoop deps resultExprList true with
      | None => Ret cannotUse
      | Some allAggregateFunctionsMin =>
          let es := sargableAccept k0 (NewIsNotNullOperator k0) in
          if ExpressionSargable.IsSargable es then
            let ranges := ExpressionSargable.ScanRanges es in
            let ranges :=
              if allAggregateFunctionsMin
              then map (plan.ScanRange.setLimit 1) ranges
              else ranges in
            Ret (true, ranges, None, None)
          else Ret cannotUse
      end
  end.

(** [_, err := depChecker.Visit(e); err == nil] *)
Definition determined `{Visitors} (deps : ExpressionList) (e : Expression)
  : bool :=
  match DependencyCheck deps (Some e) with
  | None => true
  | Some _ => false
  end.

(** The projection loop of [DoesIndexCoverStatement]: [false] is its
    [return false]. *)
Fixpoint coverProjection `{Visitors} (deps : ExpressionList)
    (select : ResultExpressionList) : bool :=
  match select with
  | [] => true
  | resultExpr :: rest =>
      match ResultExpression.Star resultExpr, ResultExpression.Expr resultExpr with
      | true, _ => false
      | false, None => false
      | false, Some e =>
          if determined deps e then coverProjection deps rest else false
      end
  end.

(** A loop visiting each expression of a list, returning false at the first
    that fails the check. *)
Fixpoint coverEach `{Visitors} (deps : ExpressionList) (es : list Expression)
  : bool :=
  match es with
  | [] => true
  | e :: rest => if determined deps e then coverEach deps rest else false
  end.

Definition coverOptional `{Visitors} (deps : ExpressionList)
    (e : option Expression) : bool :=
  match e with
  | Some e => determined deps e
  | None => true
  end.

Definition DoesIndexCoverStatement `{Visitors}
    (index : catalog.RangeIndex.t) (stmt : SelectStatement.t) : Exec bool :=
  match SelectStatement.From stmt with
  | None => Panic NilDereference
  | Some from =>
      match From.Over from with
      | Some _ => Ret false
      | None =>
          match IndexKeyInFormalNotation (catalog.RangeIndex.Key index)
                  (From.As from) with
          | Err _ => Ret false
          | Ok indexKeyFormal =>
              let deps := fold_left (fun deps indexKey => deps ++ [indexKey])
                            indexKeyFormal [] in
              if negb (coverProjection deps (SelectStatement.Select stmt))
              then Ret false
              else if negb (coverOptional deps (SelectStatement.Where stmt))
              then Ret false
              else
                let groupOk :=
                  match SelectStatement.GroupBy stmt with
                  | Some groupBy =>
                      if negb (coverEach deps groupBy) then false
                      else coverOptional deps (SelectStatement.Having stmt)
                  | None => true
                  end in
                if negb groupOk then Ret false
                else
                  match SelectStatement.OrderBy stmt with
                  | Some orderBy =>
                      Ret (coverEach deps (map SortExpression.Expr orderBy))
                  | None => Ret true
                  end
          end
      end
  end.

(** ** Package planner/simple: the planner *)

Module SimplePlanner.
Record t : Type := mk {
  site : catalog.Site.t;
  defaultPool : string
}.
End SimplePlanner.

Definition NewSimplePlanner (site : catalog.Site.t) (defaultPool : string)
  : SimplePlanner.t :=
  SimplePlanner.mk site defaultPool.

(** What a builder has sent on the plan channel [pc] and on the error channel
    [ec] when it returns, each in sending order. *)
Record Sent : Type := mkSent {
  pc : list plan.Plan;
  ec : list query.Error
}.

Definition sendError (e : query.Error) : Sent := mkSent [] [e].
Definition sendPlans (ps : list plan.Plan) : Sent := mkSent ps [].

(** [poolName := p; if poolName == "" { poolName = this.defaultPool }] *)
Definition resolvePoolName (this : SimplePlanner.t) (p : string) : string :=
  if String.eqb p "" then SimplePlanner.defaultPool this else p.

(** [stmt.From.Bucket], on the statement's own [From] pointer. *)
Definition stmtFromBucket (stmt : SelectStatement.t) : Exec string :=
  match SelectStatement.From stmt with
  | None => Panic NilDereference
  | Some f => Ret (From.Bucket f)
  end.

(** What the loop does with the answer of the usability check: [continue] on
    an error or when the index is not usable, a scan of the ranges
    otherwise. *)
Definition rangeScan (pool : catalog.Pool.t) (bucket : catalog.Bucket.t)
    (index : catalog.RangeIndex.t) (r : Usability)
  : option plan.PlanElement :=
  let '(possible, ranges, _, err) := r in
  match err with
  | Some _ => None
  | None =>
      if possible then
        Some (plan.NewScan (catalog.Pool.Name pool)
                (catalog.Bucket.Name bucket)
                (catalog.RangeIndex.Name index) ranges)
      else None
  end.

(** The type switch in the loop over the bucket's indexes: [Some lastStep]
    when the index yields a scan, [None] on each [continue]. *)
Definition indexScan `{Visitors} `{plan.ScanRangeOps} `{Sargability}
    (stmt : SelectStatement.t) (pool : catalog.Pool.t)
    (bucket : catalog.Bucket.t) (index : catalog.Index)
  : Exec (option plan.PlanElement) :=
  match index with
  | catalog.PrimaryIndex name =>
      Ret (Some (plan.NewScan (catalog.Pool.Name pool)
                   (catalog.Bucket.Name bucket) name []))
  | catalog.RangeIndex_ index =>
      match SelectStatement.Where stmt with
      | Some where_ =>
          do! bucketName <- stmtFromBucket stmt;
          do! r <- CanIUseThisIndexForThisWhereClause index where_ bucketName;
          Ret (rangeScan pool bucket index r)
      | None => Ret None
      end
  | catalog.OtherIndex _ => Ret None
  end.

(** [for nextFrom != nil { lastStep = NewDocumentJoin(...); nextFrom = nextFrom.Over }] *)
Fixpoint joinChain (lastStep : plan.PlanElement) (nextFrom : From.t)
  : plan.PlanElement :=
  match nextFrom with
  | From.mk _ _ projection as_ over =>
      let lastStep := plan.NewDocumentJoin lastStep projection as_ in
      match over with
      | None => lastStep
      | Some nextFrom => joinChain lastStep nextFrom
      end
  end.

Definition documentJoins (lastStep : plan.PlanElement)
    (nextFrom : option From.t) : plan.PlanElement :=
  match nextFrom with
  | None => lastStep
  | Some nextFrom => joinChain lastStep nextFrom
  end.

(** The access path above a scan: a fetch, then one join per [Over] level. *)
Definition planHead (pool : catalog.Pool.t) (bucket : catalog.Bucket.t)
    (from : From.t) (lastStep : plan.PlanElement) : plan.PlanElement :=
  documentJoins
    (plan.NewFetch lastStep (catalog.Pool.Name pool)
       (catalog.Bucket.Name bucket) (From.Projection from) (From.As from))
    (From.Over from).

(** The loop over the indexes; [planHeads] is its variable. *)
Fixpoint planHeadsLoop `{Visitors} `{plan.ScanRangeOps} `{Sargability}
    (stmt : SelectStatement.t) (pool : catalog.Pool.t)
    (bucket : catalog.Bucket.t) (from : From.t)
    (indexes : list catalog.Index) (planHeads : list plan.PlanElement)
  : Exec (list plan.PlanElement) :=
  match indexes with
  | [] => Ret planHeads
  | index :: rest =>
      do! scan <- indexScan stmt pool bucket index;
      match scan with
      | None => planHeadsLoop stmt pool bucket from rest planHeads
      | Some lastStep =>
          planHeadsLoop stmt pool bucket from rest
            (planHeads ++ [planHead pool bucket from lastStep])
      end
  end.

(** The body of the loop over the plan heads: the stages above one head. *)
Definition completePlan (stmt : SelectStatement.t)
    (lastStep : plan.PlanElement) : plan.PlanElement :=
  let lastStep :=
    match SelectStatement.GetWhere stmt with
    | Some where_ => plan.NewFilter lastStep where_
    | None => lastStep
    end in
  let lastStep :=
    match SelectStatement.GetGroupBy stmt with
    | Some groupBy =>
        plan.NewGroup lastStep groupBy
          (SelectStatement.GetAggregateReferences stmt)
    | None => lastStep
    end in
  let lastStep :=
    match SelectStatement.GetHaving stmt with
    | Some having => plan.NewFilter lastStep having
    | None => lastStep
    end in
  let lastStep :=
    plan.NewProjector lastStep
      (SelectStatement.GetResultExpressionList stmt) true in
  let lastStep :=
    if SelectStatement.IsDistinct stmt
    then plan.NewEliminateDuplicates lastStep else lastStep in
  let lastStep :=
    match SelectStatement.GetOrderBy stmt with
    | Some orderBy =>
        let explicitAliases :=
          SelectStatement.GetExplicitProjectionAliases stmt in
        plan.NewOrder lastStep orderBy explicitAliases
    | None => lastStep
    end in
  let lastStep :=
    if negb (SelectStatement.GetOffset stmt =? 0)
    then plan.NewOffset lastStep (SelectStatement.GetOffset stmt)
    else lastStep in
  let lastStep :=
    if SelectStatement.GetLimit stmt >=? 0
    then plan.NewLimit lastStep (SelectStatement.GetLimit stmt)
    else lastStep in
  let lastStep :=
    if SelectStatement.ExplainOnly stmt
    then plan.NewExplain lastStep else lastStep in
  lastStep.

(** [from := stmt.GetFrom(); if from == nil { from = &ast.From{...} }] *)
Definition resolveFrom `{system.Names} (stmt : SelectStatement.t) : From.t :=
  match SelectStatement.GetFrom stmt with
  | None => From.mk system.POOL_NAME system.BUCKET_NAME_DUAL None "" None
  | Some from => from
  end.

Definition buildSelectStatementPlans
    `{Visitors} `{plan.ScanRangeOps} `{Sargability} `{system.Names}
    (this : SimplePlanner.t) (stmt : SelectStatement.t) : Exec Sent :=
  let from := resolveFrom stmt in
  let poolName := resolvePoolName this (From.Pool from) in
  match catalog.Site.PoolByName (SimplePlanner.site this) poolName with
  | Err _ => Ret (sendError (query.NewPoolDoesNotExist poolName))
  | Ok pool =>
  match catalog.Pool.BucketByName pool (From.Bucket from) with
  | Err _ => Ret (sendError (query.NewBucketDoesNotExist (From.Bucket from)))
  | Ok bucket =>
  match catalog.Bucket.Indexes bucket with
  | Err err =>
      Ret (sendError
             (query.NewError (Some err)
                ("No indexes found for bucket " +:+ From.Bucket from)))
  | Ok indexes =>
      do! planHeads <- planHeadsLoop stmt pool bucket from indexes [];
      if (length planHeads =? 0)%nat then
        Ret (sendError
               (query.NewError None
                  ("No usable indexes found for bucket " +:+ From.Bucket from)))
      else
        Ret (sendPlans
               (map (fun lastStep => plan.mkPlan (completePlan stmt lastStep))
                  planHeads))
  end end end.

Definition explainIf (explainOnly : bool) (lastStep : plan.PlanElement)
  : plan.PlanElement :=
  if explainOnly then plan.NewExplain lastStep else lastStep.

Definition buildCreateIndexStatementPlans (this : SimplePlanner.t)
    (stmt : CreateIndexStatement.t) : Sent :=
  let poolName := resolvePoolName this (CreateIndexStatement.Pool stmt) in
  match catalog.Site.PoolByName (SimplePlanner.site this) poolName with
  | Err _ =>
      sendError (query.NewPoolDoesNotExist (SimplePlanner.defaultPool this))
  | Ok pool =>
      match catalog.Pool.BucketByName pool (CreateIndexStatement.Bucket stmt) with
      | Err _ =>
          sendError
            (query.NewBucketDoesNotExist (CreateIndexStatement.Bucket stmt))
      | Ok bucket =>
          let lastStep :=
            plan.NewCreateIndex (catalog.Pool.Name pool)
              (catalog.Bucket.Name bucket) (CreateIndexStatement.Name stmt)
              (CreateIndexStatement.Method stmt)
              (CreateIndexStatement.On stmt) in
          sendPlans
            [plan.mkPlan
               (explainIf (CreateIndexStatement.ExplainOnly stmt) lastStep)]
      end
  end.

Definition buildDropIndexStatementPlans (this : SimplePlanner.t)
    (stmt : DropIndexStatement.t) : Sent :=
  let poolName := resolvePoolName this (DropIndexStatement.Pool stmt) in
  match catalog.Site.PoolByName (SimplePlanner.site this) poolName with
  | Err _ =>
      sendError (query.NewPoolDoesNotExist (SimplePlanner.defaultPool this))
  | Ok pool =>
      match catalog.Pool.BucketByName pool (DropIndexStatement.Bucket stmt) with
      | Err _ =>
          sendError
            (query.NewBucketDoesNotExist (DropIndexStatement.Bucket stmt))
      | Ok bucket =>
          let lastStep :=
            plan.NewDropIndex (catalog.Pool.Name pool)
              (catalog.Bucket.Name bucket) (DropIndexStatement.Name stmt) in
          sendPlans
            [plan.mkPlan
               (explainIf (DropIndexStatement.ExplainOnly stmt) lastStep)]
      end
  end.

(** [buildPlans]: dispatch on the statement's dynamic type; both channels are
    closed when it returns. *)
Definition buildPlans
    `{Visitors} `{plan.ScanRangeOps} `{Sargability} `{system.Names}
    (this : SimplePlanner.t) (stmt : Statement) : Exec Sent :=
  match stmt with
  | Select_ stmt => buildSelectStatementPlans this stmt
  | CreateIndex_ stmt => Ret (buildCreateIndexStatementPlans this stmt)
  | DropIndex_ stmt => Ret (buildDropIndexStatementPlans this stmt)
  | OtherStatement => Ret (mkSent [] [])
  end.

End simple.

(** ** Package xpipeline: offset.go *)

Module xpipeline.

(** Go's [int], at 64 bits: the value of an arithmetic result after
    wrap-around. *)
Definition wrapInt (z : Z) : Z := (z + 2 ^ 63) mod 2 ^ 64 - 2 ^ 63.

Definition maxInt : Z := 2 ^ 63 - 1.

(** A value travelling on a support channel: the type switch of [Run] tells a
    [query.Error] from everything else. *)
Inductive Support (Other : Type) : Type :=
| SupportError (e : query.Error)
| SupportOther (obj : Other).
Arguments SupportError {Other} e.
Arguments SupportOther {Other} obj.

(** What one iteration of the [select] in [Run] receives from the source:
    a value with [ok = true], or [ok = false] from a closed channel. *)
Inductive Received (Item Other : Type) : Type :=
| ItemReceived (item : Item)
| ItemChannelClosed
| SupportReceived (obj : Support Other)
| SupportChannelClosed.
Arguments ItemReceived {Item Other} item.
Arguments ItemChannelClosed {Item Other}.
Arguments SupportReceived {Item Other} obj.
Arguments SupportChannelClosed {Item Other}.

(** What the operator sends: on its item channel or on its support channel. *)
Inductive Sent (Item Other : Type) : Type :=
| ItemSent (item : Item)
| SupportSent (obj : Support Other).
Arguments ItemSent {Item Other} item.
Arguments SupportSent {Item Other} obj.

(** The fields of [Offset] that carry data; the source and the channels are
    the received and sent sequences. *)
Module Offset.
Record t : Type := mk {
  Offset : Z;
  count : Z
}.
End Offset.

Definition NewOffset (offset : Z) : Offset.t := Offset.mk offset 0.

Definition processItem {Item Other : Type} (this : Offset.t) (item : Item)
  : Offset.t * list (Sent Item Other) :=
  let this := Offset.mk (Offset.Offset this) (wrapInt (Offset.count this + 1)) in
  if Offset.count this <=? Offset.Offset this then (this, [])
  else (this, [ItemSent item]).

(** The state of a [Run]: the operator, everything sent so far, and whether
    [Run] has returned (its deferred calls then close both channels).  A run
    that has not returned is blocked in [select]. *)
Record Running (Item Other : Type) : Type := mkRunning {
  this_ : Offset.t;
  sent : list (Sent Item Other);
  returned : bool
}.
Arguments mkRunning {Item Other} this_ sent returned.
Arguments this_ {Item Other} r.
Arguments sent {Item Other} r.
Arguments returned {Item Other} r.

(** The [for ok { select { ... } }] loop over the sequence of receptions. *)
Fixpoint receiveLoop {Item Other : Type} (this : Offset.t)
    (out : list (Sent Item Other)) (received : list (Received Item Other))
  : Running Item Other :=
  match received with
  | [] => mkRunning this out false
  | ItemReceived item :: rest =>
      let '(this, s) := processItem this item in
      receiveLoop this (out ++ s) rest
  | ItemChannelClosed :: _ => mkRunning this out true
  | SupportReceived (SupportError e) :: _ =>
      mkRunning this (out ++ [SupportSent (SupportError e)]) true
  | SupportReceived obj :: rest =>
      receiveLoop this (out ++ [SupportSent obj]) rest
  | SupportChannelClosed :: _ => mkRunning this out true
  end.

Definition Run {Item Other : Type} (this : Offset.t)
    (received : list (Received Item Other)) : Running Item Other :=
  let this := Offset.mk (Offset.Offset this) 0 in
  receiveLoop this [] received.

(** The items among what was sent, and among what was received, in order. *)
Definition itemsSent {Item Other : Type} (s : list (Sent Item Other))
  : list Item :=
  omap (fun x => match x with ItemSent i => Some i | _ => None end) s.

Definition supportSent {Item Other : Type} (s : list (Sent Item Other))
  : list (Support Other) :=
  omap (fun x => match x with SupportSent o => Some o | _ => None end) s.

Definition itemsReceived {Item Other : Type} (r : list (Received Item Other))
  : list Item :=
  omap (fun x => match x with ItemReceived i => Some i | _ => None end) r.

(** A reception that lets the loop go on: an item, or a support message
    that is not an error. *)
Definition continues {Item Other : Type} (r : Received Item Other) : bool :=
  match r with
  | ItemReceived _ => true
  | SupportReceived (SupportOther _) => true
  | _ => false
  end.

(** What the operator set as downstream of this one receives from a run of
    it ([SetSource], [GetChannels]): every value in the order it was sent,
    the channels being unbuffered and [Run] the only sender; then, once [Run]
    has returned and its deferred calls have closed both channels, [closed],
    the closed channel the downstream [select] picks. *)
Definition handOver {Item Other : Type} (s : Sent Item Other)
  : Received Item Other :=
  match s with
  | ItemSent item => ItemReceived item
  | SupportSent obj => SupportReceived obj
  end.

Definition downstream {Item Other : Type} (closed : Received Item Other)
    (run : Running Item Other) : list (Received Item Other) :=
  map handOver (sent run) ++ (if returned run then [closed] else []).

(** [closed] is one of the two closed channels. *)
Definition isClosed {Item Other : Type} (r : Received Item Other) : bool :=
  match r with
  | ItemChannelClosed | SupportChannelClosed => true
  | _ => false
  end.

End xpipeline.

(** ** Reference implementations of the interfaces

    The visitors of package ast, the sargability visitor and
    [ScanRange.Overlap] are not among the sources.  The theorems below hold
    for every implementation; the ones here follow the specification's
    description of each and serve to run the embedding on concrete inputs. *)

Module reference.

Import ast.

Fixpoint list_eqb {A : Type} (eqb : A -> A -> bool) (xs ys : list A) : bool :=
  match xs, ys with
  | [], [] => true
  | x :: xs, y :: ys => eqb x y && list_eqb eqb xs ys
  | _, _ => false
  end.

Definition arithmeticOp_eqb (a b : ArithmeticOp) : bool :=
  match a, b with
  | OpPlus, OpPlus | OpSubtract, OpSubtract | OpMultiply, OpMultiply
  | OpDivide, OpDivide | OpModulo, OpModulo | OpConcat, OpConcat => true
  | _, _ => false
  end.

Definition comparisonOp_eqb (a b : ComparisonOp) : bool :=
  match a, b with
  | OpGreaterThan, OpGreaterThan | OpLessThan, OpLessThan
  | OpEqual, OpEqual | OpNotEqual, OpNotEqual
  | OpGreaterThanOrEqual, OpGreaterThanOrEqual
  | OpLessThanOrEqual, OpLessThanOrEqual
  | OpLike, OpLike | OpNotLike, OpNotLike => true
  | _, _ => false
  end.

Definition aggregateKind_eqb (a b : AggregateKind) : bool :=
  match a, b with
  | FunctionCallCount, FunctionCallCount | FunctionCallSum, FunctionCallSum
  | FunctionCallAvg, FunctionCallAvg | FunctionCallMin, FunctionCallMin
  | FunctionCallMax, FunctionCallMax => true
  | _, _ => false
  end.

(** Structural equality of expressions ([EquivalentTo]). *)
Fixpoint expr_eqb (a b : Expression) {struct a} : bool :=
  let arg_eqb (p q : bool * option Expression) : bool :=
    match p, q with
    | (s, Some x), (s', Some y) => Bool.eqb s s' && expr_eqb x y
    | (s, None), (s', None) => Bool.eqb s s'
    | _, _ => false
    end in
  let field_eqb (p q : string * Expression) : bool :=
    match p, q with
    | (k, x), (k', y) => String.eqb k k' && expr_eqb x y
    end in
  match a, b with
  | LiteralNull, LiteralNull => true
  | LiteralBool x, LiteralBool y => Bool.eqb x y
  | LiteralNumber m e, LiteralNumber m' e' => (m =? m') && (e =? e')
  | LiteralString x, LiteralString y => String.eqb x y
  | LiteralArray xs, LiteralArray ys => list_eqb expr_eqb xs ys
  | LiteralObject xs, LiteralObject ys => list_eqb field_eqb xs ys
  | Property x, Property y => String.eqb x y
  | DotMemberOperator l r, DotMemberOperator l' r' =>
      expr_eqb l l' && expr_eqb r r'
  | BracketMemberOperator l r, BracketMemberOperator l' r' =>
      expr_eqb l l' && expr_eqb r r'
  | ChangeSignOperator x, ChangeSignOperator y => expr_eqb x y
  | ArithmeticOperator o l r, ArithmeticOperator o' l' r' =>
      arithmeticOp_eqb o o' && expr_eqb l l' && expr_eqb r r'
  | ComparisonOperator o l r, ComparisonOperator o' l' r' =>
      comparisonOp_eqb o o' && expr_eqb l l' && expr_eqb r r'
  | AndOperator xs, AndOperator ys => list_eqb expr_eqb xs ys
  | OrOperator xs, OrOperator ys => list_eqb expr_eqb xs ys
  | NotOperator x, NotOperator y => expr_eqb x y
  | IsNullOperator x, IsNullOperator y => expr_eqb x y
  | IsNotNullOperator x, IsNotNullOperator y => expr_eqb x y
  | IsMissingOperator x, IsMissingOperator y => expr_eqb x y
  | IsNotMissingOperator x, IsNotMissingOperator y => expr_eqb x y
  | IsValuedOperator x, IsValuedOperator y => expr_eqb x y
  | IsNotValuedOperator x, IsNotValuedOperator y => expr_eqb x y
  | FunctionCall n xs, FunctionCall n' ys =>
      String.eqb n n' && list_eqb arg_eqb xs ys
  | AggregateFunctionCall k xs, AggregateFunctionCall k' ys =>
      aggregateKind_eqb k k' && list_eqb arg_eqb xs ys
  | _, _ => false
  end.

(** Modelled from the spec: the Negation-Normal-Form converter (section 3):
    pushes NOT inward by De Morgan's laws, removes double negation, leaves
    comparisons and predicates untouched; it never fails (section 4.2). *)
Fixpoint nnf (negated : bool) (e : Expression) : Expression :=
  match e with
  | NotOperator x => nnf (negb negated) x
  | AndOperator xs =>
      if negated then OrOperator (map (nnf negated) xs)
      else AndOperator (map (nnf negated) xs)
  | OrOperator xs =>
      if negated then AndOperator (map (nnf negated) xs)
      else OrOperator (map (nnf negated) xs)
  | _ => if negated then NotOperator e else e
  end.

(** The clauses of a conjunctive normal form, each a list of disjuncts. *)
Fixpoint clauses (e : Expression) : list (list Expression) :=
  match e with
  | AndOperator xs => concat (map clauses xs)
  | OrOperator xs =>
      fold_right
        (fun cs acc => c ← cs; a ← acc; [c ++ a])
        [[]] (map clauses xs)
  | _ => [[e]]
  end.

Definition disjunction (c : list Expression) : Expression :=
  match c with
  | [x] => x
  | _ => OrOperator c
  end.

(** Modelled from the spec: the Conjunctive-Normal-Form converter (section 3):
    distributes OR over AND to a conjunction of disjunctions, or to a non-AND
    expression when no conjunction results; it never fails (section 4.2). *)
Definition cnf (e : Expression) : Expression :=
  match clauses e with
  | [c] => disjunction c
  | cs => AndOperator (map disjunction cs)
  end.

(** Modelled from the spec: the Formal-Notation converter (section 3): an
    unqualified property becomes a member of the default alias, a property
    naming a known alias stays; conversion fails when a reference has to be
    qualified and there is no default alias (section 4.2). *)
Fixpoint qualify (aliases : list string) (default : string) (e : Expression)
  : Expression :=
  let qualifyArg (p : bool * option Expression) :=
    match p with
    | (s, Some x) => (s, Some (qualify aliases default x))
    | (s, None) => (s, None)
    end in
  let qualifyField (p : string * Expression) :=
    match p with
    | (k, x) => (k, qualify aliases default x)
    end in
  match e with
  | Property p =>
      if existsb (String.eqb p) aliases then e
      else DotMemberOperator (Property default) e
  | DotMemberOperator l r => DotMemberOperator (qualify aliases default l) r
  | BracketMemberOperator l r =>
      BracketMemberOperator (qualify aliases default l)
        (qualify aliases default r)
  | LiteralArray xs => LiteralArray (map (qualify aliases default) xs)
  | LiteralObject xs => LiteralObject (map qualifyField xs)
  | ChangeSignOperator x => ChangeSignOperator (qualify aliases default x)
  | ArithmeticOperator o l r =>
      ArithmeticOperator o (qualify aliases default l)
        (qualify aliases default r)
  | ComparisonOperator o l r =>
      ComparisonOperator o (qualify aliases default l)
        (qualify aliases default r)
  | AndOperator xs => AndOperator (map (qualify aliases default) xs)
  | OrOperator xs => OrOperator (map (qualify aliases default) xs)
  | NotOperator x => NotOperator (qualify aliases default x)
  | IsNullOperator x => IsNullOperator (qualify aliases default x)
  | IsNotNullOperator x => IsNotNullOperator (qualify aliases default x)
  | IsMissingOperator x => IsMissingOperator (qualify aliases default x)
  | IsNotMissingOperator x => IsNotMissingOperator (qualify aliases default x)
  | IsValuedOperator x => IsValuedOperator (qualify aliases default x)
  | IsNotValuedOperator x => IsNotValuedOperator (qualify aliases default x)
  | FunctionCall n xs => FunctionCall n (map qualifyArg xs)
  | AggregateFunctionCall k xs => AggregateFunctionCall k (map qualifyArg xs)
  | LiteralNull | LiteralBool _ | LiteralNumber _ _ | LiteralString _ => e
  end.

Definition formalNotation (unqualified aliases : list string)
    (default : string) (e : Expression) : result Expression :=
  let q := qualify aliases default e in
  if String.eqb default "" && negb (expr_eqb q e)
  then Err "unable to resolve a property reference"
  else Ok q.

(** Modelled from the spec: the Functional-Dependency checker in full mode
    (section 3): an expression equal to a determining expression passes; a
    property reference that is not fails; a member of a determined expression
    is derivable from it; any other expression passes when its operands do. *)
Fixpoint dependsOnly (deps : ExpressionList) (e : Expression) : bool :=
  let arg (p : bool * option Expression) :=
    match p with
    | (_, Some x) => dependsOnly deps x
    | (_, None) => true
    end in
  let field (p : string * Expression) :=
    match p with
    | (_, x) => dependsOnly deps x
    end in
  existsb (expr_eqb e) deps ||
  match e with
  | Property _ => false
  | DotMemberOperator l _ => dependsOnly deps l
  | BracketMemberOperator l r => dependsOnly deps l && dependsOnly deps r
  | LiteralArray xs => forallb (dependsOnly deps) xs
  | LiteralObject xs => forallb field xs
  | ChangeSignOperator x | NotOperator x
  | IsNullOperator x | IsNotNullOperator x
  | IsMissingOperator x | IsNotMissingOperator x
  | IsValuedOperator x | IsNotValuedOperator x => dependsOnly deps x
  | ArithmeticOperator _ l r | ComparisonOperator _ l r =>
      dependsOnly deps l && dependsOnly deps r
  | AndOperator xs | OrOperator xs => forallb (dependsOnly deps) xs
  | FunctionCall _ xs | AggregateFunctionCall _ xs => forallb arg xs
  | LiteralNull | LiteralBool _ | LiteralNumber _ _ | LiteralString _ => true
  end.

Definition dependencyCheck (deps : ExpressionList) (e : option Expression)
  : option error :=
  match e with
  | Some e =>
      if dependsOnly deps e then None
      else Some "expression is not functionally dependent on the index key"
  | None => Some "nil expression"
  end.

Definition visitors : Visitors := {|
  NNF := fun e => Ok (nnf false e);
  CNF := fun e => Ok (cnf e);
  FormalNotation := formalNotation;
  DependencyCheck := dependencyCheck
|}.

(** Collation of bound values: missing, null, booleans, numbers, strings. *)
Definition valueRank (v : plan.Value) : Z :=
  match v with
  | plan.VMissing => 0
  | plan.VNull => 1
  | plan.VBool _ => 2
  | plan.VNumber _ _ => 3
  | plan.VString _ => 4
  end.

(** Two decimals, brought to their smaller exponent. *)
Definition decimalCompare (m e m' e' : Z) : comparison :=
  let least := Z.min e e' in
  (m * 10 ^ (e - least)) ?= (m' * 10 ^ (e' - least)).

Definition valueCompare (a b : plan.Value) : comparison :=
  match a, b with
  | plan.VBool x, plan.VBool y => Bool.compare x y
  | plan.VNumber m e, plan.VNumber m' e' => decimalCompare m e m' e'
  | plan.VString x, plan.VString y => String.compare x y
  | _, _ => valueRank a ?= valueRank b
  end.

(** A low bound against a high bound; an absent bound is unbounded. *)
Definition lowVersusHigh (l h : option plan.Value) : comparison :=
  match l, h with
  | Some x, Some y => valueCompare x y
  | _, _ => Lt
  end.

(** A range starting at [l] begins no later than a range ending at [h] ends,
    or right where it ends with the point in one of them. *)
Definition reaches (l : option plan.Value) (includeLow : bool)
    (h : option plan.Value) (includeHigh : bool) : bool :=
  match lowVersusHigh l h with
  | Lt => true
  | Eq => includeLow || includeHigh
  | Gt => false
  end.

Definition lowerLow (a b : plan.ScanRange.t) : option plan.Value * bool :=
  match plan.ScanRange.Low a, plan.ScanRange.Low b with
  | None, _ | _, None => (None, false)
  | Some x, Some y =>
      match valueCompare x y with
      | Lt => (Some x, plan.ScanRange.IncludeLow a)
      | Gt => (Some y, plan.ScanRange.IncludeLow b)
      | Eq => (Some x, plan.ScanRange.IncludeLow a || plan.ScanRange.IncludeLow b)
      end
  end.

Definition higherHigh (a b : plan.ScanRange.t) : option plan.Value * bool :=
  match plan.ScanRange.High a, plan.ScanRange.High b with
  | None, _ | _, None => (None, false)
  | Some x, Some y =>
      match valueCompare x y with
      | Gt => (Some x, plan.ScanRange.IncludeHigh a)
      | Lt => (Some y, plan.ScanRange.IncludeHigh b)
      | Eq => (Some x, plan.ScanRange.IncludeHigh a || plan.ScanRange.IncludeHigh b)
      end
  end.

(** Modelled from the spec: [ScanRange.Overlap] (section 4.6): the range
    spanning both when they overlap or are contiguous, nil otherwise. *)
Definition overlap (a b : plan.ScanRange.t) : option plan.ScanRange.t :=
  if reaches (plan.ScanRange.Low a) (plan.ScanRange.IncludeLow a)
       (plan.ScanRange.High b) (plan.ScanRange.IncludeHigh b)
     && reaches (plan.ScanRange.Low b) (plan.ScanRange.IncludeLow b)
          (plan.ScanRange.High a) (plan.ScanRange.IncludeHigh a)
  then
    let '(low, includeLow) := lowerLow a b in
    let '(high, includeHigh) := higherHigh a b in
    Some (plan.ScanRange.mk low high includeLow includeHigh
            (plan.ScanRange.Limit a))
  else None.

Definition scanRangeOps : plan.ScanRangeOps := {| plan.Overlap := overlap |}.

Definition literalValue (e : Expression) : option plan.Value :=
  match e with
  | LiteralNull => Some plan.VNull
  | LiteralBool b => Some (plan.VBool b)
  | LiteralNumber m e => Some (plan.VNumber m e)
  | LiteralString s => Some (plan.VString s)
  | _ => None
  end.

(** The range of [key op v]. *)
Definition comparisonRange (op : ComparisonOp) (v : plan.Value)
  : option plan.ScanRange.t :=
  match op with
  | OpEqual => Some (plan.ScanRange.mk (Some v) (Some v) true true 0)
  | OpGreaterThan => Some (plan.ScanRange.mk (Some v) None false false 0)
  | OpGreaterThanOrEqual => Some (plan.ScanRange.mk (Some v) None true false 0)
  | OpLessThan => Some (plan.ScanRange.mk None (Some v) false false 0)
  | OpLessThanOrEqual => Some (plan.ScanRange.mk None (Some v) false true 0)
  | _ => None
  end.

Definition flipComparison (op : ComparisonOp) : ComparisonOp :=
  match op with
  | OpGreaterThan => OpLessThan
  | OpLessThan => OpGreaterThan
  | OpGreaterThanOrEqual => OpLessThanOrEqual
  | OpLessThanOrEqual => OpGreaterThanOrEqual
  | _ => op
  end.

(** The "is defined" range: everything above null, without a row limit. *)
Definition definedRange : plan.ScanRange.t :=
  plan.ScanRange.mk (Some plan.VNull) None false false 0.

(** Modelled from the spec: the Sargable analyzer (sections 3 and 4.2): a
    comparison of the key with a literal and [key IS NOT NULL] translate into
    one range, a disjunction of such into their ranges; nothing else is
    sargable. *)
Fixpoint sargableRanges (key e : Expression) : option plan.ScanRanges :=
  match e with
  | ComparisonOperator op l r =>
      if expr_eqb l key then
        v ← literalValue r; ran ← comparisonRange op v; Some [ran]
      else if expr_eqb r key then
        v ← literalValue l; ran ← comparisonRange (flipComparison op) v;
        Some [ran]
      else None
  | IsNotNullOperator x => if expr_eqb x key then Some [definedRange] else None
  | OrOperator xs =>
      fold_right
        (fun x acc => rs ← sargableRanges key x; rest ← acc; Some (rs ++ rest))
        (Some []) xs
  | _ => None
  end.

Definition sargable (key e : Expression) : simple.ExpressionSargable.t :=
  match sargableRanges key e with
  | Some rs => simple.ExpressionSargable.mk true rs
  | None => simple.ExpressionSargable.mk false []
  end.

Definition sargability : simple.Sargability :=
  {| simple.sargableAccept := sargable |}.

(** The synthetic source [:system.dual]. *)
Definition systemNames : system.Names :=
  {| system.POOL_NAME := "system"; system.BUCKET_NAME_DUAL := "dual" |}.

(** A catalog held in finite maps: pools by name, buckets by name, each
    bucket with its list of indexes. *)
Definition bucketOf (name : string) (indexes : list catalog.Index)
  : catalog.Bucket.t :=
  catalog.Bucket.mk name (Ok indexes).

Definition poolOf (name : string) (buckets : gmap string (list catalog.Index))
  : catalog.Pool.t :=
  catalog.Pool.mk name
    (fun b =>
       match buckets !! b with
       | Some indexes => Ok (bucketOf b indexes)
       | None => Err ("bucket not found: " +:+ b)
       end).

Definition siteOf (pools : gmap string (gmap string (list catalog.Index)))
  : catalog.Site.t :=
  catalog.Site.mk
    (fun p =>
       match pools !! p with
       | Some buckets => Ok (poolOf p buckets)
       | None => Err ("pool not found: " +:+ p)
       end).

End reference.

(** ** parser/goyacc/unql_parser_test.go

    The parser is not among the sources; its test is.  The test is a function
    of the parser it runs: [Parse] maps the text of a query to a statement or
    to an error. *)

Module goyacc.

Import ast.













End goyacc.

(** ** Specification-level definitions

    The wording of the specification, as definitions to compare the code
    with. *)

Module spec.

Import ast.

(** "Union every successful conjunct's ranges via range-merging": the ranges
    of the sargable conjuncts, in order, merged one by one into an empty
    list. *)
Definition sargableConjuncts `{simple.Sargability} (key : Expression)
    (operands : list Expression) : list Expression :=
  List.filter
    (fun oper =>
       simple.ExpressionSargable.IsSargable (simple.sargableAccept key oper))
    operands.

Definition conjunctRanges `{simple.Sargability} (key : Expression)
    (operands : list Expression) : plan.ScanRanges :=
  flat_map
    (fun oper =>
       simple.ExpressionSargable.ScanRanges (simple.sargableAccept key oper))
    (sargableConjuncts key operands).

(** Range merging in the specification's words (section 4.5): "scan the
    existing list in order; attempt to overlap-merge [new] into the first
    range it overlaps, replacing that range with the merged result; if none
    overlaps, append [new] as an additional disjoint range". *)
Fixpoint mergeIntoFirst `{plan.ScanRangeOps} (existing : plan.ScanRanges)
    (new : plan.ScanRange.t) : plan.ScanRanges :=
  match existing with
  | [] => [new]
  | r :: rest =>
      match plan.Overlap r new with
      | Some combined => combined :: rest
      | None => r :: mergeIntoFirst rest new
      end
  end.

(** The merge-union of a sequence of ranges: each one merged, in order, into
    the list built so far, starting from no range. *)
Definition mergeUnion `{plan.ScanRangeOps} (rs : plan.ScanRanges)
  : plan.ScanRanges :=
  fold_left mergeIntoFirst rs [].

Definition isAnd (e : Expression) : bool :=
  match e with
  | AndOperator _ => true
  | _ => false
  end.

(** The expression locations of a statement as the specification lists them:
    projection entries, WHERE, each GROUP BY term, HAVING, each ORDER BY
    term. *)
Definition locationsAsStated (stmt : SelectStatement.t) : list Expression :=
  omap ResultExpression.Expr (SelectStatement.Select stmt)
  ++ option_list (SelectStatement.Where stmt)
  ++ default [] (SelectStatement.GroupBy stmt)
  ++ option_list (SelectStatement.Having stmt)
  ++ map SortExpression.Expr (default [] (SelectStatement.OrderBy stmt)).

(** The same locations, HAVING counted only under a GROUP BY. *)
Definition locationsChecked (stmt : SelectStatement.t) : list Expression :=
  omap ResultExpression.Expr (SelectStatement.Select stmt)
  ++ option_list (SelectStatement.Where stmt)
  ++ default [] (SelectStatement.GroupBy stmt)
  ++ match SelectStatement.GroupBy stmt with
     | Some _ => option_list (SelectStatement.Having stmt)
     | None => []
     end
  ++ map SortExpression.Expr (default [] (SelectStatement.OrderBy stmt)).

(** No projection entry is a wildcard or lacks an expression. *)
Definition plainProjection (select : ResultExpressionList) : bool :=
  forallb
    (fun r =>
       negb (ResultExpression.Star r)
       && bool_decide (is_Some (ResultExpression.Expr r)))
    select.

(** The verdict the specification gives for [DoesIndexCoverStatement], over a
    list of expression locations: false under a nested [Over] or a projection
    that is not plain, otherwise whether every location passes the dependency
    check against [deps]. *)
Definition coverVerdict `{Visitors} (locations : list Expression)
    (from : From.t) (deps : ExpressionList) (stmt : SelectStatement.t) : bool :=
  if bool_decide (is_Some (From.Over from)) then false
  else if negb (plainProjection (SelectStatement.Select stmt)) then false
  else forallb (simple.determined deps) locations.

(** C5 in the specification's words. *)
Definition coversAsStated `{Visitors} (index : catalog.RangeIndex.t)
    (stmt : SelectStatement.t) : Prop :=
  forall from deps,
    SelectStatement.From stmt = Some from ->
    simple.IndexKeyInFormalNotation (catalog.RangeIndex.Key index)
      (From.As from) = Ok deps ->
    simple.DoesIndexCoverStatement index stmt
    = Ret (coverVerdict (locationsAsStated stmt) from deps stmt).


(** The same with at least one operand, the conditions bearing on the
    first. *)
Definition entryAccepted `{Visitors} (key0 : Expression)
    (r : ResultExpression.t) : Prop :=
  ResultExpression.Star r = false
  /\ exists kind star expr others,
       ResultExpression.Expr r
         = Some (AggregateFunctionCall kind ((star, expr) :: others))
       /\ star = false
       /\ DependencyCheck [key0] expr = None.

(** Every entry of the result list is a MIN call. *)
Definition allMin (resultExprList : ResultExpressionList) : bool :=
  forallb
    (fun r =>
       match asAggregateFunctionCall (ResultExpression.Expr r) with
       | Some (kind, _) => isFunctionCallMin kind
       | None => false
       end)
    resultExprList.


(** Modelled from the spec: the single open "is defined" range over a key
    (sections 4.2 and 8.6): open-ended above, bounded below by null, which it
    excludes, and with it the missing value that collates before null; no row
    limit. *)
Definition definedRange : plan.ScanRange.t :=
  {| plan.ScanRange.Low := Some plan.VNull;
     plan.ScanRange.High := None;
     plan.ScanRange.IncludeLow := false;
     plan.ScanRange.IncludeHigh := false;
     plan.ScanRange.Limit := 0 |}.


(** The stages the planner puts above a plan head. *)
Inductive Stage : Type :=
| Filter (expr : Expression)
| Group (groupBy aggregates : ExpressionList)
| Projector (result : ResultExpressionList) (includeMetadata : bool)
| EliminateDuplicates
| Order (sort : list SortExpression.t)
    (explicitAliases : list (string * Expression))
| Offset (n : Z)
| Limit (n : Z)
| Explain.

Definition applyStage (source : plan.PlanElement) (s : Stage)
  : plan.PlanElement :=
  match s with
  | Filter e => plan.NewFilter source e
  | Group g a => plan.NewGroup source g a
  | Projector r m => plan.NewProjector source r m
  | EliminateDuplicates => plan.NewEliminateDuplicates source
  | Order o a => plan.NewOrder source o a
  | Offset n => plan.NewOffset source n
  | Limit n => plan.NewLimit source n
  | Explain => plan.NewExplain source
  end.

Definition stageIf (b : bool) (s : Stage) : list Stage :=
  if b then [s] else [].

(** The stages of a statement, in the order the specification fixes
    (section 4.4, step 7), innermost first. *)
Definition stagesOf (stmt : SelectStatement.t) : list Stage :=
  option_list (Filter <$> SelectStatement.Where stmt)
  ++ option_list
       ((fun g => Group g (SelectStatement.aggregateReferences stmt))
          <$> SelectStatement.GroupBy stmt)
  ++ option_list (Filter <$> SelectStatement.Having stmt)
  ++ [Projector (SelectStatement.Select stmt) true]
  ++ stageIf (SelectStatement.Distinct stmt) EliminateDuplicates
  ++ option_list
       ((fun o => Order o (SelectStatement.explicitProjectionAliases stmt))
          <$> SelectStatement.OrderBy stmt)
  ++ stageIf (negb (SelectStatement.Offset stmt =? 0))
       (Offset (SelectStatement.Offset stmt))
  ++ stageIf (0 <=? SelectStatement.Limit stmt)
       (Limit (SelectStatement.Limit stmt))
  ++ stageIf (SelectStatement.ExplainOnly stmt) Explain.

(** What an operator that skips the first [skip] items sends for a sequence
    of receptions: every item after the skipped ones and every support
    message, in the order received. *)
Fixpoint forwardAfter {Item Other : Type} (skip : nat)
    (received : list (xpipeline.Received Item Other))
  : list (xpipeline.Sent Item Other) :=
  match received with
  | [] => []
  | xpipeline.ItemReceived item :: rest =>
      match skip with
      | O => xpipeline.ItemSent item :: forwardAfter O rest
      | S skip => forwardAfter skip rest
      end
  | xpipeline.SupportReceived obj :: rest =>
      xpipeline.SupportSent obj :: forwardAfter skip rest
  | _ :: rest => forwardAfter skip rest
  end.

Definition supportReceived {Item Other : Type}
    (r : list (xpipeline.Received Item Other))
  : list (xpipeline.Support Other) :=
  omap (fun x =>
          match x with
          | xpipeline.SupportReceived o => Some o
          | _ => None
          end) r.

(** The levels nested under a From through [Over], outermost first. *)
Fixpoint overLevels (from : From.t) : list From.t :=
  match from with
  | From.mk _ _ _ _ over =>
      match over with
      | None => []
      | Some nextFrom => nextFrom :: overLevels nextFrom
      end
  end.

Definition isPrimary (index : catalog.Index) : bool :=
  match index with
  | catalog.PrimaryIndex _ => true
  | _ => false
  end.

(** The plan heads of the primary indexes of a bucket, in order. *)
Definition primaryHeads (pool : catalog.Pool.t) (bucket : catalog.Bucket.t)
    (from : From.t) (indexes : list catalog.Index) : list plan.PlanElement :=
  omap
    (fun index =>
       match index with
       | catalog.PrimaryIndex name =>
           Some (simple.planHead pool bucket from
                   (plan.NewScan (catalog.Pool.Name pool)
                      (catalog.Bucket.Name bucket) name []))
       | _ => None
       end)
    indexes.

End spec.

(** ** Concrete inputs *)

Module examples.

Import ast.

(** The field [a] of bucket [b], unqualified and in formal notation. *)
Definition fieldA : Expression := Property "a".
Definition formalA : Expression :=
  DotMemberOperator (Property "b") (Property "a").

(** A range index on [a]. *)
Definition indexA : catalog.RangeIndex.t := catalog.RangeIndex.mk "idx_a" [fieldA].

(** [b.a > 3 AND c < 5 AND b.a = 7]: the second conjunct is not about the
    key. *)
Definition whereA : Expression :=
  AndOperator
    [ComparisonOperator OpGreaterThan formalA (LiteralNumber 3 0);
     ComparisonOperator OpLessThan (Property "c") (LiteralNumber 5 0);
     ComparisonOperator OpEqual formalA (LiteralNumber 7 0)].

Definition above (n : Z) : plan.ScanRange.t :=
  plan.ScanRange.mk (Some (plan.VNumber n 0)) None false false 0.

Definition exactly (n : Z) : plan.ScanRange.t :=
  plan.ScanRange.mk (Some (plan.VNumber n 0)) (Some (plan.VNumber n 0)) true true 0.

Definition below (n : Z) : plan.ScanRange.t :=
  plan.ScanRange.mk None (Some (plan.VNumber n 0)) false false 0.

(** [SELECT b.a FROM b HAVING c > 1]: a HAVING without GROUP BY, on a field
    the index does not hold. *)
Definition fromB : From.t := From.mk "" "b" None "b" None.

Definition stmtHaving : SelectStatement.t :=
  SelectStatement.mk false [NewResultExpression formalA] (Some fromB)
    None None
    (Some (ComparisonOperator OpGreaterThan (Property "c") (LiteralNumber 1 0)))
    None (-1) 0 false [] [].

(** [SELECT b.a FROM b WHERE b.a > 3 GROUP BY b.a HAVING b.a < 9 ORDER BY b.a] *)
Definition stmtCovered : SelectStatement.t :=
  SelectStatement.mk false [NewResultExpression formalA] (Some fromB)
    (Some (ComparisonOperator OpGreaterThan formalA (LiteralNumber 3 0)))
    (Some [formalA])
    (Some (ComparisonOperator OpLessThan formalA (LiteralNumber 9 0)))
    (Some [SortExpression.mk formalA true]) (-1) 0 false [] [].

(** [MIN(b.a)], and a MIN call with a second operand. *)
Definition minA : ResultExpression.t :=
  NewResultExpression
    (AggregateFunctionCall FunctionCallMin [(false, Some formalA)]).

Definition minTwoOperands : ResultExpression.t :=
  NewResultExpression
    (AggregateFunctionCall FunctionCallMin
       [(false, Some formalA); (false, Some (Property "x"))]).

(** A site with the pool [default] holding bucket [b], whose only index is
    the range index on [a], and the pool [system] holding bucket [dual] with a
    primary index and a range index. *)
Definition indexesB : list catalog.Index := [catalog.RangeIndex_ indexA].

Definition indexesDual : list catalog.Index :=
  [catalog.PrimaryIndex "#primary"; catalog.RangeIndex_ indexA].

Definition bucketsDefault : gmap string (list catalog.Index) :=
  <["b" := indexesB]> ∅.

Definition bucketsSystem : gmap string (list catalog.Index) :=
  <["dual" := indexesDual]> ∅.

Definition site : catalog.Site.t :=
  reference.siteOf
    (<["default" := bucketsDefault]> (<["system" := bucketsSystem]> ∅)).

Definition poolDefault : catalog.Pool.t :=
  reference.poolOf "default" bucketsDefault.

Definition poolSystem : catalog.Pool.t :=
  reference.poolOf "system" bucketsSystem.

Definition bucketB : catalog.Bucket.t := reference.bucketOf "b" indexesB.

Definition bucketDual : catalog.Bucket.t :=
  reference.bucketOf "dual" indexesDual.

Definition planner : simple.SimplePlanner.t :=
  simple.NewSimplePlanner site "default".

(** [SELECT * FROM b] *)
Definition stmtNoWhere : SelectStatement.t :=
  SelectStatement.mk false [NewStarResultExpression] (Some fromB)
    None None None None (-1) 0 false [] [].

(** [SELECT DISTINCT * FROM :system.dual WHERE true ORDER BY b.a
     LIMIT 0 OFFSET 2], explained. *)
Definition fromDual : From.t := From.mk "system" "dual" None "dual" None.

Definition stmtStages : SelectStatement.t :=
  SelectStatement.mk true [NewStarResultExpression] (Some fromDual)
    (Some (LiteralBool true)) None None
    (Some [SortExpression.mk formalA true]) 0 2 true [] [].

(** [SELECT * WHERE true], without FROM. *)
Definition stmtNoFrom : SelectStatement.t :=
  SelectStatement.mk false [NewStarResultExpression] None
    (Some (LiteralBool true)) None None None (-1) 0 false [] [].

(** [CREATE INDEX idx ON elsewhere:b(a)] and [DROP INDEX elsewhere:b.idx]:
    the pool [elsewhere] does not exist. *)
Definition stmtCreate : CreateIndexStatement.t :=
  CreateIndexStatement.mk "elsewhere" "b" "idx" "btree" [fieldA] false.

Definition stmtDrop : DropIndexStatement.t :=
  DropIndexStatement.mk "elsewhere" "b" "idx" false.

(** The access path over the primary index of [:system.dual], and the plan
    of [stmtStages] above it. *)
Definition headDual : plan.PlanElement :=
  plan.NewFetch (plan.NewScan "system" "dual" "#primary" [])
    "system" "dual" None "dual".

Definition planStages : plan.Plan :=
  plan.mkPlan
    (plan.NewExplain
       (plan.NewLimit
          (plan.NewOffset
             (plan.NewOrder
                (plan.NewEliminateDuplicates
                   (plan.NewProjector
                      (plan.NewFilter headDual (LiteralBool true))
                      [NewStarResultExpression] true))
                [SortExpression.mk formalA true] [])
             2)
          0)).

(** A site whose every pool and bucket resolve, the bucket listing
    [indexes]; and one whose bucket cannot list its indexes. *)
Definition siteWith (indexes : result (list catalog.Index)) : catalog.Site.t :=
  catalog.Site.mk
    (fun p =>
       Ok (catalog.Pool.mk p (fun b => Ok (catalog.Bucket.mk b indexes)))).

(** [SELECT * FROM elsewhere:b], [SELECT * FROM nowhere] and
    [SELECT * FROM b WHERE true] with the bucket name left empty. *)
Definition stmtElsewhere : SelectStatement.t :=
  SelectStatement.mk false [NewStarResultExpression]
    (Some (From.mk "elsewhere" "b" None "b" None))
    None None None None (-1) 0 false [] [].

Definition stmtNowhere : SelectStatement.t :=
  SelectStatement.mk false [NewStarResultExpression]
    (Some (From.mk "" "nowhere" None "nowhere" None))
    None None None None (-1) 0 false [] [].

Definition fromUnnamed : From.t := From.mk "" "" None "" None.

Definition stmtUnnamed : SelectStatement.t :=
  SelectStatement.mk false [NewStarResultExpression] (Some fromUnnamed)
    (Some (LiteralBool true)) None None None (-1) 0 false [] [].

(** [CREATE INDEX idx ON b(a)] and [DROP INDEX b.idx] in the default pool,
    the first explained. *)
Definition stmtCreateB : CreateIndexStatement.t :=
  CreateIndexStatement.mk "" "b" "idx" "btree" [fieldA] true.

Definition stmtDropB : DropIndexStatement.t :=
  DropIndexStatement.mk "" "b" "idx" false.

(** An index without key components, and one on [a] then [c]. *)
Definition indexEmpty : catalog.RangeIndex.t :=
  catalog.RangeIndex.mk "idx_empty" [].

Definition indexAC : catalog.RangeIndex.t :=
  catalog.RangeIndex.mk "idx_a_c" [fieldA; Property "c"].

(** Visitors whose negation normal form, or whose conjunctive normal form,
    fails. *)
Definition visitorsFailingNNF : Visitors := {|
  NNF := fun _ => Err "no negation normal form";
  CNF := fun e => Ok (reference.cnf e);
  FormalNotation := reference.formalNotation;
  DependencyCheck := reference.dependencyCheck
|}.

Definition visitorsFailingCNF : Visitors := {|
  NNF := fun e => Ok (reference.nnf false e);
  CNF := fun _ => Err "no conjunctive normal form";
  FormalNotation := reference.formalNotation;
  DependencyCheck := reference.dependencyCheck
|}.

Definition twoPrimaries : list catalog.Index :=
  [catalog.PrimaryIndex "#primary"; catalog.PrimaryIndex "#alt"].

(** A bucket that lists a primary index, the range index on [a] and an index
    of another kind, and the same bucket without the range index. *)
Definition mixedIndexes : list catalog.Index :=
  [catalog.PrimaryIndex "#primary"; catalog.RangeIndex_ indexA;
   catalog.OtherIndex "view"].

Definition mixedWithoutRange : list catalog.Index :=
  [catalog.PrimaryIndex "#primary"; catalog.OtherIndex "view"].

(** An Offset operator skipping 2, its counter left at 7 by an earlier run;
    four items with a support message among them; what the source still
    offers after that. *)
Definition offset2 : xpipeline.Offset.t := xpipeline.Offset.mk 2 7.

Definition fourItems : list (xpipeline.Received nat string) :=
  [xpipeline.ItemReceived 10%nat;
   xpipeline.SupportReceived (xpipeline.SupportOther "note");
   xpipeline.ItemReceived 11%nat;
   xpipeline.ItemReceived 12%nat;
   xpipeline.ItemReceived 13%nat].

Definition moreUpstream : list (xpipeline.Received nat string) :=
  [xpipeline.ItemReceived 14%nat; xpipeline.ItemChannelClosed].

Definition boom : query.Error := query.NewError None "boom".

End examples.

(** * Properties *)

Section MergeRanges.

Context `{ops : plan.ScanRangeOps}.

Implicit Types (origr rv : plan.ScanRanges) (newr : plan.ScanRange.t).

Lemma mergeLoop_merged origr newr rv :
  simple.mergeLoop origr newr rv true = (rv ++ origr, true).
Proof.
  revert rv; induction origr as [|orig rest IH]; intros rv; simpl.
  - by rewrite app_nil_r.
  - by rewrite IH, <- app_assoc.
Qed.

Lemma mergeLoop_no_overlap origr newr rv :
  Forall (fun orig => plan.Overlap orig newr = None) origr ->
  simple.mergeLoop origr newr rv false = (rv ++ origr, false).
Proof.
  intros Hnone; revert rv.
  induction Hnone as [|orig rest Horig _ IH]; intros rv; simpl.
  - by rewrite app_nil_r.
  - by rewrite Horig, IH, <- app_assoc.
Qed.

Lemma mergeLoop_first_overlap pre orig post mergedRange newr rv :
  Forall (fun o => plan.Overlap o newr = None) pre ->
  plan.Overlap orig newr = Some mergedRange ->
  simple.mergeLoop (pre ++ orig :: post) newr rv false
  = (rv ++ pre ++ mergedRange :: post, true).
Proof.
  intros Hpre Hhit; revert rv.
  induction Hpre as [|o pre Ho _ IH]; intros rv; simpl.
  - by rewrite Hhit, mergeLoop_merged, <- app_assoc.
  - by rewrite Ho, IH, <- app_assoc.
Qed.

(** Every list either has no range overlapping [newr], or splits at the first
    one that does. *)
Lemma first_overlap_split origr newr :
  Forall (fun o => plan.Overlap o newr = None) origr
  \/ exists pre orig post mergedRange,
       origr = pre ++ orig :: post
       /\ Forall (fun o => plan.Overlap o newr = None) pre
       /\ plan.Overlap orig newr = Some mergedRange.
Proof.
  induction origr as [|o rest IH].
  - left; constructor.
  - destruct (plan.Overlap o newr) as [m|] eqn:Ho.
    + right; exists [], o, rest, m; repeat split; [constructor | done].
    + destruct IH as [Hnone | (pre & orig & post & m & -> & Hpre & Hhit)].
      * left; by constructor.
      * right; exists (o :: pre), orig, post, m; repeat split; [|done].
        by constructor.
Qed.

Lemma MergeRanges_no_overlap origr newr :
  Forall (fun o => plan.Overlap o newr = None) origr ->
  simple.MergeRanges origr newr = origr ++ [newr].
Proof.
  intros Hnone; unfold simple.MergeRanges.
  by rewrite (mergeLoop_no_overlap _ _ _ Hnone).
Qed.

Lemma MergeRanges_overlap pre orig post mergedRange newr :
  Forall (fun o => plan.Overlap o newr = None) pre ->
  plan.Overlap orig newr = Some mergedRange ->
  simple.MergeRanges (pre ++ orig :: post) newr = pre ++ mergedRange :: post.
Proof.
  intros Hpre Hhit; unfold simple.MergeRanges.
  by rewrite (mergeLoop_first_overlap _ _ _ _ _ _ Hpre Hhit).
Qed.

(** C4.  [MergeRanges] goes through the existing list in order.  Either some
    existing range overlaps the new one: then the first such range, and only
    it, is replaced by the combined range [Overlap] answers, every other range
    stays where it was, and the length is unchanged.  Or no existing range
    overlaps it: then the result is the existing list with the new range
    appended, one element longer. *)
Theorem MergeRanges_first_hit_or_append origr newr :
  (exists pre orig post mergedRange,
     origr = pre ++ orig :: post
     /\ Forall (fun o => plan.Overlap o newr = None) pre
     /\ plan.Overlap orig newr = Some mergedRange
     /\ simple.MergeRanges origr newr = pre ++ mergedRange :: post
     /\ length (simple.MergeRanges origr newr) = length origr)
  \/ (Forall (fun o => plan.Overlap o newr = None) origr
      /\ simple.MergeRanges origr newr = origr ++ [newr]
      /\ length (simple.MergeRanges origr newr) = S (length origr)).
Proof.
  destruct (first_overlap_split origr newr)
    as [Hnone | (pre & orig & post & m & -> & Hpre & Hhit)].
  - right. rewrite (MergeRanges_no_overlap _ _ Hnone).
    repeat split; [done|]. rewrite length_app; simpl; lia.
  - left. exists pre, orig, post, m.
    rewrite (MergeRanges_overlap _ _ _ _ _ Hpre Hhit).
    repeat split; try done. by rewrite !length_app.
Qed.

End MergeRanges.

Section WhereClause.

Context `{vis : ast.Visitors} `{ops : plan.ScanRangeOps}
        `{sarg : simple.Sargability}.

Import ast.

Lemma mergeEach_fold_left (rs rranges : plan.ScanRanges) :
  simple.mergeEach rs rranges = fold_left simple.MergeRanges rs rranges.
Proof. revert rranges; induction rs as [|r rs IH]; intros; simpl; auto. Qed.

(** The loop over the conjuncts, from any value of its two variables. *)
Lemma whereAndLoop_spec key0 keyRest operands found rranges :
  simple.whereAndLoop (key0 :: keyRest) operands found rranges
  = Ret (found
         || existsb
              (fun oper =>
                 simple.ExpressionSargable.IsSargable
                   (simple.sargableAccept key0 oper))
              operands,
         fold_left simple.MergeRanges (spec.conjunctRanges key0 operands)
           rranges).
Proof.
  revert found rranges.
  induction operands as [|oper rest IH]; intros found rranges.
  - simpl. by rewrite orb_false_r.
  - cbn [simple.whereAndLoop simple.keyAt0 bindE existsb].
    unfold spec.conjunctRanges, spec.sargableConjuncts in *.
    cbn [List.filter].
    destruct (simple.ExpressionSargable.IsSargable
                (simple.sargableAccept key0 oper)) eqn:Hs.
    + rewrite IH. cbn [flat_map].
      rewrite fold_left_app, mergeEach_fold_left.
      by rewrite orb_true_r.
    + by rewrite IH.
Qed.

(** The code's [MergeRanges] does what the specification's range merging
    says: the first overlapping range is replaced by the combined one, or the
    new range is appended. *)
Lemma mergeLoop_mergeIntoFirst origr newr rv :
  (let '(rv', merged) := simple.mergeLoop origr newr rv false in
   if negb merged then rv' ++ [newr] else rv')
  = rv ++ spec.mergeIntoFirst origr newr.
Proof.
  revert rv; induction origr as [|orig rest IH]; intros rv; [done|].
  cbn [simple.mergeLoop spec.mergeIntoFirst negb].
  destruct (plan.Overlap orig newr) as [mergedRange|].
  - rewrite mergeLoop_merged. cbn [negb].
    by rewrite <- app_assoc.
  - rewrite IH. by rewrite <- app_assoc.
Qed.

Lemma MergeRanges_mergeIntoFirst origr newr :
  simple.MergeRanges origr newr = spec.mergeIntoFirst origr newr.
Proof.
  unfold simple.MergeRanges.
  pose proof (mergeLoop_mergeIntoFirst origr newr []) as Hloop.
  by destruct (simple.mergeLoop origr newr [] false) as [rv merged].
Qed.

Lemma fold_MergeRanges_mergeIntoFirst (rs rranges : plan.ScanRanges) :
  fold_left simple.MergeRanges rs rranges
  = fold_left spec.mergeIntoFirst rs rranges.
Proof.
  revert rranges; induction rs as [|r rs IH]; intros rranges; [done|].
  cbn [fold_left]. by rewrite MergeRanges_mergeIntoFirst, IH.
Qed.

(** C3.  Once the index key converts to formal notation with first component
    [key0], and the WHERE expression converts to negation normal form and then
    to the conjunctive normal form [whereCNF]:
    if [whereCNF] is an AND, the index is usable exactly when one of its
    conjuncts is sargable against [key0], and the ranges returned are the
    merge-union of the ranges of the sargable conjuncts: each range, in order,
    merged into the list built so far, replacing the first range it overlaps
    by the combined range or else appended;
    if [whereCNF] is not an AND, the index is usable exactly when [whereCNF]
    as a whole is sargable against [key0], with the ranges of that analysis. *)
Theorem CanIUseThisIndexForThisWhereClause_cnf
    (index : catalog.RangeIndex.t) (where_ : Expression) (bucket : string)
    (key0 : Expression) (keyRest : catalog.IndexKey)
    (whereNNF whereCNF : Expression) :
  simple.IndexKeyInFormalNotation (catalog.RangeIndex.Key index) bucket
    = Ok (key0 :: keyRest) ->
  NNF where_ = Ok whereNNF ->
  CNF whereNNF = Ok whereCNF ->
  simple.CanIUseThisIndexForThisWhereClause index where_ bucket
  = Ret
      match whereCNF with
      | AndOperator operands =>
          if existsb
               (fun oper =>
                  simple.ExpressionSargable.IsSargable
                    (simple.sargableAccept key0 oper))
               operands
          then (true, spec.mergeUnion (spec.conjunctRanges key0 operands),
                None, None)
          else (false, [], None, None)
      | _ =>
          let es := simple.sargableAccept key0 whereCNF in
          if simple.ExpressionSargable.IsSargable es
          then (true, simple.ExpressionSargable.ScanRanges es, None, None)
          else (false, [], None, None)
      end.
Proof.
  intros Hkey Hnnf Hcnf.
  unfold simple.CanIUseThisIndexForThisWhereClause.
  rewrite Hkey, Hnnf, Hcnf.
  destruct whereCNF;
    try (cbn [simple.keyAt0 bindE];
         by destruct (simple.ExpressionSargable.IsSargable _)).
  rewrite whereAndLoop_spec. cbn [bindE orb].
  unfold spec.mergeUnion. rewrite fold_MergeRanges_mergeIntoFirst.
  by destruct (existsb _ _).
Qed.

End WhereClause.

Lemma CanIUseThisIndexForThisWhereClause_cnf_witness :
  @simple.IndexKeyInFormalNotation reference.visitors
     (catalog.RangeIndex.Key examples.indexA) "b" = Ok [examples.formalA]
  /\ @ast.NNF reference.visitors examples.whereA = Ok examples.whereA
  /\ @ast.CNF reference.visitors examples.whereA = Ok examples.whereA
  /\ @simple.CanIUseThisIndexForThisWhereClause reference.visitors
       reference.scanRangeOps reference.sargability
       examples.indexA examples.whereA "b"
     = Ret (true, [examples.above 3], None, None).
Proof.
  do 3 (split; [reflexivity|]).
  rewrite (@CanIUseThisIndexForThisWhereClause_cnf reference.visitors
             reference.scanRangeOps reference.sargability
             examples.indexA examples.whereA "b" examples.formalA []
             examples.whereA examples.whereA
             eq_refl eq_refl eq_refl).
  reflexivity.
Defined.

Section Covering.

Context `{vis : ast.Visitors}.

Import ast.

Lemma deps_of_key (indexKeyFormal : catalog.IndexKey) (deps : ExpressionList) :
  fold_left (fun deps indexKey => deps ++ [indexKey]) indexKeyFormal deps
  = deps ++ indexKeyFormal.
Proof.
  revert deps; induction indexKeyFormal as [|k ks IH]; intros deps; simpl.
  - by rewrite app_nil_r.
  - by rewrite IH, <- app_assoc.
Qed.

Lemma coverEach_forallb deps es :
  simple.coverEach deps es = forallb (simple.determined deps) es.
Proof.
  induction es as [|e es IH]; simpl; [done|].
  rewrite IH. by destruct (simple.determined deps e).
Qed.

Lemma coverOptional_forallb deps e :
  simple.coverOptional deps e
  = forallb (simple.determined deps) (option_list e).
Proof. destruct e; simpl; [by rewrite andb_true_r | done]. Qed.

(** The projection loop fails on the first entry that is a wildcard, lacks an
    expression, or fails the check: as a verdict, the projection is plain and
    each of its expressions passes. *)
Lemma coverProjection_forallb deps select :
  simple.coverProjection deps select
  = spec.plainProjection select
    && forallb (simple.determined deps) (omap ResultExpression.Expr select).
Proof.
  induction select as [|r rest IH]; [done|].
  cbn [simple.coverProjection spec.plainProjection forallb omap list_omap].
  destruct r as [[] [e|] a]; cbn; try done.
  fold (spec.plainProjection rest).
  fold (omap (M:=list) ResultExpression.Expr rest).
  rewrite IH.
  destruct (simple.determined deps e), (spec.plainProjection rest); cbn; done.
Qed.

(** C5, as amended.  For a statement with a From clause and an index whose key
    converts to formal notation as [deps]: [DoesIndexCoverStatement] is false
    when the From has a nested [Over] level or a projection entry is a
    wildcard or has no expression; otherwise it is true exactly when every
    projection entry, the WHERE clause, each GROUP BY term, the HAVING clause
    of a statement that has a GROUP BY, and each ORDER BY term pass the
    dependency check against all of [deps]. *)
Theorem DoesIndexCoverStatement_locations
    (index : catalog.RangeIndex.t) (stmt : SelectStatement.t)
    (from : From.t) (deps : ExpressionList) :
  SelectStatement.From stmt = Some from ->
  simple.IndexKeyInFormalNotation (catalog.RangeIndex.Key index)
    (From.As from) = Ok deps ->
  simple.DoesIndexCoverStatement index stmt
  = Ret (spec.coverVerdict (spec.locationsChecked stmt) from deps stmt).
Proof.
  intros Hfrom Hkey.
  unfold simple.DoesIndexCoverStatement, spec.coverVerdict.
  rewrite Hfrom.
  destruct (From.Over from) as [over|]; [done|].
  rewrite Hkey, deps_of_key, app_nil_l.
  rewrite coverProjection_forallb, coverOptional_forallb.
  unfold spec.locationsChecked.
  rewrite !forallb_app.
  replace (bool_decide (is_Some (@None From.t))) with false by done.
  destruct (spec.plainProjection _); cbn [andb negb]; [|done].
  destruct (forallb _ (omap _ _)); cbn [andb negb]; [|done].
  destruct (forallb _ (option_list (SelectStatement.Where stmt)));
    cbn [andb negb]; [|done].
  destruct (SelectStatement.GroupBy stmt) as [groupBy|],
           (SelectStatement.OrderBy stmt) as [orderBy|];
    unfold default, id;
    rewrite ?coverEach_forallb, ?coverOptional_forallb;
    cbn [forallb map andb negb];
    repeat match goal with
      | |- context [forallb ?f ?l] => destruct (forallb f l); cbn [andb negb]
      end;
    done.
Qed.

End Covering.

Lemma DoesIndexCoverStatement_locations_witness :
  ast.SelectStatement.From examples.stmtCovered = Some examples.fromB
  /\ @simple.IndexKeyInFormalNotation reference.visitors
       (catalog.RangeIndex.Key examples.indexA) (ast.From.As examples.fromB)
     = Ok [examples.formalA]
  /\ @simple.DoesIndexCoverStatement reference.visitors
       examples.indexA examples.stmtCovered = Ret true.
Proof.
  do 2 (split; [reflexivity|]).
  rewrite (@DoesIndexCoverStatement_locations reference.visitors
             examples.indexA examples.stmtCovered examples.fromB
             [examples.formalA] eq_refl eq_refl).
  reflexivity.
Defined.

(** C5 as stated fails: with a HAVING clause and no GROUP BY, the HAVING
    expression is not checked, and the index is reported covering although
    that expression does not pass the dependency check. *)
Lemma DoesIndexCoverStatement_having_without_group :
  @simple.DoesIndexCoverStatement reference.visitors
     examples.indexA examples.stmtHaving = Ret true
  /\ ~ @spec.coversAsStated reference.visitors
         examples.indexA examples.stmtHaving.
Proof.
  split; [reflexivity|].
  intros Hstated.
  specialize (Hstated examples.fromB [examples.formalA] eq_refl eq_refl).
  vm_compute in Hstated. discriminate Hstated.
Qed.

Section ProjectionOnly.

Context `{vis : ast.Visitors} `{sarg : simple.Sargability}.

Import ast.

(** When the loop over the result list runs to its end, every entry was
    accepted, and the flag it ends with tells whether every entry is a MIN. *)
Lemma projectionLoop_accepts key0 resultExprList allMin0 allMin1 :
  simple.projectionLoop [key0] resultExprList allMin0 = Some allMin1 ->
  Forall (spec.entryAccepted key0) resultExprList
  /\ allMin1 = allMin0 && spec.allMin resultExprList.
Proof.
  revert allMin0.
  induction resultExprList as [|r rest IH]; intros allMin0 Hloop.
  - injection Hloop as <-. split; [constructor|]. by rewrite andb_true_r.
  - cbn [simple.projectionLoop] in Hloop.
    destruct r as [star expr alias]; cbn in Hloop.
    destruct star; [discriminate|].
    destruct expr as [[]|]; cbn in Hloop; try discriminate.
    destruct Operands as [|[ostar oexpr] others]; cbn in Hloop;
      [discriminate|].
    destruct ostar; [discriminate|].
    destruct (DependencyCheck [key0] oexpr) eqn:Hdep; [discriminate|].
    apply IH in Hloop as [Hrest ->].
    split.
    + constructor; [|done].
      split; [done|]. by exists kind, false, oexpr, others.
    + cbn. by destruct kind, allMin0.
Qed.



End ProjectionOnly.


Section Planner.

Context `{vis : ast.Visitors} `{ops : plan.ScanRangeOps}
        `{sarg : simple.Sargability} `{names : system.Names}.

Import ast.

(** The sequence of conditionals in the loop over the plan heads applies the
    stages of the statement, in their fixed order. *)
Lemma completePlan_stagesOf (stmt : SelectStatement.t)
    (head : plan.PlanElement) :
  simple.completePlan stmt head
  = fold_left spec.applyStage (spec.stagesOf stmt) head.
Proof.
  unfold simple.completePlan, spec.stagesOf.
  unfold SelectStatement.GetWhere, SelectStatement.GetGroupBy,
    SelectStatement.GetHaving, SelectStatement.GetResultExpressionList,
    SelectStatement.IsDistinct, SelectStatement.GetOrderBy,
    SelectStatement.GetOffset, SelectStatement.GetLimit,
    SelectStatement.GetAggregateReferences,
    SelectStatement.GetExplicitProjectionAliases.
  rewrite Z.geb_leb.
  destruct stmt as [distinct select from where_ groupBy having orderBy
                      limit offset explainOnly aggs aliases]; cbn.
  rewrite !fold_left_app.
  destruct where_, groupBy, having, distinct, orderBy, (offset =? 0),
    (0 <=? limit), explainOnly; reflexivity.
Qed.

(** What [buildSelectStatementPlans] sends once pool, bucket and indexes have
    resolved and the loop over the indexes has produced [planHeads]. *)
Lemma buildSelectStatementPlans_resolved
    (this : simple.SimplePlanner.t) (stmt : SelectStatement.t)
    (pool : catalog.Pool.t) (bucket : catalog.Bucket.t)
    (indexes : list catalog.Index) (planHeads : list plan.PlanElement) :
  let from := simple.resolveFrom stmt in
  catalog.Site.PoolByName (simple.SimplePlanner.site this)
    (simple.resolvePoolName this (From.Pool from)) = Ok pool ->
  catalog.Pool.BucketByName pool (From.Bucket from) = Ok bucket ->
  catalog.Bucket.Indexes bucket = Ok indexes ->
  simple.planHeadsLoop stmt pool bucket from indexes [] = Ret planHeads ->
  simple.buildSelectStatementPlans this stmt
  = Ret match planHeads with
        | [] =>
            simple.mkSent []
              [query.NewError None
                 ("No usable indexes found for bucket " +:+ From.Bucket from)]
        | _ =>
            simple.mkSent
              (map (fun head =>
                      plan.mkPlan
                        (fold_left spec.applyStage (spec.stagesOf stmt) head))
                 planHeads)
              []
        end.
Proof.
  intros from Hpool Hbucket Hindexes Hheads.
  unfold simple.buildSelectStatementPlans.
  fold from. rewrite Hpool, Hbucket, Hindexes, Hheads. cbn [bindE].
  destruct planHeads as [|head heads]; [done|].
  cbn [length Nat.eqb]. unfold simple.sendPlans. do 2 f_equal.
  apply map_ext. intros h. by rewrite completePlan_stagesOf.
Qed.

(** C1.  Above any plan head the planner puts exactly the stages of the
    statement in the fixed order: Filter(Where) if present, Group if GROUP BY
    is present, Filter(Having) if present, a Projector with include-metadata
    true, EliminateDuplicates if Distinct, Order if ORDER BY is present,
    Offset if the offset is not 0, Limit if the limit is at least 0, Explain
    if ExplainOnly.  When the catalog resolves and the loop over the indexes
    yields at least one plan head, the planner sends one such completed plan
    per plan head, in order, and no error. *)
Theorem buildSelectStatementPlans_stages
    (this : simple.SimplePlanner.t) (stmt : SelectStatement.t)
    (pool : catalog.Pool.t) (bucket : catalog.Bucket.t)
    (indexes : list catalog.Index) (planHeads : list plan.PlanElement) :
  let from := simple.resolveFrom stmt in
  catalog.Site.PoolByName (simple.SimplePlanner.site this)
    (simple.resolvePoolName this (From.Pool from)) = Ok pool ->
  catalog.Pool.BucketByName pool (From.Bucket from) = Ok bucket ->
  catalog.Bucket.Indexes bucket = Ok indexes ->
  simple.planHeadsLoop stmt pool bucket from indexes [] = Ret planHeads ->
  planHeads <> [] ->
  (forall head,
     simple.completePlan stmt head
     = fold_left spec.applyStage (spec.stagesOf stmt) head)
  /\ exists sent,
       simple.buildSelectStatementPlans this stmt = Ret sent
       /\ simple.ec sent = []
       /\ simple.pc sent
          = map (fun head =>
                   plan.mkPlan
                     (fold_left spec.applyStage (spec.stagesOf stmt) head))
              planHeads
       /\ length (simple.pc sent) = length planHeads.
Proof.
  intros from Hpool Hbucket Hindexes Hheads Hnonempty.
  split; [apply completePlan_stagesOf|].
  eexists. split.
  - exact (buildSelectStatementPlans_resolved this stmt pool bucket indexes
             planHeads Hpool Hbucket Hindexes Hheads).
  - destruct planHeads; [done|]. cbn [simple.ec simple.pc].
    by rewrite length_map.
Qed.

(** Without a WHERE clause an index yields a scan only if it is primary. *)
Lemma planHeadsLoop_no_where (stmt : SelectStatement.t)
    (pool : catalog.Pool.t) (bucket : catalog.Bucket.t) (from : From.t)
    (indexes : list catalog.Index) (planHeads : list plan.PlanElement) :
  SelectStatement.Where stmt = None ->
  simple.planHeadsLoop stmt pool bucket from indexes planHeads
  = Ret (planHeads ++ spec.primaryHeads pool bucket from indexes).
Proof.
  intros Hwhere. revert planHeads.
  induction indexes as [|index rest IH]; intros planHeads.
  - cbn. by rewrite app_nil_r.
  - cbn [simple.planHeadsLoop].
    destruct index as [name|index|name]; cbn [simple.indexScan bindE].
    + rewrite IH, <- app_assoc. done.
    + rewrite Hwhere. cbn [bindE]. by rewrite IH.
    + by rewrite IH.
Qed.

(** C7.  With pool, bucket and indexes resolved: for a statement without a
    WHERE clause a range index yields no scan, and the plan heads are those of
    the primary indexes alone; and whenever the loop over the indexes yields
    no plan head, the planner sends the one error "No usable indexes found
    for bucket" followed by the bucket name, and no plan. *)
Theorem buildSelectStatementPlans_no_usable_index
    (this : simple.SimplePlanner.t) (stmt : SelectStatement.t)
    (pool : catalog.Pool.t) (bucket : catalog.Bucket.t)
    (indexes : list catalog.Index) :
  let from := simple.resolveFrom stmt in
  catalog.Site.PoolByName (simple.SimplePlanner.site this)
    (simple.resolvePoolName this (From.Pool from)) = Ok pool ->
  catalog.Pool.BucketByName pool (From.Bucket from) = Ok bucket ->
  catalog.Bucket.Indexes bucket = Ok indexes ->
  (SelectStatement.Where stmt = None ->
     (forall index,
        simple.indexScan stmt pool bucket (catalog.RangeIndex_ index)
        = Ret None)
     /\ simple.planHeadsLoop stmt pool bucket from indexes []
        = Ret (spec.primaryHeads pool bucket from indexes))
  /\ (simple.planHeadsLoop stmt pool bucket from indexes [] = Ret [] ->
      simple.buildSelectStatementPlans this stmt
      = Ret (simple.mkSent []
               [query.NewError None
                  ("No usable indexes found for bucket "
                   +:+ From.Bucket from)])).
Proof.
  intros from Hpool Hbucket Hindexes. split.
  - intros Hwhere. split.
    + intros index. cbn. by rewrite Hwhere.
    + by rewrite planHeadsLoop_no_where.
  - intros Hheads.
    by rewrite (buildSelectStatementPlans_resolved this stmt pool bucket
                  indexes [] Hpool Hbucket Hindexes Hheads).
Qed.

(** C8.  When the pool lookup fails, CreateIndex and DropIndex planning send
    the pool-not-found error with the planner's default pool name, whatever
    pool name the statement gave, and no plan. *)
Theorem index_statement_pool_not_found
    (this : simple.SimplePlanner.t) :
  (forall (stmt : CreateIndexStatement.t) (e : error),
     catalog.Site.PoolByName (simple.SimplePlanner.site this)
       (simple.resolvePoolName this (CreateIndexStatement.Pool stmt)) = Err e ->
     simple.buildCreateIndexStatementPlans this stmt
     = simple.mkSent []
         [query.NewPoolDoesNotExist (simple.SimplePlanner.defaultPool this)])
  /\ (forall (stmt : DropIndexStatement.t) (e : error),
        catalog.Site.PoolByName (simple.SimplePlanner.site this)
          (simple.resolvePoolName this (DropIndexStatement.Pool stmt)) = Err e ->
        simple.buildDropIndexStatementPlans this stmt
        = simple.mkSent []
            [query.NewPoolDoesNotExist (simple.SimplePlanner.defaultPool this)]).
Proof.
  split; intros stmt e Hpool.
  - unfold simple.buildCreateIndexStatementPlans. by rewrite Hpool.
  - unfold simple.buildDropIndexStatementPlans. by rewrite Hpool.
Qed.

(** With a WHERE clause and no From on the statement, the loop over the
    indexes panics at the first range index it meets. *)
Lemma planHeadsLoop_nil_from (stmt : SelectStatement.t) (where_ : Expression)
    (pool : catalog.Pool.t) (bucket : catalog.Bucket.t) (from : From.t)
    (indexes : list catalog.Index) (index : catalog.RangeIndex.t)
    (planHeads : list plan.PlanElement) :
  SelectStatement.From stmt = None ->
  SelectStatement.Where stmt = Some where_ ->
  In (catalog.RangeIndex_ index) indexes ->
  simple.planHeadsLoop stmt pool bucket from indexes planHeads
  = Panic NilDereference.
Proof.
  intros Hfrom Hwhere. revert planHeads.
  induction indexes as [|i rest IH]; intros planHeads Hin; [destruct Hin|].
  cbn [simple.planHeadsLoop].
  destruct i as [name|i|name]; cbn [simple.indexScan bindE].
  - apply IH. destruct Hin as [Heq|Hin]; [discriminate|done].
  - rewrite Hwhere. unfold simple.stmtFromBucket. by rewrite Hfrom.
  - apply IH. destruct Hin as [Heq|Hin]; [discriminate|done].
Qed.

(** C10.  The usability check of a range index is called with the bucket name
    of the statement's own From, [stmt.From.Bucket].  So for a statement
    without FROM and with a WHERE clause, that call dereferences nil; and when
    the synthetic pool and bucket resolve to a bucket that lists a range
    index, planning the statement panics with a nil dereference. *)
Theorem buildSelectStatementPlans_nil_from
    (this : simple.SimplePlanner.t) (stmt : SelectStatement.t)
    (where_ : Expression) (pool : catalog.Pool.t) (bucket : catalog.Bucket.t)
    (indexes : list catalog.Index) (index : catalog.RangeIndex.t) :
  SelectStatement.Where stmt = Some where_ ->
  (forall from,
     SelectStatement.From stmt = Some from ->
     simple.indexScan stmt pool bucket (catalog.RangeIndex_ index)
     = bindE (simple.CanIUseThisIndexForThisWhereClause index where_
                (From.Bucket from))
         (fun r => Ret (simple.rangeScan pool bucket index r)))
  /\ (SelectStatement.From stmt = None ->
      simple.indexScan stmt pool bucket (catalog.RangeIndex_ index)
      = Panic NilDereference)
  /\ (SelectStatement.From stmt = None ->
      catalog.Site.PoolByName (simple.SimplePlanner.site this)
        (simple.resolvePoolName this system.POOL_NAME) = Ok pool ->
      catalog.Pool.BucketByName pool system.BUCKET_NAME_DUAL = Ok bucket ->
      catalog.Bucket.Indexes bucket = Ok indexes ->
      In (catalog.RangeIndex_ index) indexes ->
      simple.buildSelectStatementPlans this stmt = Panic NilDereference).
Proof.
  intros Hwhere. split; [|split].
  - intros from Hfrom. cbn [simple.indexScan].
    rewrite Hwhere. unfold simple.stmtFromBucket. by rewrite Hfrom.
  - intros Hfrom. cbn [simple.indexScan].
    rewrite Hwhere. unfold simple.stmtFromBucket. by rewrite Hfrom.
  - intros Hfrom Hpool Hbucket Hindexes Hin.
    unfold simple.buildSelectStatementPlans, simple.resolveFrom,
      SelectStatement.GetFrom.
    rewrite Hfrom. cbn [From.Pool From.Bucket].
    rewrite Hpool, Hbucket, Hindexes.
    by rewrite (planHeadsLoop_nil_from stmt where_ pool bucket _ indexes index
                  [] Hfrom Hwhere Hin).
Qed.

End Planner.

Lemma buildSelectStatementPlans_stages_witness :
  catalog.Site.PoolByName (simple.SimplePlanner.site examples.planner)
    (simple.resolvePoolName examples.planner (ast.From.Pool examples.fromDual))
  = Ok examples.poolSystem
  /\ catalog.Pool.BucketByName examples.poolSystem
       (ast.From.Bucket examples.fromDual) = Ok examples.bucketDual
  /\ catalog.Bucket.Indexes examples.bucketDual = Ok examples.indexesDual
  /\ @simple.planHeadsLoop reference.visitors reference.scanRangeOps
       reference.sargability examples.stmtStages examples.poolSystem
       examples.bucketDual examples.fromDual examples.indexesDual []
     = Ret [examples.headDual]
  /\ [examples.headDual] <> []
  /\ exists sent,
       @simple.buildSelectStatementPlans reference.visitors
         reference.scanRangeOps reference.sargability reference.systemNames
         examples.planner examples.stmtStages = Ret sent
       /\ simple.pc sent = [examples.planStages].
Proof.
  do 4 (split; [reflexivity|]).
  split; [discriminate|].
  destruct (@buildSelectStatementPlans_stages reference.visitors
              reference.scanRangeOps reference.sargability
              reference.systemNames examples.planner examples.stmtStages
              examples.poolSystem examples.bucketDual examples.indexesDual
              [examples.headDual]
              eq_refl eq_refl eq_refl eq_refl
              (fun H : [examples.headDual] = [] =>
                 eq_ind [examples.headDual]
                   (fun l => match l with [] => False | _ => True end)
                   I [] H))
    as [_ [sent [Hbuild [_ [Hpc _]]]]].
  exists sent. split; [exact Hbuild|]. exact Hpc.
Defined.

Lemma buildSelectStatementPlans_no_usable_index_witness :
  catalog.Site.PoolByName (simple.SimplePlanner.site examples.planner)
    (simple.resolvePoolName examples.planner (ast.From.Pool examples.fromB))
  = Ok examples.poolDefault
  /\ catalog.Pool.BucketByName examples.poolDefault
       (ast.From.Bucket examples.fromB) = Ok examples.bucketB
  /\ catalog.Bucket.Indexes examples.bucketB = Ok examples.indexesB
  /\ ast.SelectStatement.Where examples.stmtNoWhere = None
  /\ @simple.buildSelectStatementPlans reference.visitors
       reference.scanRangeOps reference.sargability reference.systemNames
       examples.planner examples.stmtNoWhere
     = Ret (simple.mkSent []
              [query.NewError None "No usable indexes found for bucket b"]).
Proof.
  do 4 (split; [reflexivity|]).
  destruct (@buildSelectStatementPlans_no_usable_index reference.visitors
              reference.scanRangeOps reference.sargability
              reference.systemNames examples.planner examples.stmtNoWhere
              examples.poolDefault examples.bucketB examples.indexesB
              eq_refl eq_refl eq_refl)
    as [Hheads Hnone].
  destruct (Hheads eq_refl) as [_ Hloop].
  exact (Hnone Hloop).
Defined.

Lemma index_statement_pool_not_found_witness :
  catalog.Site.PoolByName (simple.SimplePlanner.site examples.planner)
    (simple.resolvePoolName examples.planner
       (ast.CreateIndexStatement.Pool examples.stmtCreate))
  = Err "pool not found: elsewhere"
  /\ simple.buildCreateIndexStatementPlans examples.planner examples.stmtCreate
     = simple.mkSent [] [query.NewPoolDoesNotExist "default"]
  /\ simple.buildDropIndexStatementPlans examples.planner examples.stmtDrop
     = simple.mkSent [] [query.NewPoolDoesNotExist "default"].
Proof.
  split; [reflexivity|].
  destruct (index_statement_pool_not_found examples.planner)
    as [Hcreate Hdrop].
  split.
  - exact (Hcreate examples.stmtCreate "pool not found: elsewhere" eq_refl).
  - exact (Hdrop examples.stmtDrop "pool not found: elsewhere" eq_refl).
Defined.

Lemma buildSelectStatementPlans_nil_from_witness :
  ast.SelectStatement.Where examples.stmtNoFrom = Some (ast.LiteralBool true)
  /\ ast.SelectStatement.From examples.stmtNoFrom = None
  /\ catalog.Site.PoolByName (simple.SimplePlanner.site examples.planner)
       (simple.resolvePoolName examples.planner "system")
     = Ok examples.poolSystem
  /\ catalog.Pool.BucketByName examples.poolSystem "dual"
     = Ok examples.bucketDual
  /\ catalog.Bucket.Indexes examples.bucketDual = Ok examples.indexesDual
  /\ In (catalog.RangeIndex_ examples.indexA) examples.indexesDual
  /\ @simple.buildSelectStatementPlans reference.visitors
       reference.scanRangeOps reference.sargability reference.systemNames
       examples.planner examples.stmtNoFrom
     = Panic NilDereference.
Proof.
  do 5 (split; [reflexivity|]).
  split; [right; left; reflexivity|].
  destruct (@buildSelectStatementPlans_nil_from reference.visitors
              reference.scanRangeOps reference.sargability
              reference.systemNames examples.planner examples.stmtNoFrom
              (ast.LiteralBool true) examples.poolSystem examples.bucketDual
              examples.indexesDual examples.indexA eq_refl)
    as [_ [_ Hpanic]].
  exact (Hpanic eq_refl eq_refl eq_refl eq_refl
           (or_intror (or_introl eq_refl))).
Defined.

Section OffsetOperator.

Context {Item Other : Type}.

Implicit Types (received : list (xpipeline.Received Item Other))
               (out : list (xpipeline.Sent Item Other)).

Lemma wrapInt_in_range (z : Z) :
  - 2 ^ 63 <= z <= xpipeline.maxInt -> xpipeline.wrapInt z = z.
Proof.
  unfold xpipeline.wrapInt, xpipeline.maxInt. intros Hz.
  rewrite Z.mod_small; lia.
Qed.

Lemma itemsReceived_item (item : Item) received :
  xpipeline.itemsReceived (xpipeline.ItemReceived item :: received)
  = item :: xpipeline.itemsReceived received.
Proof. reflexivity. Qed.

Lemma itemsReceived_support (obj : xpipeline.Support Other) received :
  xpipeline.itemsReceived (xpipeline.SupportReceived obj :: received)
  = xpipeline.itemsReceived received.
Proof. reflexivity. Qed.

Lemma itemsSent_forwardAfter skip received :
  xpipeline.itemsSent (spec.forwardAfter skip received)
  = drop skip (xpipeline.itemsReceived received).
Proof.
  revert skip; induction received as [|r rest IH]; intros skip.
  - by destruct skip.
  - destruct r as [item| |obj|]; try apply IH.
    rewrite itemsReceived_item.
    destruct skip as [|skip]; cbn [spec.forwardAfter drop].
    + change (item :: xpipeline.itemsSent (spec.forwardAfter 0 rest)
              = item :: xpipeline.itemsReceived rest).
      f_equal. by rewrite IH.
    + apply IH.
Qed.

Lemma supportSent_forwardAfter skip received :
  xpipeline.supportSent (spec.forwardAfter skip received)
  = spec.supportReceived received.
Proof.
  revert skip; induction received as [|r rest IH]; intros skip; [done|].
  destruct r as [item| |obj|]; cbn; try apply IH.
  - destruct skip; cbn; apply IH.
  - f_equal. apply IH.
Qed.

(** The loop over receptions that all let it go on, from a counter [count]
    that has not wrapped: it skips while the counter is at most the offset,
    forwards everything else, and is still receiving at the end. *)
Lemma receiveLoop_continues (offset count : Z) out received :
  Forall (fun r => xpipeline.continues r = true) received ->
  0 <= count ->
  count + Z.of_nat (length (xpipeline.itemsReceived received))
    <= xpipeline.maxInt ->
  xpipeline.receiveLoop (xpipeline.Offset.mk offset count) out received
  = xpipeline.mkRunning
      (xpipeline.Offset.mk offset
         (count + Z.of_nat (length (xpipeline.itemsReceived received))))
      (out ++ spec.forwardAfter (Z.to_nat (offset - count)) received)
      false.
Proof.
  intros Hcont. revert count out.
  induction Hcont as [|r rest Hr _ IH]; intros count out Hcount Hmax.
  - cbn. by rewrite Z.add_0_r, app_nil_r.
  - destruct r as [item| |[e|obj]|]; try discriminate Hr.
    + rewrite itemsReceived_item in Hmax |- *.
      cbn [length] in Hmax |- *.
      cbn [xpipeline.receiveLoop]. unfold xpipeline.processItem.
      cbn [xpipeline.Offset.Offset xpipeline.Offset.count].
      rewrite wrapInt_in_range by (unfold xpipeline.maxInt in *; lia).
      destruct (count + 1 <=? offset) eqn:Hskip.
      * apply Z.leb_le in Hskip.
        rewrite IH by lia. rewrite app_nil_r.
        replace (Z.to_nat (offset - count))
          with (S (Z.to_nat (offset - (count + 1)))) by lia.
        cbn [spec.forwardAfter]. do 2 f_equal. lia.
      * apply Z.leb_gt in Hskip.
        rewrite IH by lia.
        replace (Z.to_nat (offset - count)) with O by lia.
        replace (Z.to_nat (offset - (count + 1))) with O by lia.
        cbn [spec.forwardAfter]. rewrite <- app_assoc. do 2 f_equal. lia.
    + rewrite itemsReceived_support in Hmax |- *.
      cbn [xpipeline.receiveLoop spec.forwardAfter].
      rewrite IH by lia. by rewrite <- app_assoc.
Qed.

Lemma receiveLoop_app (this : xpipeline.Offset.t) out received tail :
  Forall (fun r => xpipeline.continues r = true) received ->
  xpipeline.receiveLoop this out (received ++ tail)
  = xpipeline.receiveLoop
      (xpipeline.this_ (xpipeline.receiveLoop this out received))
      (xpipeline.sent (xpipeline.receiveLoop this out received))
      tail.
Proof.
  intros Hcont. revert this out.
  induction Hcont as [|r rest Hr _ IH]; intros this out; [done|].
  destruct r as [item| |[e|obj]|]; try discriminate Hr.
  - cbn [app xpipeline.receiveLoop].
    destruct (xpipeline.processItem this item) as [this' s]. apply IH.
  - cbn [app xpipeline.receiveLoop]. apply IH.
Qed.

(** C2.  Let the operator receive, before anything else, a sequence
    [received] of items and non-error support messages, holding N items
    (N within the range of the counter), with an offset K, 0 <= K <= N.
    Whatever the counter held before, [Run] starts it at 0.  Then:
      - while the source goes on, everything sent is the items after the
        first K and every support message, in the order received;
      - if the source's channel then closes, [Run] returns having sent
        exactly the N - K = max(0, N - K) items after the first K, unchanged
        and in their order, and every support message unchanged;
      - if instead an Error arrives, [Run] forwards it on the support channel
        after what it had sent and returns: nothing of what the source still
        offers is sent. *)
Theorem Offset_Run_skips
    (this : xpipeline.Offset.t) received
    (tail : list (xpipeline.Received Item Other)) (e : query.Error) :
  let K := xpipeline.Offset.Offset this in
  let items := xpipeline.itemsReceived received in
  let N := Z.of_nat (length items) in
  Forall (fun r => xpipeline.continues r = true) received ->
  0 <= K <= N ->
  N <= xpipeline.maxInt ->
  xpipeline.Run this received
    = xpipeline.Run (xpipeline.Offset.mk K 0) received
  /\ xpipeline.sent (xpipeline.Run this received)
     = spec.forwardAfter (Z.to_nat K) received
  /\ (forall closed,
        closed = xpipeline.ItemChannelClosed
        \/ closed = xpipeline.SupportChannelClosed ->
        let run := xpipeline.Run this (received ++ closed :: tail) in
        xpipeline.returned run = true
        /\ xpipeline.itemsSent (xpipeline.sent run) = drop (Z.to_nat K) items
        /\ Z.of_nat (length (xpipeline.itemsSent (xpipeline.sent run)))
           = Z.max 0 (N - K)
        /\ xpipeline.supportSent (xpipeline.sent run)
           = spec.supportReceived received)
  /\ (let run :=
        xpipeline.Run this
          (received ++ xpipeline.SupportReceived (xpipeline.SupportError e)
                    :: tail) in
      xpipeline.returned run = true
      /\ xpipeline.sent run
         = xpipeline.sent (xpipeline.Run this received)
           ++ [xpipeline.SupportSent (xpipeline.SupportError e)]
      /\ xpipeline.itemsSent (xpipeline.sent run)
         = xpipeline.itemsSent (xpipeline.sent (xpipeline.Run this received))).
Proof.
  intros K items N Hcont HK HN.
  assert (Hrun : xpipeline.Run this received
                 = xpipeline.mkRunning (xpipeline.Offset.mk K N)
                     (spec.forwardAfter (Z.to_nat K) received) false).
  { unfold xpipeline.Run. fold K.
    rewrite receiveLoop_continues by (try done; fold items; fold N; lia).
    fold items. fold N. rewrite Z.sub_0_r. by rewrite Z.add_0_l. }
  assert (Happ : forall t,
            xpipeline.Run this (received ++ t)
            = xpipeline.receiveLoop (xpipeline.Offset.mk K N)
                (spec.forwardAfter (Z.to_nat K) received) t).
  { intros t. unfold xpipeline.Run in *. fold K in Hrun |- *.
    rewrite receiveLoop_app by done. by rewrite Hrun. }
  split; [done|]. split; [by rewrite Hrun|]. split.
  - intros closed Hclosed run. subst run. rewrite Happ.
    assert (Hsent : xpipeline.receiveLoop (xpipeline.Offset.mk K N)
                      (spec.forwardAfter (Z.to_nat K) received)
                      (closed :: tail)
                    = xpipeline.mkRunning (xpipeline.Offset.mk K N)
                        (spec.forwardAfter (Z.to_nat K) received) true)
      by (destruct Hclosed as [-> | ->]; reflexivity).
    rewrite Hsent. cbn [xpipeline.returned xpipeline.sent].
    rewrite itemsSent_forwardAfter, supportSent_forwardAfter.
    fold items. repeat split; try done.
    rewrite length_drop. subst N. lia.
  - intros run. subst run. rewrite Happ, Hrun.
    cbn [xpipeline.receiveLoop xpipeline.returned xpipeline.sent].
    repeat split; try done.
    unfold xpipeline.itemsSent. rewrite omap_app. cbn. by rewrite app_nil_r.
Qed.

End OffsetOperator.

Lemma Offset_Run_skips_witness :
  Forall (fun r => xpipeline.continues r = true) examples.fourItems
  /\ 0 <= xpipeline.Offset.Offset examples.offset2
       <= Z.of_nat (length (xpipeline.itemsReceived examples.fourItems))
  /\ Z.of_nat (length (xpipeline.itemsReceived examples.fourItems))
     <= xpipeline.maxInt
  /\ xpipeline.itemsSent
       (xpipeline.sent
          (xpipeline.Run examples.offset2
             (examples.fourItems
              ++ xpipeline.ItemChannelClosed :: examples.moreUpstream)))
     = [12%nat; 13%nat]
  /\ xpipeline.sent
       (xpipeline.Run examples.offset2
          (examples.fourItems
           ++ xpipeline.SupportReceived (xpipeline.SupportError examples.boom)
              :: examples.moreUpstream))
     = [xpipeline.SupportSent (xpipeline.SupportOther "note");
        xpipeline.ItemSent 12%nat; xpipeline.ItemSent 13%nat;
        xpipeline.SupportSent (xpipeline.SupportError examples.boom)].
Proof.
  assert (Hcont : Forall (fun r => xpipeline.continues r = true)
                    examples.fourItems)
    by (repeat constructor).
  assert (HK : 0 <= xpipeline.Offset.Offset examples.offset2
               <= Z.of_nat (length (xpipeline.itemsReceived examples.fourItems)))
    by (cbn; lia).
  assert (HN : Z.of_nat (length (xpipeline.itemsReceived examples.fourItems))
               <= xpipeline.maxInt)
    by (vm_compute; discriminate).
  do 3 (split; [assumption|]).
  destruct (Offset_Run_skips examples.offset2 examples.fourItems
              examples.moreUpstream examples.boom Hcont HK HN)
    as [_ [Hsent [Hclosed [_ [Herror _]]]]].
  split.
  - destruct (Hclosed xpipeline.ItemChannelClosed (or_introl eq_refl))
      as [_ [Hitems _]].
    exact Hitems.
  - rewrite Herror, Hsent. reflexivity.
Defined.

Section ParserTest.

Import ast.



End ParserTest.


(** ** The remaining exits, and the functions on concrete inputs *)

Section Exits.

Context `{vis : ast.Visitors} `{ops : plan.ScanRangeOps}
        `{sarg : simple.Sargability}.

Import ast.

(** A statement without a From makes [DoesIndexCoverStatement] dereference
    nil. *)
Lemma DoesIndexCoverStatement_nil_from (index : catalog.RangeIndex.t)
    (stmt : SelectStatement.t) :
  SelectStatement.From stmt = None ->
  simple.DoesIndexCoverStatement index stmt = Panic NilDereference.
Proof. intros Hfrom. unfold simple.DoesIndexCoverStatement. by rewrite Hfrom. Qed.

(** A key that does not convert to formal notation covers nothing. *)
Lemma DoesIndexCoverStatement_key_error (index : catalog.RangeIndex.t)
    (stmt : SelectStatement.t) (from : From.t) (e : error) :
  SelectStatement.From stmt = Some from ->
  simple.IndexKeyInFormalNotation (catalog.RangeIndex.Key index)
    (From.As from) = Err e ->
  simple.DoesIndexCoverStatement index stmt = Ret false.
Proof.
  intros Hfrom Hkey. unfold simple.DoesIndexCoverStatement.
  rewrite Hfrom, Hkey. by destruct (From.Over from).
Qed.

(** An index with an empty key: a WHERE clause whose normal form is not an
    AND indexes the key out of range. *)
Lemma CanIUseThisIndexForThisWhereClause_empty_key
    (index : catalog.RangeIndex.t) (where_ whereNNF whereCNF : Expression)
    (bucket : string) :
  simple.IndexKeyInFormalNotation (catalog.RangeIndex.Key index) bucket
    = Ok [] ->
  NNF where_ = Ok whereNNF ->
  CNF whereNNF = Ok whereCNF ->
  spec.isAnd whereCNF = false ->
  simple.CanIUseThisIndexForThisWhereClause index where_ bucket
  = Panic IndexOutOfRange.
Proof.
  intros Hkey Hnnf Hcnf Hand.
  unfold simple.CanIUseThisIndexForThisWhereClause.
  rewrite Hkey, Hnnf, Hcnf. by destruct whereCNF.
Qed.

(** An error of either normal-form conversion is handed back. *)
Lemma CanIUseThisIndexForThisWhereClause_nnf_error
    (index : catalog.RangeIndex.t) (where_ : Expression) (bucket : string)
    (key : catalog.IndexKey) (e : error) :
  simple.IndexKeyInFormalNotation (catalog.RangeIndex.Key index) bucket
    = Ok key ->
  NNF where_ = Err e ->
  simple.CanIUseThisIndexForThisWhereClause index where_ bucket
  = Ret (false, [], None, Some e).
Proof.
  intros Hkey Hnnf. unfold simple.CanIUseThisIndexForThisWhereClause.
  by rewrite Hkey, Hnnf.
Qed.

End Exits.

(** The second range overlaps the new one and absorbs it; the first does
    not. *)
Example MergeRanges_merges_into_overlapping :
  @simple.MergeRanges reference.scanRangeOps
    [examples.below 2; examples.above 5] (examples.above 3)
  = [examples.below 2; examples.above 3].
Proof. reflexivity. Qed.

(** No existing range overlaps: the new one is appended. *)
Example MergeRanges_appends_disjoint :
  @simple.MergeRanges reference.scanRangeOps
    [examples.below 2] (examples.above 3)
  = [examples.below 2; examples.above 3].
Proof. reflexivity. Qed.

(** Only the first overlapping range is merged: the second stays, although it
    now lies inside the first. *)
Example MergeRanges_first_hit_only :
  @simple.MergeRanges reference.scanRangeOps
    [examples.above 5; examples.above 7] (examples.above 3)
  = [examples.above 3; examples.above 7].
Proof. reflexivity. Qed.

(** The planner on a statement with FROM: the range index of [:system.dual]
    is not usable for [WHERE true], the primary index gives the one plan. *)
Example buildSelectStatementPlans_one_plan :
  @simple.buildSelectStatementPlans reference.visitors reference.scanRangeOps
    reference.sargability reference.systemNames
    examples.planner examples.stmtStages
  = Ret (simple.mkSent [examples.planStages] []).
Proof. reflexivity. Qed.

(** An Offset larger than the input sends no item. *)
Example Offset_Run_skips_all :
  xpipeline.itemsSent
    (xpipeline.sent
       (xpipeline.Run (xpipeline.NewOffset 9)
          (examples.fourItems ++ [xpipeline.SupportChannelClosed])))
  = [].
Proof. reflexivity. Qed.

(** * Further properties of the planner *)

Section PlannerResolution.

Context `{vis : ast.Visitors} `{ops : plan.ScanRangeOps}
        `{sarg : simple.Sargability} `{names : system.Names}.

Import ast.

(** X1.  Select planning stops at the first lookup that fails, with one error
    and no plan: a pool that does not resolve is reported under the name
    that was looked up (the statement's pool, or the default pool when the
    statement names none); a bucket that does not resolve under the bucket
    name of the From; indexes that cannot be listed as a generic error
    wrapping the cause, "No indexes found for bucket" and the bucket name. *)
Theorem buildSelectStatementPlans_resolution_errors
    (this : simple.SimplePlanner.t) (stmt : SelectStatement.t) :
  let from := simple.resolveFrom stmt in
  let poolName := simple.resolvePoolName this (From.Pool from) in
  (forall e,
     catalog.Site.PoolByName (simple.SimplePlanner.site this) poolName = Err e ->
     simple.buildSelectStatementPlans this stmt
     = Ret (simple.mkSent [] [query.NewPoolDoesNotExist poolName]))
  /\ (forall pool e,
        catalog.Site.PoolByName (simple.SimplePlanner.site this) poolName
          = Ok pool ->
        catalog.Pool.BucketByName pool (From.Bucket from) = Err e ->
        simple.buildSelectStatementPlans this stmt
        = Ret (simple.mkSent []
                 [query.NewBucketDoesNotExist (From.Bucket from)]))
  /\ (forall pool bucket err,
        catalog.Site.PoolByName (simple.SimplePlanner.site this) poolName
          = Ok pool ->
        catalog.Pool.BucketByName pool (From.Bucket from) = Ok bucket ->
        catalog.Bucket.Indexes bucket = Err err ->
        simple.buildSelectStatementPlans this stmt
        = Ret (simple.mkSent []
                 [query.NewError (Some err)
                    ("No indexes found for bucket " +:+ From.Bucket from)])).
Proof.
  intros from poolName. unfold simple.buildSelectStatementPlans.
  fold from. fold poolName. repeat split.
  - intros e Hpool. by rewrite Hpool.
  - intros pool e Hpool Hbucket. by rewrite Hpool, Hbucket.
  - intros pool bucket err Hpool Hbucket Hindexes.
    by rewrite Hpool, Hbucket, Hindexes.
Qed.

(** A primary index yields its scan whatever the statement. *)
Lemma planHeadsLoop_primary (stmt : SelectStatement.t)
    (pool : catalog.Pool.t) (bucket : catalog.Bucket.t) (from : From.t)
    (indexes : list catalog.Index) (planHeads : list plan.PlanElement) :
  forallb spec.isPrimary indexes = true ->
  simple.planHeadsLoop stmt pool bucket from indexes planHeads
  = Ret (planHeads ++ spec.primaryHeads pool bucket from indexes).
Proof.
  revert planHeads.
  induction indexes as [|index rest IH]; intros planHeads Hprimary.
  - cbn. by rewrite app_nil_r.
  - destruct index as [name| |]; try discriminate Hprimary.
    cbn [simple.planHeadsLoop simple.indexScan bindE].
    rewrite IH by exact Hprimary. by rewrite <- app_assoc.
Qed.

Lemma primaryHeads_length (pool : catalog.Pool.t) (bucket : catalog.Bucket.t)
    (from : From.t) (indexes : list catalog.Index) :
  forallb spec.isPrimary indexes = true ->
  length (spec.primaryHeads pool bucket from indexes) = length indexes.
Proof.
  induction indexes as [|index rest IH]; [done|].
  destruct index; try discriminate. intros Hrest. cbn. f_equal. by apply IH.
Qed.

(** X2.  A primary index never consults the WHERE clause or the statement's
    From: for a bucket that lists primary indexes only, whatever the
    statement, the planner sends one plan per index, each over an unbounded
    scan of that index, and no error. *)
Theorem buildSelectStatementPlans_primary_indexes
    (this : simple.SimplePlanner.t) (stmt : SelectStatement.t)
    (pool : catalog.Pool.t) (bucket : catalog.Bucket.t)
    (indexes : list catalog.Index) :
  let from := simple.resolveFrom stmt in
  catalog.Site.PoolByName (simple.SimplePlanner.site this)
    (simple.resolvePoolName this (From.Pool from)) = Ok pool ->
  catalog.Pool.BucketByName pool (From.Bucket from) = Ok bucket ->
  catalog.Bucket.Indexes bucket = Ok indexes ->
  forallb spec.isPrimary indexes = true ->
  indexes <> [] ->
  simple.buildSelectStatementPlans this stmt
  = Ret (simple.mkSent
           (map (fun head => plan.mkPlan (simple.completePlan stmt head))
              (spec.primaryHeads pool bucket from indexes))
           [])
  /\ length (spec.primaryHeads pool bucket from indexes) = length indexes.
Proof.
  intros from Hpool Hbucket Hindexes Hprimary Hnonempty.
  split; [|by apply primaryHeads_length].
  unfold simple.buildSelectStatementPlans. fold from.
  rewrite Hpool, Hbucket, Hindexes, planHeadsLoop_primary by done.
  cbn [bindE app].
  assert (Hlen := primaryHeads_length pool bucket from indexes Hprimary).
  destruct (spec.primaryHeads pool bucket from indexes) as [|head heads];
    [|done].
  destruct indexes; [done|discriminate Hlen].
Qed.

(** The loop adds at most one plan head per index. *)
Lemma planHeadsLoop_length (stmt : SelectStatement.t)
    (pool : catalog.Pool.t) (bucket : catalog.Bucket.t) (from : From.t)
    (indexes : list catalog.Index) (planHeads heads : list plan.PlanElement) :
  simple.planHeadsLoop stmt pool bucket from indexes planHeads = Ret heads ->
  (length heads <= length planHeads + length indexes)%nat.
Proof.
  revert planHeads.
  induction indexes as [|index rest IH]; intros planHeads Hloop.
  - injection Hloop as <-. cbn. lia.
  - cbn [simple.planHeadsLoop] in Hloop.
    destruct (simple.indexScan stmt pool bucket index) as [[scan|]|];
      cbn [bindE] in Hloop; [| |discriminate].
    + apply IH in Hloop. rewrite length_app in Hloop. cbn in *. lia.
    + apply IH in Hloop. cbn. lia.
Qed.

(** X3.  Whatever the statement, when [buildPlans] returns it has sent at
    most one error, and never both a plan and an error; for a Select,
    CreateIndex or DropIndex statement it has sent one of the two. *)
Theorem buildPlans_plans_or_one_error
    (this : simple.SimplePlanner.t) (stmt : Statement) (sent : simple.Sent) :
  simple.buildPlans this stmt = Ret sent ->
  (length (simple.ec sent) <= 1)%nat
  /\ (simple.pc sent = [] \/ simple.ec sent = [])
  /\ (stmt <> OtherStatement ->
      simple.pc sent <> [] \/ simple.ec sent <> []).
Proof.
  intros Hbuild.
  assert (Hsent : forall (plans : list plan.Plan) (errors : list query.Error),
            (plans = [] /\ exists e, errors = [e])
            \/ (plans <> [] /\ errors = []) ->
            (length errors <= 1)%nat
            /\ (plans = [] \/ errors = [])
            /\ (plans <> [] \/ errors <> [])).
  { intros plans errors [[-> [e ->]] | [Hplans ->]]; cbn.
    - split; [lia|]. split; [by left|by right].
    - split; [lia|]. split; [by right|by left]. }
  assert (Hgoal : (simple.pc sent = [] /\ exists e, simple.ec sent = [e])
                  \/ (simple.pc sent <> [] /\ simple.ec sent = [])
                  \/ (stmt = OtherStatement /\ sent = simple.mkSent [] [])).
  { destruct stmt as [stmt|stmt|stmt|]; cbn in Hbuild.
    - unfold simple.buildSelectStatementPlans in Hbuild.
      destruct (catalog.Site.PoolByName _ _) as [pool|];
        [|injection Hbuild as <-; left; cbn; eauto].
      destruct (catalog.Pool.BucketByName _ _) as [bucket|];
        [|injection Hbuild as <-; left; cbn; eauto].
      destruct (catalog.Bucket.Indexes _) as [indexes|];
        [|injection Hbuild as <-; left; cbn; eauto].
      destruct (simple.planHeadsLoop _ _ _ _ _ _) as [heads|];
        [|discriminate].
      cbn [bindE] in Hbuild.
      destruct heads; injection Hbuild as <-; cbn; [left; eauto|].
      right; left. done.
    - unfold simple.buildCreateIndexStatementPlans in Hbuild.
      destruct (catalog.Site.PoolByName _ _) as [pool|];
        [|injection Hbuild as <-; left; cbn; eauto].
      destruct (catalog.Pool.BucketByName _ _) as [bucket|];
        injection Hbuild as <-; cbn; [right; left; done|left; eauto].
    - unfold simple.buildDropIndexStatementPlans in Hbuild.
      destruct (catalog.Site.PoolByName _ _) as [pool|];
        [|injection Hbuild as <-; left; cbn; eauto].
      destruct (catalog.Pool.BucketByName _ _) as [bucket|];
        injection Hbuild as <-; cbn; [right; left; done|left; eauto].
    - injection Hbuild as <-. right; right. done. }
  destruct Hgoal as [H | [H | [-> ->]]].
  - destruct (Hsent _ _ (or_introl H)) as (H1 & H2 & H3). auto.
  - destruct (Hsent _ _ (or_intror H)) as (H1 & H2 & H3). auto.
  - cbn. split; [lia|]. split; [by left|]. intros Hother. by destruct Hother.
Qed.

(** X4.  The planner sends at most one plan per index the bucket lists. *)
Theorem buildSelectStatementPlans_one_plan_per_index_at_most
    (this : simple.SimplePlanner.t) (stmt : SelectStatement.t)
    (pool : catalog.Pool.t) (bucket : catalog.Bucket.t)
    (indexes : list catalog.Index) (sent : simple.Sent) :
  let from := simple.resolveFrom stmt in
  catalog.Site.PoolByName (simple.SimplePlanner.site this)
    (simple.resolvePoolName this (From.Pool from)) = Ok pool ->
  catalog.Pool.BucketByName pool (From.Bucket from) = Ok bucket ->
  catalog.Bucket.Indexes bucket = Ok indexes ->
  simple.buildSelectStatementPlans this stmt = Ret sent ->
  (length (simple.pc sent) <= length indexes)%nat.
Proof.
  intros from Hpool Hbucket Hindexes Hbuild.
  unfold simple.buildSelectStatementPlans in Hbuild. fold from in Hbuild.
  rewrite Hpool, Hbucket, Hindexes in Hbuild.
  destruct (simple.planHeadsLoop _ _ _ _ _ _) as [heads|] eqn:Hloop;
    [|discriminate].
  apply planHeadsLoop_length in Hloop. cbn [bindE] in Hbuild.
  destruct heads; injection Hbuild as <-; cbn in *; [lia|].
  rewrite length_map. lia.
Qed.

End PlannerResolution.

Section PlannerHeads.

Context `{vis : ast.Visitors} `{ops : plan.ScanRangeOps}
        `{sarg : simple.Sargability} `{names : system.Names}.

Import ast.

(** Induction along the [Over] chain of a From. *)
Lemma From_chain_ind (P : From.t -> Prop) :
  (forall p b projection as_, P (From.mk p b projection as_ None)) ->
  (forall p b projection as_ over,
     P over -> P (From.mk p b projection as_ (Some over))) ->
  forall from, P from.
Proof.
  intros Hlast Hlevel. fix ind 1. intros [p b projection as_ [over|]].
  - apply Hlevel, ind.
  - apply Hlast.
Qed.

Lemma joinChain_overLevels (lastStep : plan.PlanElement) (nextFrom : From.t) :
  simple.joinChain lastStep nextFrom
  = fold_left
      (fun step level =>
         plan.NewDocumentJoin step (From.Projection level) (From.As level))
      (nextFrom :: spec.overLevels nextFrom) lastStep.
Proof.
  revert lastStep.
  induction nextFrom as [p b projection as_|p b projection as_ over IH]
    using From_chain_ind; intros lastStep; cbn; [done|].
  apply IH.
Qed.

(** X5.  The access path the planner builds over a scan is a Fetch of the
    From's projection and alias, wrapped in one DocumentJoin per level nested
    under the From through [Over], outermost level first (innermost join of
    the plan), each with that level's projection and alias. *)
Theorem planHead_joins (pool : catalog.Pool.t) (bucket : catalog.Bucket.t)
    (from : From.t) (scan : plan.PlanElement) :
  simple.planHead pool bucket from scan
  = fold_left
      (fun step level =>
         plan.NewDocumentJoin step (From.Projection level) (From.As level))
      (spec.overLevels from)
      (plan.NewFetch scan (catalog.Pool.Name pool)
         (catalog.Bucket.Name bucket) (From.Projection from) (From.As from)).
Proof.
  unfold simple.planHead, simple.documentJoins.
  destruct from as [p b projection as_ [over|]]; cbn; [|done].
  apply joinChain_overLevels.
Qed.

End PlannerHeads.

Section PlannerSkips.

Context `{vis : ast.Visitors} `{ops : plan.ScanRangeOps}
        `{sarg : simple.Sargability} `{names : system.Names}.

Import ast.

(** The loop over the indexes reads the pool and the bucket only through
    their names. *)
Lemma indexScan_names (stmt : SelectStatement.t)
    (pool pool' : catalog.Pool.t) (bucket bucket' : catalog.Bucket.t)
    (index : catalog.Index) :
  catalog.Pool.Name pool' = catalog.Pool.Name pool ->
  catalog.Bucket.Name bucket' = catalog.Bucket.Name bucket ->
  simple.indexScan stmt pool' bucket' index
  = simple.indexScan stmt pool bucket index.
Proof.
  intros Hp Hb. unfold simple.indexScan, simple.rangeScan.
  by rewrite Hp, Hb.
Qed.

Lemma planHeadsLoop_names (stmt : SelectStatement.t)
    (pool pool' : catalog.Pool.t) (bucket bucket' : catalog.Bucket.t)
    (from : From.t) (indexes : list catalog.Index)
    (planHeads : list plan.PlanElement) :
  catalog.Pool.Name pool' = catalog.Pool.Name pool ->
  catalog.Bucket.Name bucket' = catalog.Bucket.Name bucket ->
  simple.planHeadsLoop stmt pool' bucket' from indexes planHeads
  = simple.planHeadsLoop stmt pool bucket from indexes planHeads.
Proof.
  intros Hp Hb. revert planHeads.
  induction indexes as [|index rest IH]; intros planHeads; [done|].
  cbn [simple.planHeadsLoop].
  rewrite (indexScan_names stmt pool pool' bucket bucket' index Hp Hb).
  destruct (simple.indexScan stmt pool bucket index) as [[lastStep|]|kind];
    cbn [bindE]; [|apply IH|done].
  unfold simple.planHead. rewrite Hp, Hb. apply IH.
Qed.

(** An index that yields no scan leaves the loop's variable as it was: the
    loop ends as it does on the list without that index. *)
Lemma planHeadsLoop_skip (stmt : SelectStatement.t)
    (pool : catalog.Pool.t) (bucket : catalog.Bucket.t) (from : From.t)
    (index : catalog.Index) (pre post : list catalog.Index)
    (planHeads : list plan.PlanElement) :
  simple.indexScan stmt pool bucket index = Ret None ->
  simple.planHeadsLoop stmt pool bucket from (pre ++ index :: post) planHeads
  = simple.planHeadsLoop stmt pool bucket from (pre ++ post) planHeads.
Proof.
  intros Hskip. revert planHeads.
  induction pre as [|i pre IH]; intros planHeads.
  - cbn [app simple.planHeadsLoop]. by rewrite Hskip.
  - cbn [app simple.planHeadsLoop].
    destruct (simple.indexScan stmt pool bucket i) as [[lastStep|]|kind];
      cbn [bindE]; [apply IH|apply IH|done].
Qed.

(** The branch [if err != nil { clog.Error(err); continue }]. *)
Lemma indexScan_check_error (stmt : SelectStatement.t)
    (from : From.t) (where_ : Expression)
    (pool : catalog.Pool.t) (bucket : catalog.Bucket.t)
    (index : catalog.RangeIndex.t)
    (possible : bool) (ranges : plan.ScanRanges) (e : option Expression)
    (err : error) :
  SelectStatement.From stmt = Some from ->
  SelectStatement.Where stmt = Some where_ ->
  simple.CanIUseThisIndexForThisWhereClause index where_ (From.Bucket from)
    = Ret (possible, ranges, e, Some err) ->
  simple.indexScan stmt pool bucket (catalog.RangeIndex_ index) = Ret None.
Proof.
  intros Hfrom Hwhere Hcheck.
  cbn [simple.indexScan]. rewrite Hwhere.
  unfold simple.stmtFromBucket. rewrite Hfrom. cbn [bindE].
  by rewrite Hcheck.
Qed.

(** Once the catalog has resolved, the only error planning sends is the
    generic one, without a cause. *)
Lemma buildSelectStatementPlans_resolved_errors
    (this : simple.SimplePlanner.t) (stmt : SelectStatement.t)
    (pool : catalog.Pool.t) (bucket : catalog.Bucket.t)
    (indexes : list catalog.Index) (sent : simple.Sent) :
  let from := simple.resolveFrom stmt in
  catalog.Site.PoolByName (simple.SimplePlanner.site this)
    (simple.resolvePoolName this (From.Pool from)) = Ok pool ->
  catalog.Pool.BucketByName pool (From.Bucket from) = Ok bucket ->
  catalog.Bucket.Indexes bucket = Ok indexes ->
  simple.buildSelectStatementPlans this stmt = Ret sent ->
  forall reported,
    In reported (simple.ec sent) ->
    reported
    = query.NewError None
        ("No usable indexes found for bucket " +:+ From.Bucket from).
Proof.
  intros from Hpool Hbucket Hindexes Hsent reported Hin.
  unfold simple.buildSelectStatementPlans in Hsent.
  fold from in Hsent. rewrite Hpool, Hbucket, Hindexes in Hsent.
  destruct (simple.planHeadsLoop stmt pool bucket from indexes [])
    as [planHeads|kind]; cbn [bindE] in Hsent; [|discriminate].
  destruct (length planHeads =? 0)%nat; injection Hsent as <-;
    cbn in Hin; [|done].
  by destruct Hin as [<-|[]].
Qed.

(** X6.  An error of the usability check of a range index, whatever made the
    check fail, is never reported.  For a Select with FROM and WHERE whose
    catalog resolves, when the check of a range index listed by the bucket
    returns an error: that index yields no scan; planning sends exactly what
    it sends when the bucket lists the same indexes without that one,
    whichever these are; and the only error planning can send is the generic
    "No usable indexes found for bucket" error, which carries no cause. *)
Theorem buildSelectStatementPlans_check_error_not_reported
    (this this' : simple.SimplePlanner.t) (stmt : SelectStatement.t)
    (from : From.t) (where_ : Expression)
    (pool pool' : catalog.Pool.t) (bucket bucket' : catalog.Bucket.t)
    (index : catalog.RangeIndex.t) (pre post : list catalog.Index)
    (possible : bool) (ranges : plan.ScanRanges) (e : option Expression)
    (err : error) :
  SelectStatement.From stmt = Some from ->
  SelectStatement.Where stmt = Some where_ ->
  simple.CanIUseThisIndexForThisWhereClause index where_ (From.Bucket from)
    = Ret (possible, ranges, e, Some err) ->
  catalog.Site.PoolByName (simple.SimplePlanner.site this)
    (simple.resolvePoolName this (From.Pool from)) = Ok pool ->
  catalog.Pool.BucketByName pool (From.Bucket from) = Ok bucket ->
  catalog.Bucket.Indexes bucket
    = Ok (pre ++ catalog.RangeIndex_ index :: post) ->
  catalog.Site.PoolByName (simple.SimplePlanner.site this')
    (simple.resolvePoolName this' (From.Pool from)) = Ok pool' ->
  catalog.Pool.BucketByName pool' (From.Bucket from) = Ok bucket' ->
  catalog.Bucket.Indexes bucket' = Ok (pre ++ post) ->
  catalog.Pool.Name pool' = catalog.Pool.Name pool ->
  catalog.Bucket.Name bucket' = catalog.Bucket.Name bucket ->
  simple.indexScan stmt pool bucket (catalog.RangeIndex_ index) = Ret None
  /\ simple.buildSelectStatementPlans this stmt
     = simple.buildSelectStatementPlans this' stmt
  /\ forall sent,
       simple.buildSelectStatementPlans this stmt = Ret sent ->
       forall reported,
         In reported (simple.ec sent) ->
         reported
         = query.NewError None
             ("No usable indexes found for bucket " +:+ From.Bucket from).
Proof.
  intros Hfrom Hwhere Hcheck Hpool Hbucket Hindexes Hpool' Hbucket' Hindexes'
    Hp Hb.
  pose proof (indexScan_check_error stmt from where_ pool bucket index
                possible ranges e err Hfrom Hwhere Hcheck) as Hskip.
  assert (Hresolve : simple.resolveFrom stmt = from).
  { unfold simple.resolveFrom, SelectStatement.GetFrom. by rewrite Hfrom. }
  split; [done|]. split.
  - unfold simple.buildSelectStatementPlans.
    rewrite Hresolve, Hpool, Hbucket, Hindexes, Hpool', Hbucket', Hindexes'.
    rewrite (planHeadsLoop_skip stmt pool bucket from _ pre post [] Hskip).
    by rewrite (planHeadsLoop_names stmt pool pool' bucket bucket' from
                  (pre ++ post) [] Hp Hb).
  - intros sent Hsent reported Hin.
    pose proof (buildSelectStatementPlans_resolved_errors this stmt pool
                  bucket (pre ++ catalog.RangeIndex_ index :: post) sent)
      as Herrors.
    cbn zeta in Herrors. rewrite Hresolve in Herrors.
    by apply Herrors.
Qed.

(** X7.  CreateIndex and DropIndex planning look the pool up under the
    statement's pool name, or the default pool when it is empty.  With pool
    and bucket resolved they send exactly one plan and no error: the
    CreateIndex or DropIndex step, named after the pool and bucket as the
    catalog names them, under an Explain exactly when the statement is
    ExplainOnly.  With the bucket not resolving they send the one
    bucket-not-found error, under the statement's bucket name, and no plan. *)
Theorem index_statement_plans (this : simple.SimplePlanner.t) :
  (forall (stmt : CreateIndexStatement.t) pool,
     catalog.Site.PoolByName (simple.SimplePlanner.site this)
       (simple.resolvePoolName this (CreateIndexStatement.Pool stmt))
       = Ok pool ->
     (forall bucket,
        catalog.Pool.BucketByName pool (CreateIndexStatement.Bucket stmt)
          = Ok bucket ->
        simple.buildCreateIndexStatementPlans this stmt
        = simple.mkSent
            [plan.mkPlan
               (simple.explainIf (CreateIndexStatement.ExplainOnly stmt)
                  (plan.NewCreateIndex (catalog.Pool.Name pool)
                     (catalog.Bucket.Name bucket)
                     (CreateIndexStatement.Name stmt)
                     (CreateIndexStatement.Method stmt)
                     (CreateIndexStatement.On stmt)))]
            [])
     /\ (forall e,
           catalog.Pool.BucketByName pool (CreateIndexStatement.Bucket stmt)
             = Err e ->
           simple.buildCreateIndexStatementPlans this stmt
           = simple.mkSent []
               [query.NewBucketDoesNotExist
                  (CreateIndexStatement.Bucket stmt)]))
  /\ (forall (stmt : DropIndexStatement.t) pool,
        catalog.Site.PoolByName (simple.SimplePlanner.site this)
          (simple.resolvePoolName this (DropIndexStatement.Pool stmt))
          = Ok pool ->
        (forall bucket,
           catalog.Pool.BucketByName pool (DropIndexStatement.Bucket stmt)
             = Ok bucket ->
           simple.buildDropIndexStatementPlans this stmt
           = simple.mkSent
               [plan.mkPlan
                  (simple.explainIf (DropIndexStatement.ExplainOnly stmt)
                     (plan.NewDropIndex (catalog.Pool.Name pool)
                        (catalog.Bucket.Name bucket)
                        (DropIndexStatement.Name stmt)))]
               [])
        /\ (forall e,
              catalog.Pool.BucketByName pool (DropIndexStatement.Bucket stmt)
                = Err e ->
              simple.buildDropIndexStatementPlans this stmt
              = simple.mkSent []
                  [query.NewBucketDoesNotExist
                     (DropIndexStatement.Bucket stmt)])).
Proof.
  split; intros stmt pool Hpool; split.
  - intros bucket Hbucket. unfold simple.buildCreateIndexStatementPlans.
    by rewrite Hpool, Hbucket.
  - intros e Hbucket. unfold simple.buildCreateIndexStatementPlans.
    by rewrite Hpool, Hbucket.
  - intros bucket Hbucket. unfold simple.buildDropIndexStatementPlans.
    by rewrite Hpool, Hbucket.
  - intros e Hbucket. unfold simple.buildDropIndexStatementPlans.
    by rewrite Hpool, Hbucket.
Qed.

End PlannerSkips.

Lemma buildSelectStatementPlans_resolution_errors_witness :
  catalog.Site.PoolByName (simple.SimplePlanner.site examples.planner)
    "elsewhere" = Err "pool not found: elsewhere"
  /\ @simple.buildSelectStatementPlans reference.visitors
       reference.scanRangeOps reference.sargability reference.systemNames
       examples.planner examples.stmtElsewhere
     = Ret (simple.mkSent [] [query.NewPoolDoesNotExist "elsewhere"])
  /\ catalog.Site.PoolByName (simple.SimplePlanner.site examples.planner)
       "default" = Ok examples.poolDefault
  /\ catalog.Pool.BucketByName examples.poolDefault "nowhere"
     = Err "bucket not found: nowhere"
  /\ @simple.buildSelectStatementPlans reference.visitors
       reference.scanRangeOps reference.sargability reference.systemNames
       examples.planner examples.stmtNowhere
     = Ret (simple.mkSent [] [query.NewBucketDoesNotExist "nowhere"])
  /\ @simple.buildSelectStatementPlans reference.visitors
       reference.scanRangeOps reference.sargability reference.systemNames
       (simple.NewSimplePlanner (examples.siteWith (Err "down")) "default")
       examples.stmtNoWhere
     = Ret (simple.mkSent []
              [query.NewError (Some "down") "No indexes found for bucket b"]).
Proof.
  split; [reflexivity|]. split.
  - destruct (@buildSelectStatementPlans_resolution_errors reference.visitors
                reference.scanRangeOps reference.sargability
                reference.systemNames examples.planner examples.stmtElsewhere)
      as [Hpool _].
    exact (Hpool "pool not found: elsewhere" eq_refl).
  - do 2 (split; [reflexivity|]). split.
    + destruct (@buildSelectStatementPlans_resolution_errors
                  reference.visitors reference.scanRangeOps
                  reference.sargability reference.systemNames
                  examples.planner examples.stmtNowhere)
        as [_ [Hbucket _]].
      exact (Hbucket examples.poolDefault "bucket not found: nowhere"
               eq_refl eq_refl).
    + destruct (@buildSelectStatementPlans_resolution_errors
                  reference.visitors reference.scanRangeOps
                  reference.sargability reference.systemNames
                  (simple.NewSimplePlanner (examples.siteWith (Err "down"))
                     "default")
                  examples.stmtNoWhere)
        as [_ [_ Hindexes]].
      exact (Hindexes _ _ "down" eq_refl eq_refl eq_refl).
Defined.

Lemma buildSelectStatementPlans_primary_indexes_witness :
  forallb spec.isPrimary examples.twoPrimaries = true
  /\ examples.twoPrimaries <> []
  /\ exists plans,
       @simple.buildSelectStatementPlans reference.visitors
         reference.scanRangeOps reference.sargability reference.systemNames
         (simple.NewSimplePlanner
            (examples.siteWith (Ok examples.twoPrimaries)) "default")
         examples.stmtNoFrom
       = Ret (simple.mkSent plans [])
       /\ length plans = 2%nat.
Proof.
  split; [reflexivity|]. split; [discriminate|].
  destruct (@buildSelectStatementPlans_primary_indexes reference.visitors
              reference.scanRangeOps reference.sargability
              reference.systemNames
              (simple.NewSimplePlanner
                 (examples.siteWith (Ok examples.twoPrimaries)) "default")
              examples.stmtNoFrom _ _ examples.twoPrimaries
              eq_refl eq_refl eq_refl eq_refl
              (fun H : examples.twoPrimaries = [] =>
                 eq_ind examples.twoPrimaries
                   (fun l => match l with [] => False | _ => True end)
                   I [] H))
    as [Hbuild Hlength].
  eexists. split; [exact Hbuild|].
  rewrite length_map. exact Hlength.
Defined.

Lemma buildPlans_plans_or_one_error_witness :
  @simple.buildPlans reference.visitors reference.scanRangeOps
    reference.sargability reference.systemNames
    examples.planner (ast.Select_ examples.stmtNoWhere)
  = Ret (simple.mkSent []
           [query.NewError None "No usable indexes found for bucket b"])
  /\ (length [query.NewError None "No usable indexes found for bucket b"]
      <= 1)%nat.
Proof.
  split; [reflexivity|].
  exact (proj1 (@buildPlans_plans_or_one_error reference.visitors
                  reference.scanRangeOps reference.sargability
                  reference.systemNames examples.planner
                  (ast.Select_ examples.stmtNoWhere) _ eq_refl)).
Defined.

Lemma buildSelectStatementPlans_one_plan_per_index_at_most_witness :
  @simple.buildSelectStatementPlans reference.visitors reference.scanRangeOps
    reference.sargability reference.systemNames
    examples.planner examples.stmtStages
  = Ret (simple.mkSent [examples.planStages] [])
  /\ (length [examples.planStages] <= length examples.indexesDual)%nat.
Proof.
  split; [reflexivity|].
  exact (@buildSelectStatementPlans_one_plan_per_index_at_most
           reference.visitors reference.scanRangeOps reference.sargability
           reference.systemNames examples.planner examples.stmtStages
           examples.poolSystem examples.bucketDual examples.indexesDual
           (simple.mkSent [examples.planStages] [])
           eq_refl eq_refl eq_refl eq_refl).
Defined.

Lemma buildSelectStatementPlans_check_error_not_reported_witness :
  ast.SelectStatement.From examples.stmtCovered = Some examples.fromB
  /\ @simple.CanIUseThisIndexForThisWhereClause examples.visitorsFailingNNF
       reference.scanRangeOps reference.sargability examples.indexA
       (ast.ComparisonOperator ast.OpGreaterThan examples.formalA
          (ast.LiteralNumber 3 0)) "b"
     = Ret (false, [], None, Some "no negation normal form")
  /\ @simple.indexScan examples.visitorsFailingNNF reference.scanRangeOps
       reference.sargability examples.stmtCovered
       examples.poolDefault examples.bucketB
       (catalog.RangeIndex_ examples.indexA) = Ret None
  /\ @simple.buildSelectStatementPlans examples.visitorsFailingNNF
       reference.scanRangeOps reference.sargability reference.systemNames
       (simple.NewSimplePlanner
          (examples.siteWith (Ok examples.mixedIndexes)) "default")
       examples.stmtCovered
     = @simple.buildSelectStatementPlans examples.visitorsFailingNNF
         reference.scanRangeOps reference.sargability reference.systemNames
         (simple.NewSimplePlanner
            (examples.siteWith (Ok examples.mixedWithoutRange)) "default")
         examples.stmtCovered.
Proof.
  do 2 (split; [reflexivity|]).
  pose proof (@buildSelectStatementPlans_check_error_not_reported
                examples.visitorsFailingNNF reference.scanRangeOps
                reference.sargability reference.systemNames
                (simple.NewSimplePlanner
                   (examples.siteWith (Ok examples.mixedIndexes)) "default")
                (simple.NewSimplePlanner
                   (examples.siteWith (Ok examples.mixedWithoutRange))
                   "default")
                examples.stmtCovered examples.fromB _ _ _ _ _
                examples.indexA [catalog.PrimaryIndex "#primary"]
                [catalog.OtherIndex "view"] false [] None
                "no negation normal form"
                eq_refl eq_refl eq_refl eq_refl eq_refl eq_refl
                eq_refl eq_refl eq_refl eq_refl eq_refl)
    as (Hscan & Hsame & _).
  split; [|exact Hsame].
  rewrite <- Hscan. reflexivity.
Defined.

Lemma index_statement_plans_witness :
  catalog.Site.PoolByName (simple.SimplePlanner.site examples.planner)
    (simple.resolvePoolName examples.planner
       (ast.CreateIndexStatement.Pool examples.stmtCreateB))
  = Ok examples.poolDefault
  /\ catalog.Pool.BucketByName examples.poolDefault "b" = Ok examples.bucketB
  /\ simple.buildCreateIndexStatementPlans examples.planner
       examples.stmtCreateB
     = simple.mkSent
         [plan.mkPlan
            (plan.NewExplain
               (plan.NewCreateIndex "default" "b" "idx" "btree"
                  [examples.fieldA]))]
         []
  /\ simple.buildDropIndexStatementPlans examples.planner examples.stmtDropB
     = simple.mkSent [plan.mkPlan (plan.NewDropIndex "default" "b" "idx")] [].
Proof.
  do 2 (split; [reflexivity|]).
  destruct (index_statement_plans examples.planner) as [Hcreate Hdrop].
  split.
  - exact (proj1 (Hcreate examples.stmtCreateB examples.poolDefault eq_refl)
             examples.bucketB eq_refl).
  - exact (proj1 (Hdrop examples.stmtDropB examples.poolDefault eq_refl)
             examples.bucketB eq_refl).
Defined.

(** * Further properties of index.go *)

Section FormalKey.

Context `{vis : ast.Visitors}.

Import ast.

(** X8.  [IndexKeyInFormalNotation] succeeds exactly when every key component
    converts, and then answers the converted components, one per component
    and in the order of the key; in particular an empty key converts to the
    empty key. *)
Theorem IndexKeyInFormalNotation_ok_iff
    (key fkey : catalog.IndexKey) (bucket : string) :
  simple.IndexKeyInFormalNotation key bucket = Ok fkey
  <-> Forall2
        (fun kp nkey => FormalNotation [] [bucket] bucket kp = Ok nkey)
        key fkey.
Proof.
  unfold simple.IndexKeyInFormalNotation. revert fkey.
  induction key as [|kp rest IH]; intros fkey; cbn.
  - split.
    + intros H. injection H as <-. constructor.
    + intros H. by inversion H.
  - split.
    + intros H.
      destruct (FormalNotation [] [bucket] bucket kp) as [nkey|] eqn:Hkp;
        [|discriminate].
      destruct (simple.formalKeyLoop bucket rest) as [frest|] eqn:Hrest;
        [|discriminate].
      injection H as <-. constructor; [done|]. by apply IH.
    + intros H. inversion H as [|? nkey ? frest Hkp Hrest]; subst.
      rewrite Hkp. apply IH in Hrest. by rewrite Hrest.
Qed.

(** X9.  [IndexKeyInFormalNotation] fails exactly when some key component
    does not convert, with the error of the first such component. *)
Theorem IndexKeyInFormalNotation_first_error
    (key : catalog.IndexKey) (bucket : string) (e : error) :
  simple.IndexKeyInFormalNotation key bucket = Err e
  <-> exists pre kp post,
        key = pre ++ kp :: post
        /\ Forall
             (fun k => exists nkey, FormalNotation [] [bucket] bucket k = Ok nkey)
             pre
        /\ FormalNotation [] [bucket] bucket kp = Err e.
Proof.
  unfold simple.IndexKeyInFormalNotation.
  induction key as [|k rest IH]; cbn.
  - split; [discriminate|].
    intros (pre & kp & post & Hkey & _). by destruct pre.
  - split.
    + destruct (FormalNotation [] [bucket] bucket k) as [nkey|] eqn:Hk.
      * destruct (simple.formalKeyLoop bucket rest) as [frest|];
          [discriminate|].
        intros H. injection H as ->.
        destruct (proj1 IH eq_refl) as (pre & kp & post & -> & Hpre & Hkp).
        exists (k :: pre), kp, post. repeat split; [|done].
        constructor; [by exists nkey|done].
      * intros H. injection H as ->.
        exists [], k, rest. repeat split; [constructor|done].
    + intros (pre & kp & post & Hkey & Hpre & Hkp).
      destruct pre as [|k' pre]; cbn in Hkey; injection Hkey as -> ->.
      * by rewrite Hkp.
      * apply Forall_cons in Hpre as [[nkey Hnkey] Hpre]. rewrite Hnkey.
        assert (Hrest : simple.formalKeyLoop bucket (pre ++ kp :: post)
                        = Err e)
          by (apply IH; by exists pre, kp, post).
        by rewrite Hrest.
Qed.

End FormalKey.

Section Merging.

Context `{ops : plan.ScanRangeOps}.

Lemma MergeRanges_length_bounds (origr : plan.ScanRanges)
    (newr : plan.ScanRange.t) :
  (length origr <= length (simple.MergeRanges origr newr) <= S (length origr))%nat.
Proof.
  destruct (first_overlap_split origr newr)
    as [Hnone | (pre & orig & post & m & -> & Hpre & Hhit)].
  - rewrite (MergeRanges_no_overlap _ _ Hnone), length_app. cbn. lia.
  - rewrite (MergeRanges_overlap _ _ _ _ _ Hpre Hhit), !length_app. cbn. lia.
Qed.

Lemma MergeRanges_nonempty (origr : plan.ScanRanges)
    (newr : plan.ScanRange.t) :
  simple.MergeRanges origr newr <> [].
Proof.
  destruct (first_overlap_split origr newr)
    as [Hnone | (pre & orig & post & m & -> & Hpre & Hhit)].
  - rewrite (MergeRanges_no_overlap _ _ Hnone). by destruct origr.
  - rewrite (MergeRanges_overlap _ _ _ _ _ Hpre Hhit). by destruct pre.
Qed.

(** X10.  Merging the ranges [rs] one by one into [rranges], as the loop over
    a sargable conjunct's ranges does, never makes the list shorter, adds at
    most one range per range merged, and leaves a list that is not empty as
    soon as one range was merged. *)
Theorem mergeEach_length (rs rranges : plan.ScanRanges) :
  (length rranges <= length (simple.mergeEach rs rranges)
   <= length rranges + length rs)%nat
  /\ (rs <> [] -> simple.mergeEach rs rranges <> []).
Proof.
  revert rranges. induction rs as [|ran rest IH]; intros rranges.
  - cbn. split; [lia|done].
  - cbn [simple.mergeEach length].
    destruct (IH (simple.MergeRanges rranges ran)) as [Hlen Hnonempty].
    pose proof (MergeRanges_length_bounds rranges ran) as Hmerge.
    split; [lia|]. intros _.
    destruct rest as [|ran' rest'].
    + cbn. apply MergeRanges_nonempty.
    + by apply Hnonempty.
Qed.

Lemma ForallOrdPairs_before {A : Type} (R : A -> A -> Prop)
    (pre : list A) (x : A) (post : list A) :
  ForallOrdPairs R (pre ++ x :: post) -> Forall (fun a => R a x) pre.
Proof.
  induction pre as [|a pre IH]; cbn; intros Hpairs; [constructor|].
  inversion Hpairs as [|? ? Ha Hrest]; subst.
  constructor; [|by apply IH].
  apply Forall_forall with (x := x) in Ha; [done|].
  apply list_elem_of_In, in_or_app. right. by left.
Qed.

(** X11.  Ranges none of which overlaps a later one are all kept: merging
    [rs] into [rranges] when no range of [rranges ++ rs] overlaps a range
    after it gives [rranges ++ rs], unchanged and in order. *)
Theorem mergeEach_disjoint (rs rranges : plan.ScanRanges) :
  ForallOrdPairs (fun a b => plan.Overlap a b = None) (rranges ++ rs) ->
  simple.mergeEach rs rranges = rranges ++ rs.
Proof.
  revert rranges. induction rs as [|ran rest IH]; intros rranges Hpairs.
  - cbn. by rewrite app_nil_r.
  - cbn [simple.mergeEach].
    rewrite (MergeRanges_no_overlap rranges ran
               (ForallOrdPairs_before _ _ _ _ Hpairs)).
    rewrite IH; rewrite <- app_assoc; done.
Qed.

End Merging.

Lemma mergeEach_disjoint_witness :
  ForallOrdPairs
    (fun a b => @plan.Overlap reference.scanRangeOps a b = None)
    ([] ++ [examples.below 2; examples.exactly 5])
  /\ @simple.mergeEach reference.scanRangeOps
       [examples.below 2; examples.exactly 5] []
     = [examples.below 2; examples.exactly 5].
Proof.
  assert (Hpairs : ForallOrdPairs
                     (fun a b => @plan.Overlap reference.scanRangeOps a b = None)
                     ([] ++ [examples.below 2; examples.exactly 5])).
  { repeat constructor. }
  split; [exact Hpairs|].
  exact (@mergeEach_disjoint reference.scanRangeOps _ [] Hpairs).
Defined.

Section WhereClauseExits.

Context `{vis : ast.Visitors} `{ops : plan.ScanRangeOps}
        `{sarg : simple.Sargability}.

Import ast.

(** X12.  Only the first component of the index key takes part in the WHERE
    clause check: two indexes whose keys convert to formal notation with the
    same first component get the same answer, whatever their further
    components. *)
Theorem CanIUseThisIndexForThisWhereClause_first_component
    (index index' : catalog.RangeIndex.t) (where_ : Expression)
    (bucket bucket' : string) (key0 : Expression)
    (keyRest keyRest' : catalog.IndexKey) :
  simple.IndexKeyInFormalNotation (catalog.RangeIndex.Key index) bucket
    = Ok (key0 :: keyRest) ->
  simple.IndexKeyInFormalNotation (catalog.RangeIndex.Key index') bucket'
    = Ok (key0 :: keyRest') ->
  simple.CanIUseThisIndexForThisWhereClause index where_ bucket
  = simple.CanIUseThisIndexForThisWhereClause index' where_ bucket'.
Proof.
  intros Hkey Hkey'. unfold simple.CanIUseThisIndexForThisWhereClause.
  rewrite Hkey, Hkey'.
  destruct (NNF where_) as [whereNNF|]; [|done].
  destruct (CNF whereNNF) as [whereCNF|]; [|done].
  destruct whereCNF; try done.
  by rewrite !whereAndLoop_spec.
Qed.

(** X13.  Whatever [CanIUseThisIndexForThisWhereClause] returns, its third
    component is nil; it reports an index usable only without an error; and
    it returns no ranges for an index it does not report usable. *)
Theorem CanIUseThisIndexForThisWhereClause_result
    (index : catalog.RangeIndex.t) (where_ : Expression) (bucket : string)
    (possible : bool) (ranges : plan.ScanRanges) (e : option Expression)
    (err : option error) :
  simple.CanIUseThisIndexForThisWhereClause index where_ bucket
    = Ret (possible, ranges, e, err) ->
  e = None
  /\ (possible = true -> err = None)
  /\ (possible = false -> ranges = []).
Proof.
  unfold simple.CanIUseThisIndexForThisWhereClause, simple.cannotUse.
  destruct (simple.IndexKeyInFormalNotation _ _) as [indexKeyFormal|];
    [|intros H; by injection H as <- <- <- <-].
  destruct (NNF where_) as [whereNNF|];
    [|intros H; by injection H as <- <- <- <-].
  destruct (CNF whereNNF) as [whereCNF|];
    [|intros H; by injection H as <- <- <- <-].
  destruct whereCNF;
    try (destruct (simple.keyAt0 indexKeyFormal) as [key0|];
         cbn [bindE]; [|discriminate];
         destruct (simple.ExpressionSargable.IsSargable _);
         intros H; by injection H as <- <- <- <-).
  destruct (simple.whereAndLoop indexKeyFormal Operands false [])
    as [[found rranges]|] eqn:Hloop; cbn [bindE]; [|discriminate].
  destruct found; intros H; injection H as <- <- <- <-; done.
Qed.

(** X14.  A failing conversion is handed back as the error, with the index
    not usable and no ranges: of the index key first, then of the negation
    normal form, then of the conjunctive normal form.  None of them indexes
    the key, so an empty key does not panic here. *)
Theorem CanIUseThisIndexForThisWhereClause_conversion_errors
    (index : catalog.RangeIndex.t) (where_ : Expression) (bucket : string)
    (e : error) :
  (simple.IndexKeyInFormalNotation (catalog.RangeIndex.Key index) bucket
     = Err e ->
   simple.CanIUseThisIndexForThisWhereClause index where_ bucket
   = Ret (false, [], None, Some e))
  /\ (forall indexKeyFormal,
        simple.IndexKeyInFormalNotation (catalog.RangeIndex.Key index) bucket
          = Ok indexKeyFormal ->
        (NNF where_ = Err e ->
         simple.CanIUseThisIndexForThisWhereClause index where_ bucket
         = Ret (false, [], None, Some e))
        /\ (forall whereNNF,
              NNF where_ = Ok whereNNF ->
              CNF whereNNF = Err e ->
              simple.CanIUseThisIndexForThisWhereClause index where_ bucket
              = Ret (false, [], None, Some e))).
Proof.
  unfold simple.CanIUseThisIndexForThisWhereClause. split.
  - intros Hkey. by rewrite Hkey.
  - intros indexKeyFormal Hkey. rewrite Hkey. split.
    + intros Hnnf. by rewrite Hnnf.
    + intros whereNNF Hnnf Hcnf. by rewrite Hnnf, Hcnf.
Qed.

(** X15.  An index whose key has no component: once the WHERE clause is in
    conjunctive normal form, the check indexes the key out of range, unless
    the normal form is an AND without operands, for which the index is
    reported not usable. *)
Theorem CanIUseThisIndexForThisWhereClause_empty_key_panics
    (index : catalog.RangeIndex.t) (where_ whereNNF whereCNF : Expression)
    (bucket : string) :
  simple.IndexKeyInFormalNotation (catalog.RangeIndex.Key index) bucket
    = Ok [] ->
  NNF where_ = Ok whereNNF ->
  CNF whereNNF = Ok whereCNF ->
  simple.CanIUseThisIndexForThisWhereClause index where_ bucket
  = match whereCNF with
    | AndOperator [] => Ret (false, [], None, None)
    | _ => Panic IndexOutOfRange
    end.
Proof.
  intros Hkey Hnnf Hcnf. unfold simple.CanIUseThisIndexForThisWhereClause.
  rewrite Hkey, Hnnf, Hcnf.
  destruct whereCNF; try done.
  by destruct Operands.
Qed.

End WhereClauseExits.

Lemma CanIUseThisIndexForThisWhereClause_first_component_witness :
  @simple.IndexKeyInFormalNotation reference.visitors
     (catalog.RangeIndex.Key examples.indexA) "b" = Ok [examples.formalA]
  /\ @simple.IndexKeyInFormalNotation reference.visitors
       (catalog.RangeIndex.Key examples.indexAC) "b"
     = Ok [examples.formalA;
           ast.DotMemberOperator (ast.Property "b") (ast.Property "c")]
  /\ @simple.CanIUseThisIndexForThisWhereClause reference.visitors
       reference.scanRangeOps reference.sargability
       examples.indexA examples.whereA "b"
     = @simple.CanIUseThisIndexForThisWhereClause reference.visitors
         reference.scanRangeOps reference.sargability
         examples.indexAC examples.whereA "b".
Proof.
  do 2 (split; [reflexivity|]).
  exact (@CanIUseThisIndexForThisWhereClause_first_component
           reference.visitors reference.scanRangeOps reference.sargability
           examples.indexA examples.indexAC examples.whereA "b" "b"
           examples.formalA [] _ eq_refl eq_refl).
Defined.

Lemma CanIUseThisIndexForThisWhereClause_result_witness :
  @simple.CanIUseThisIndexForThisWhereClause reference.visitors
     reference.scanRangeOps reference.sargability
     examples.indexA examples.whereA "b"
  = Ret (true, [examples.above 3], None, None)
  /\ (true = true -> @None error = None).
Proof.
  split; [reflexivity|].
  exact (proj1 (proj2
           (@CanIUseThisIndexForThisWhereClause_result reference.visitors
              reference.scanRangeOps reference.sargability
              examples.indexA examples.whereA "b"
              true [examples.above 3] None None eq_refl))).
Defined.

Lemma CanIUseThisIndexForThisWhereClause_conversion_errors_witness :
  @simple.IndexKeyInFormalNotation reference.visitors
     (catalog.RangeIndex.Key examples.indexA) ""
  = Err "unable to resolve a property reference"
  /\ @simple.CanIUseThisIndexForThisWhereClause reference.visitors
       reference.scanRangeOps reference.sargability
       examples.indexA examples.whereA ""
     = Ret (false, [], None, Some "unable to resolve a property reference")
  /\ @simple.CanIUseThisIndexForThisWhereClause examples.visitorsFailingNNF
       reference.scanRangeOps reference.sargability
       examples.indexEmpty examples.whereA "b"
     = Ret (false, [], None, Some "no negation normal form")
  /\ @simple.CanIUseThisIndexForThisWhereClause examples.visitorsFailingCNF
       reference.scanRangeOps reference.sargability
       examples.indexEmpty examples.whereA "b"
     = Ret (false, [], None, Some "no conjunctive normal form").
Proof.
  split; [reflexivity|]. split; [|split].
  - exact (proj1
             (@CanIUseThisIndexForThisWhereClause_conversion_errors
                reference.visitors reference.scanRangeOps
                reference.sargability examples.indexA examples.whereA ""
                "unable to resolve a property reference")
             eq_refl).
  - exact (proj1
             (proj2
                (@CanIUseThisIndexForThisWhereClause_conversion_errors
                   examples.visitorsFailingNNF reference.scanRangeOps
                   reference.sargability examples.indexEmpty examples.whereA
                   "b" "no negation normal form")
                [] eq_refl)
             eq_refl).
  - exact (proj2
             (proj2
                (@CanIUseThisIndexForThisWhereClause_conversion_errors
                   examples.visitorsFailingCNF reference.scanRangeOps
                   reference.sargability examples.indexEmpty examples.whereA
                   "b" "no conjunctive normal form")
                [] eq_refl)
             examples.whereA eq_refl eq_refl).
Defined.

Lemma CanIUseThisIndexForThisWhereClause_empty_key_panics_witness :
  @simple.IndexKeyInFormalNotation reference.visitors
     (catalog.RangeIndex.Key examples.indexEmpty) "b" = Ok []
  /\ @ast.NNF reference.visitors examples.whereA = Ok examples.whereA
  /\ @ast.CNF reference.visitors examples.whereA = Ok examples.whereA
  /\ @simple.CanIUseThisIndexForThisWhereClause reference.visitors
       reference.scanRangeOps reference.sargability
       examples.indexEmpty examples.whereA "b"
     = Panic IndexOutOfRange.
Proof.
  do 3 (split; [reflexivity|]).
  exact (@CanIUseThisIndexForThisWhereClause_empty_key_panics
           reference.visitors reference.scanRangeOps reference.sargability
           examples.indexEmpty examples.whereA examples.whereA examples.whereA
           "b" eq_refl eq_refl eq_refl).
Defined.

Section ProjectionExits.

Context `{vis : ast.Visitors} `{sarg : simple.Sargability}.

Import ast.

(** The loop runs to its end over entries that are all accepted. *)
Lemma projectionLoop_accepted key0 resultExprList allMin0 :
  Forall (spec.entryAccepted key0) resultExprList ->
  simple.projectionLoop [key0] resultExprList allMin0
  = Some (allMin0 && spec.allMin resultExprList).
Proof.
  intros Haccepted. revert allMin0.
  induction Haccepted as [|r rest Hr _ IH]; intros allMin0.
  - cbn. by rewrite andb_true_r.
  - destruct r as [star expr alias].
    destruct Hr as [Hstar (kind & ostar & oexpr & others & Hexpr & -> & Hdep)].
    cbn in Hstar, Hexpr. subst star expr.
    cbn. rewrite Hdep, IH.
    f_equal. by destruct kind, allMin0.
Qed.

(** X16.  With the index key converted to formal notation, first component
    [key0], the projection-only check is exact: the index is usable, without
    error, exactly when every result-list entry is accepted (a non-wildcard
    aggregate call whose first operand is no wildcard and is determined by
    [key0]) and the sargability analysis accepts [key0 IS NOT NULL]; in every
    other case it answers not usable, with no ranges and no error.  An empty
    result list is accepted and counts as all MIN: its ranges come back
    limited to one row. *)
Theorem CanIUseThisIndexForThisProjection_exact
    (index : catalog.RangeIndex.t) (resultExprList : ResultExpressionList)
    (bucket : string) (key0 : Expression) (keyRest : catalog.IndexKey) :
  simple.IndexKeyInFormalNotation (catalog.RangeIndex.Key index) bucket
    = Ok (key0 :: keyRest) ->
  let es := simple.sargableAccept key0 (NewIsNotNullOperator key0) in
  let defined := simple.ExpressionSargable.ScanRanges es in
  (Forall (spec.entryAccepted key0) resultExprList
   /\ simple.ExpressionSargable.IsSargable es = true ->
   simple.CanIUseThisIndexForThisProjectionNoWhereNoGroupClause
     index resultExprList bucket
   = Ret (true,
          (if spec.allMin resultExprList
           then map (plan.ScanRange.setLimit 1) defined else defined),
          None, None))
  /\ (~ (Forall (spec.entryAccepted key0) resultExprList
         /\ simple.ExpressionSargable.IsSargable es = true) ->
      simple.CanIUseThisIndexForThisProjectionNoWhereNoGroupClause
        index resultExprList bucket
      = Ret (false, [], None, None))
  /\ (resultExprList = [] ->
      simple.ExpressionSargable.IsSargable es = true ->
      simple.CanIUseThisIndexForThisProjectionNoWhereNoGroupClause
        index resultExprList bucket
      = Ret (true, map (plan.ScanRange.setLimit 1) defined, None, None)).
Proof.
  intros Hkey es defined.
  unfold simple.CanIUseThisIndexForThisProjectionNoWhereNoGroupClause.
  rewrite Hkey. cbn [simple.keyAt0 bindE]. fold es. fold defined.
  split; [|split].
  3: { intros -> Hsargable. cbn. by rewrite Hsargable. }
  - intros [Haccepted Hsargable].
    rewrite (projectionLoop_accepted _ _ _ Haccepted), Hsargable. done.
  - intros Hnot.
    destruct (simple.projectionLoop [key0] resultExprList true)
      as [allMin1|] eqn:Hloop; [|done].
    apply projectionLoop_accepts in Hloop as [Haccepted _].
    destruct (simple.ExpressionSargable.IsSargable es) eqn:Hsargable; [|done].
    by destruct Hnot.
Qed.

(** X17.  The projection-only check on a key that does not convert hands the
    error back with the index not usable; on a key without components it
    indexes the key out of range before it looks at the result list,
    whatever that list is. *)
Theorem CanIUseThisIndexForThisProjection_key_failures
    (index : catalog.RangeIndex.t) (resultExprList : ResultExpressionList)
    (bucket : string) :
  (forall e,
     simple.IndexKeyInFormalNotation (catalog.RangeIndex.Key index) bucket
       = Err e ->
     simple.CanIUseThisIndexForThisProjectionNoWhereNoGroupClause
       index resultExprList bucket
     = Ret (false, [], None, Some e))
  /\ (simple.IndexKeyInFormalNotation (catalog.RangeIndex.Key index) bucket
        = Ok [] ->
      simple.CanIUseThisIndexForThisProjectionNoWhereNoGroupClause
        index resultExprList bucket
      = Panic IndexOutOfRange).
Proof.
  unfold simple.CanIUseThisIndexForThisProjectionNoWhereNoGroupClause.
  split.
  - intros e Hkey. by rewrite Hkey.
  - intros Hkey. by rewrite Hkey.
Qed.

(** X18.  [DoesIndexCoverStatement] dereferences nil on a statement without
    From.  On a statement with a From it never fails: a From with a nested
    [Over] level gives false before the key is converted, and a key that does
    not convert under the From's alias gives false. *)
Theorem DoesIndexCoverStatement_exits
    (index : catalog.RangeIndex.t) (stmt : SelectStatement.t) :
  (SelectStatement.From stmt = None ->
   simple.DoesIndexCoverStatement index stmt = Panic NilDereference)
  /\ (forall from,
        SelectStatement.From stmt = Some from ->
        (exists covered, simple.DoesIndexCoverStatement index stmt = Ret covered)
        /\ (is_Some (From.Over from) ->
            simple.DoesIndexCoverStatement index stmt = Ret false)
        /\ (forall e,
              simple.IndexKeyInFormalNotation (catalog.RangeIndex.Key index)
                (From.As from) = Err e ->
              simple.DoesIndexCoverStatement index stmt = Ret false)).
Proof.
  unfold simple.DoesIndexCoverStatement. split.
  - intros Hfrom. by rewrite Hfrom.
  - intros from Hfrom. rewrite Hfrom. repeat split.
    + destruct (From.Over from); [by eexists|].
      destruct (simple.IndexKeyInFormalNotation _ _); [|by eexists].
      destruct (negb (simple.coverProjection _ _)); [by eexists|].
      destruct (negb (simple.coverOptional _ _)); [by eexists|].
      destruct (negb _); [by eexists|].
      destruct (SelectStatement.OrderBy stmt); by eexists.
    + intros [over Hover]. by rewrite Hover.
    + intros e Hkey. rewrite Hkey. by destruct (From.Over from).
Qed.

End ProjectionExits.

Lemma CanIUseThisIndexForThisProjection_exact_witness :
  @simple.IndexKeyInFormalNotation reference.visitors
     (catalog.RangeIndex.Key examples.indexA) "b" = Ok [examples.formalA]
  /\ Forall (@spec.entryAccepted reference.visitors examples.formalA)
       [examples.minTwoOperands]
  /\ simple.ExpressionSargable.IsSargable
       (@simple.sargableAccept reference.sargability examples.formalA
          (ast.NewIsNotNullOperator examples.formalA)) = true
  /\ @simple.CanIUseThisIndexForThisProjectionNoWhereNoGroupClause
       reference.visitors reference.sargability
       examples.indexA [examples.minTwoOperands] "b"
     = Ret (true, [plan.ScanRange.setLimit 1 reference.definedRange],
            None, None).
Proof.
  assert (Haccepted : Forall (@spec.entryAccepted reference.visitors
                                examples.formalA) [examples.minTwoOperands]).
  { constructor; [|constructor]. split; [reflexivity|].
    eexists _, _, _, _. split; [reflexivity|]. split; reflexivity. }
  split; [reflexivity|]. split; [exact Haccepted|]. split; [reflexivity|].
  exact (proj1
           (@CanIUseThisIndexForThisProjection_exact reference.visitors
              reference.sargability examples.indexA
              [examples.minTwoOperands] "b" examples.formalA [] eq_refl)
           (conj Haccepted eq_refl)).
Defined.

Lemma CanIUseThisIndexForThisProjection_key_failures_witness :
  @simple.IndexKeyInFormalNotation reference.visitors
     (catalog.RangeIndex.Key examples.indexA) ""
  = Err "unable to resolve a property reference"
  /\ @simple.CanIUseThisIndexForThisProjectionNoWhereNoGroupClause
       reference.visitors reference.sargability
       examples.indexA [examples.minA] ""
     = Ret (false, [], None, Some "unable to resolve a property reference")
  /\ @simple.IndexKeyInFormalNotation reference.visitors
       (catalog.RangeIndex.Key examples.indexEmpty) "b" = Ok []
  /\ @simple.CanIUseThisIndexForThisProjectionNoWhereNoGroupClause
       reference.visitors reference.sargability
       examples.indexEmpty [ast.NewStarResultExpression] "b"
     = Panic IndexOutOfRange.
Proof.
  split; [reflexivity|]. split.
  - exact (proj1
             (@CanIUseThisIndexForThisProjection_key_failures
                reference.visitors reference.sargability
                examples.indexA [examples.minA] "")
             _ eq_refl).
  - split; [reflexivity|].
    exact (proj2
             (@CanIUseThisIndexForThisProjection_key_failures
                reference.visitors reference.sargability
                examples.indexEmpty [ast.NewStarResultExpression] "b")
             eq_refl).
Defined.

Lemma DoesIndexCoverStatement_exits_witness :
  ast.SelectStatement.From examples.stmtNoFrom = None
  /\ @simple.DoesIndexCoverStatement reference.visitors
       examples.indexA examples.stmtNoFrom = Panic NilDereference
  /\ ast.SelectStatement.From examples.stmtUnnamed = Some examples.fromUnnamed
  /\ @simple.IndexKeyInFormalNotation reference.visitors
       (catalog.RangeIndex.Key examples.indexA)
       (ast.From.As examples.fromUnnamed)
     = Err "unable to resolve a property reference"
  /\ @simple.DoesIndexCoverStatement reference.visitors
       examples.indexA examples.stmtUnnamed = Ret false.
Proof.
  split; [reflexivity|]. split.
  - exact (proj1
             (@DoesIndexCoverStatement_exits reference.visitors
                examples.indexA examples.stmtNoFrom)
             eq_refl).
  - do 2 (split; [reflexivity|]).
    exact (proj2 (proj2
             (proj2
                (@DoesIndexCoverStatement_exits reference.visitors
                   examples.indexA examples.stmtUnnamed)
                examples.fromUnnamed eq_refl))
             _ eq_refl).
Defined.

(** * Further properties of the Offset operator *)

Section OffsetRuns.

Context {Item Other : Type}.

Implicit Types (received : list (xpipeline.Received Item Other))
               (out : list (xpipeline.Sent Item Other)).

(** A run over receptions that all let it go on, followed by anything. *)
Lemma Run_continues_then (this : xpipeline.Offset.t) received
    (tail : list (xpipeline.Received Item Other)) :
  Forall (fun r => xpipeline.continues r = true) received ->
  Z.of_nat (length (xpipeline.itemsReceived received)) <= xpipeline.maxInt ->
  xpipeline.Run this (received ++ tail)
  = xpipeline.receiveLoop
      (xpipeline.Offset.mk (xpipeline.Offset.Offset this)
         (Z.of_nat (length (xpipeline.itemsReceived received))))
      (spec.forwardAfter (Z.to_nat (xpipeline.Offset.Offset this)) received)
      tail.
Proof.
  intros Hcont Hmax. unfold xpipeline.Run.
  rewrite receiveLoop_app by done.
  rewrite receiveLoop_continues by (try done; lia).
  cbn [xpipeline.this_ xpipeline.sent]. by rewrite Z.sub_0_r, Z.add_0_l.
Qed.

(** X19.  The operator skips [max(0, K)] items for any offset K: with the
    items received within the range of the counter, the items sent are the
    items received after the first K; an offset of 0 or less skips nothing,
    and an offset of N or more lets none of N items through. *)
Theorem Offset_Run_any_offset (this : xpipeline.Offset.t) received :
  let K := xpipeline.Offset.Offset this in
  let items := xpipeline.itemsReceived received in
  let sentItems := xpipeline.itemsSent (xpipeline.sent (xpipeline.Run this received)) in
  Forall (fun r => xpipeline.continues r = true) received ->
  Z.of_nat (length items) <= xpipeline.maxInt ->
  sentItems = drop (Z.to_nat K) items
  /\ (K <= 0 -> sentItems = items)
  /\ (Z.of_nat (length items) <= K -> sentItems = []).
Proof.
  intros K items sentItems Hcont Hmax. subst sentItems.
  pose proof (Run_continues_then this received [] Hcont Hmax) as Hrun.
  rewrite app_nil_r in Hrun. rewrite Hrun.
  cbn [xpipeline.receiveLoop xpipeline.sent].
  rewrite itemsSent_forwardAfter. fold K. fold items.
  split; [done|]. split.
  - intros HK. by replace (Z.to_nat K) with O by lia.
  - intros HK. apply drop_ge. lia.
Qed.

(** What the loop adds to what was sent before, for any receptions and any
    state of the operator. *)
Lemma receiveLoop_adds (this : xpipeline.Offset.t) out received :
  exists more,
    xpipeline.sent (xpipeline.receiveLoop this out received) = out ++ more
    /\ xpipeline.itemsSent more `sublist_of` xpipeline.itemsReceived received
    /\ xpipeline.supportSent more `prefix_of` spec.supportReceived received
    /\ (forall e,
          In (xpipeline.SupportSent (xpipeline.SupportError e)) more ->
          last more = Some (xpipeline.SupportSent (xpipeline.SupportError e))
          /\ xpipeline.returned (xpipeline.receiveLoop this out received)
             = true).
Proof.
  revert this out.
  induction received as [|r rest IH]; intros this out.
  - exists []. cbn. rewrite app_nil_r. repeat split; try done.
  - destruct r as [item| |[e|obj]|].
    + cbn [xpipeline.receiveLoop].
      destruct (xpipeline.processItem this item) as [this' s] eqn:Hitem.
      destruct (IH this' (out ++ s)) as (more & Hsent & Hitems & Hsupport & Herr).
      assert (Hs : s = [] \/ s = [xpipeline.ItemSent item]).
      { unfold xpipeline.processItem in Hitem.
        destruct (_ <=? _); injection Hitem as <- <-; auto. }
      exists (s ++ more). rewrite Hsent, <- app_assoc.
      rewrite itemsReceived_item. split; [done|].
      destruct Hs as [-> | ->]; cbn [app].
      * split; [by apply sublist_cons|]. split; [done|]. done.
      * split; [by apply sublist_skip|]. split; [done|].
        intros e [Habs|Hin]; [discriminate|].
        destruct (Herr e Hin) as [Hlast Hret]. split; [|done].
        destruct more; [done|]. done.
    + exists []. cbn. rewrite app_nil_r. repeat split; try done.
      apply sublist_nil_l. apply prefix_nil.
    + exists [xpipeline.SupportSent (xpipeline.SupportError e)]. cbn.
      split; [done|]. split; [apply sublist_nil_l|].
      split; [by apply prefix_cons, prefix_nil|].
      intros e' [Heq|[]]. injection Heq as ->. done.
    + cbn [xpipeline.receiveLoop].
      destruct (IH this (out ++ [xpipeline.SupportSent (xpipeline.SupportOther obj)]))
        as (more & Hsent & Hitems & Hsupport & Herr).
      exists (xpipeline.SupportSent (xpipeline.SupportOther obj) :: more).
      rewrite Hsent, <- app_assoc. split; [done|].
      split; [done|]. split; [by apply prefix_cons|].
      intros e [Habs|Hin]; [discriminate|].
      destruct (Herr e Hin) as [Hlast Hret]. split; [|done].
      destruct more; [done|]. done.
    + exists []. cbn. rewrite app_nil_r. repeat split; try done.
      apply sublist_nil_l. apply prefix_nil.
Qed.

(** X20.  Whatever it receives and whatever its offset and counter, the
    operator sends only items it received, each at most once and in the order
    received: the items sent are a sublist of the items received. *)
Theorem Offset_Run_items_sublist (this : xpipeline.Offset.t) received :
  xpipeline.itemsSent (xpipeline.sent (xpipeline.Run this received))
    `sublist_of` xpipeline.itemsReceived received.
Proof.
  unfold xpipeline.Run.
  destruct (receiveLoop_adds
              (xpipeline.Offset.mk (xpipeline.Offset.Offset this) 0)
              [] received)
    as (more & Hsent & Hitems & _).
  by rewrite Hsent.
Qed.

(** X21.  The support messages sent are, in order, a prefix of those
    received; an Error that is sent is the last thing sent, and [Run] has
    then returned. *)
Theorem Offset_Run_support_prefix (this : xpipeline.Offset.t) received :
  xpipeline.supportSent (xpipeline.sent (xpipeline.Run this received))
    `prefix_of` spec.supportReceived received
  /\ (forall e,
        In (xpipeline.SupportSent (xpipeline.SupportError e))
          (xpipeline.sent (xpipeline.Run this received)) ->
        last (xpipeline.sent (xpipeline.Run this received))
        = Some (xpipeline.SupportSent (xpipeline.SupportError e))
        /\ xpipeline.returned (xpipeline.Run this received) = true).
Proof.
  unfold xpipeline.Run.
  destruct (receiveLoop_adds
              (xpipeline.Offset.mk (xpipeline.Offset.Offset this) 0)
              [] received)
    as (more & Hsent & _ & Hsupport & Herr).
  rewrite Hsent. cbn [app]. split; [done|]. exact Herr.
Qed.

(** X22.  [Run] is still receiving exactly as long as everything received was
    an item or a support message that is no Error: it returns at the first
    Error and at the first closed channel, and at nothing else. *)
Theorem Offset_Run_returned (this : xpipeline.Offset.t) received :
  xpipeline.returned (xpipeline.Run this received)
  = negb (forallb xpipeline.continues received).
Proof.
  unfold xpipeline.Run.
  generalize (xpipeline.Offset.mk (xpipeline.Offset.Offset this) 0).
  generalize (@nil (xpipeline.Sent Item Other)).
  induction received as [|r rest IH]; intros out this'; [done|].
  destruct r as [item| |[e|obj]|]; cbn [xpipeline.receiveLoop forallb
    xpipeline.continues andb negb xpipeline.returned]; try done.
  destruct (xpipeline.processItem this' item) as [this'' s]. apply IH.
Qed.

End OffsetRuns.

Section OffsetChain.

Context {Item Other : Type}.

Implicit Types (received : list (xpipeline.Received Item Other)).

Lemma handOver_forwardAfter_continues (skip : nat) received :
  Forall (fun r => xpipeline.continues r = true) received ->
  Forall (fun r => xpipeline.continues r = true)
    (map xpipeline.handOver (spec.forwardAfter skip received)).
Proof.
  intros Hcont. revert skip.
  induction Hcont as [|r rest Hr _ IH]; intros skip; [constructor|].
  destruct r as [item| |[e|obj]|]; try discriminate Hr.
  - destruct skip; cbn; [constructor; [done|]|]; apply IH.
  - cbn. constructor; [done|]. apply IH.
Qed.

Lemma itemsReceived_handOver (s : list (xpipeline.Sent Item Other)) :
  xpipeline.itemsReceived (map xpipeline.handOver s) = xpipeline.itemsSent s.
Proof.
  induction s as [|x s IH]; [done|].
  destruct x; cbn; [f_equal|]; apply IH.
Qed.

Lemma supportReceived_handOver (s : list (xpipeline.Sent Item Other)) :
  spec.supportReceived (map xpipeline.handOver s) = xpipeline.supportSent s.
Proof.
  induction s as [|x s IH]; [done|].
  destruct x; cbn; [|f_equal]; apply IH.
Qed.

(** X23.  Two Offset operators in a row skip the sum of their offsets.  The
    first receives [received] (items and support messages that are no Error,
    the items within the range of the counter) and then a closed channel; the
    second has the first as its source.  With offsets [K1, K2 >= 0] the second
    returns having sent the items received after the first [K1 + K2], and
    every support message, in order. *)
Theorem Offset_chain_skips_sum
    (first second : xpipeline.Offset.t) received
    (closed closed' : xpipeline.Received Item Other) :
  let K1 := xpipeline.Offset.Offset first in
  let K2 := xpipeline.Offset.Offset second in
  let items := xpipeline.itemsReceived received in
  let run :=
    xpipeline.Run second
      (xpipeline.downstream closed'
         (xpipeline.Run first (received ++ [closed]))) in
  Forall (fun r => xpipeline.continues r = true) received ->
  Z.of_nat (length items) <= xpipeline.maxInt ->
  xpipeline.isClosed closed = true ->
  xpipeline.isClosed closed' = true ->
  0 <= K1 -> 0 <= K2 ->
  xpipeline.returned run = true
  /\ xpipeline.itemsSent (xpipeline.sent run) = drop (Z.to_nat (K1 + K2)) items
  /\ xpipeline.supportSent (xpipeline.sent run)
     = spec.supportReceived received.
Proof.
  intros K1 K2 items run Hcont Hmax Hclosed Hclosed' HK1 HK2. subst run.
  rewrite (Run_continues_then first received [closed] Hcont Hmax).
  fold K1.
  assert (Hfirst : xpipeline.receiveLoop
                     (xpipeline.Offset.mk K1
                        (Z.of_nat (length (xpipeline.itemsReceived received))))
                     (spec.forwardAfter (Z.to_nat K1) received) [closed]
                   = xpipeline.mkRunning
                       (xpipeline.Offset.mk K1
                          (Z.of_nat (length (xpipeline.itemsReceived received))))
                       (spec.forwardAfter (Z.to_nat K1) received) true)
    by (destruct closed as [| | |]; try discriminate Hclosed; reflexivity).
  rewrite Hfirst. unfold xpipeline.downstream.
  cbn [xpipeline.sent xpipeline.returned].
  pose proof (handOver_forwardAfter_continues (Z.to_nat K1) received Hcont)
    as Hcont2.
  assert (Hmax2 : Z.of_nat
                    (length
                       (xpipeline.itemsReceived
                          (map xpipeline.handOver
                             (spec.forwardAfter (Z.to_nat K1) received))))
                  <= xpipeline.maxInt).
  { rewrite itemsReceived_handOver, itemsSent_forwardAfter, length_drop.
    fold items. lia. }
  rewrite (Run_continues_then second _ [closed'] Hcont2 Hmax2). fold K2.
  assert (Hsecond : forall this out,
            xpipeline.receiveLoop this out [closed']
            = xpipeline.mkRunning this out true)
    by (intros; destruct closed' as [| | |]; try discriminate Hclosed';
        reflexivity).
  rewrite Hsecond. cbn [xpipeline.sent xpipeline.returned].
  rewrite !itemsSent_forwardAfter, !supportSent_forwardAfter.
  rewrite itemsReceived_handOver, supportReceived_handOver.
  rewrite itemsSent_forwardAfter, supportSent_forwardAfter.
  fold items. split; [done|]. split; [|done].
  rewrite drop_drop. f_equal. lia.
Qed.

(** X24.  An Error passes through a chain of two Offset operators: when the
    first receives an Error after [received], it forwards it and returns; the
    second, fed by the first, forwards it too, as the last thing it sends and
    after the items that passed both offsets, and returns.  Nothing the first
    operator's source offers after the Error reaches either output. *)
Theorem Offset_chain_forwards_error
    (first second : xpipeline.Offset.t) received
    (tail : list (xpipeline.Received Item Other)) (e : query.Error)
    (closed' : xpipeline.Received Item Other) :
  let K1 := xpipeline.Offset.Offset first in
  let K2 := xpipeline.Offset.Offset second in
  let items := xpipeline.itemsReceived received in
  let run :=
    xpipeline.Run second
      (xpipeline.downstream closed'
         (xpipeline.Run first
            (received
             ++ xpipeline.SupportReceived (xpipeline.SupportError e) :: tail))) in
  Forall (fun r => xpipeline.continues r = true) received ->
  Z.of_nat (length items) <= xpipeline.maxInt ->
  0 <= K1 -> 0 <= K2 ->
  xpipeline.returned run = true
  /\ last (xpipeline.sent run)
     = Some (xpipeline.SupportSent (xpipeline.SupportError e))
  /\ xpipeline.itemsSent (xpipeline.sent run) = drop (Z.to_nat (K1 + K2)) items
  /\ xpipeline.supportSent (xpipeline.sent run)
     = spec.supportReceived received ++ [xpipeline.SupportError e].
Proof.
  intros K1 K2 items run Hcont Hmax HK1 HK2. subst run.
  rewrite (Run_continues_then first received _ Hcont Hmax). fold K1.
  cbn [xpipeline.receiveLoop]. unfold xpipeline.downstream.
  cbn [xpipeline.sent xpipeline.returned].
  rewrite map_app. cbn [map xpipeline.handOver]. rewrite <- app_assoc.
  pose proof (handOver_forwardAfter_continues (Z.to_nat K1) received Hcont)
    as Hcont2.
  assert (Hmax2 : Z.of_nat
                    (length
                       (xpipeline.itemsReceived
                          (map xpipeline.handOver
                             (spec.forwardAfter (Z.to_nat K1) received))))
                  <= xpipeline.maxInt).
  { rewrite itemsReceived_handOver, itemsSent_forwardAfter, length_drop.
    fold items. lia. }
  rewrite (Run_continues_then second _ _ Hcont2 Hmax2). fold K2.
  cbn [app xpipeline.receiveLoop xpipeline.sent xpipeline.returned].
  split; [done|]. split; [by rewrite last_snoc|].
  unfold xpipeline.itemsSent, xpipeline.supportSent. rewrite !omap_app.
  fold (xpipeline.itemsSent
          (spec.forwardAfter (Z.to_nat K2)
             (map xpipeline.handOver
                (spec.forwardAfter (Z.to_nat K1) received)))).
  fold (xpipeline.supportSent
          (spec.forwardAfter (Z.to_nat K2)
             (map xpipeline.handOver
                (spec.forwardAfter (Z.to_nat K1) received)))).
  rewrite itemsSent_forwardAfter, supportSent_forwardAfter.
  rewrite itemsReceived_handOver, supportReceived_handOver.
  rewrite itemsSent_forwardAfter, supportSent_forwardAfter.
  fold items. cbn. rewrite app_nil_r. split; [|done].
  rewrite drop_drop. f_equal. lia.
Qed.

End OffsetChain.

Lemma Offset_Run_any_offset_witness :
  Forall (fun r => xpipeline.continues r = true) examples.fourItems
  /\ Z.of_nat (length (xpipeline.itemsReceived examples.fourItems))
     <= xpipeline.maxInt
  /\ xpipeline.itemsSent
       (xpipeline.sent
          (xpipeline.Run (xpipeline.NewOffset (-3)) examples.fourItems))
     = [10%nat; 11%nat; 12%nat; 13%nat].
Proof.
  assert (Hcont : Forall (fun r => xpipeline.continues r = true)
                    examples.fourItems)
    by (repeat constructor).
  assert (HN : Z.of_nat (length (xpipeline.itemsReceived examples.fourItems))
               <= xpipeline.maxInt)
    by (vm_compute; discriminate).
  do 2 (split; [assumption|]).
  destruct (Offset_Run_any_offset (xpipeline.NewOffset (-3))
              examples.fourItems Hcont HN)
    as [_ [Hall _]].
  apply Hall. cbn. lia.
Defined.

Lemma Offset_chain_skips_sum_witness :
  Forall (fun r => xpipeline.continues r = true) examples.fourItems
  /\ Z.of_nat (length (xpipeline.itemsReceived examples.fourItems))
     <= xpipeline.maxInt
  /\ 0 <= xpipeline.Offset.Offset examples.offset2
  /\ 0 <= xpipeline.Offset.Offset (xpipeline.NewOffset 1)
  /\ xpipeline.itemsSent
       (xpipeline.sent
          (xpipeline.Run (xpipeline.NewOffset 1)
             (xpipeline.downstream xpipeline.SupportChannelClosed
                (xpipeline.Run examples.offset2
                   (examples.fourItems ++ [xpipeline.ItemChannelClosed])))))
     = [13%nat].
Proof.
  assert (Hcont : Forall (fun r => xpipeline.continues r = true)
                    examples.fourItems)
    by (repeat constructor).
  assert (HN : Z.of_nat (length (xpipeline.itemsReceived examples.fourItems))
               <= xpipeline.maxInt)
    by (vm_compute; discriminate).
  assert (HK1 : 0 <= xpipeline.Offset.Offset examples.offset2) by (cbn; lia).
  assert (HK2 : 0 <= xpipeline.Offset.Offset (xpipeline.NewOffset 1))
    by (cbn; lia).
  do 4 (split; [assumption|]).
  destruct (Offset_chain_skips_sum examples.offset2 (xpipeline.NewOffset 1)
              examples.fourItems xpipeline.ItemChannelClosed
              xpipeline.SupportChannelClosed Hcont HN eq_refl eq_refl HK1 HK2)
    as [_ [Hitems _]].
  exact Hitems.
Defined.

Lemma Offset_chain_forwards_error_witness :
  Forall (fun r => xpipeline.continues r = true) examples.fourItems
  /\ Z.of_nat (length (xpipeline.itemsReceived examples.fourItems))
     <= xpipeline.maxInt
  /\ 0 <= xpipeline.Offset.Offset examples.offset2
  /\ 0 <= xpipeline.Offset.Offset (xpipeline.NewOffset 1)
  /\ last
       (xpipeline.sent
          (xpipeline.Run (xpipeline.NewOffset 1)
             (xpipeline.downstream xpipeline.SupportChannelClosed
                (xpipeline.Run examples.offset2
                   (examples.fourItems
                    ++ xpipeline.SupportReceived
                         (xpipeline.SupportError examples.boom)
                       :: examples.moreUpstream)))))
     = Some (xpipeline.SupportSent (xpipeline.SupportError examples.boom)).
Proof.
  assert (Hcont : Forall (fun r => xpipeline.continues r = true)
                    examples.fourItems)
    by (repeat constructor).
  assert (HN : Z.of_nat (length (xpipeline.itemsReceived examples.fourItems))
               <= xpipeline.maxInt)
    by (vm_compute; discriminate).
  assert (HK1 : 0 <= xpipeline.Offset.Offset examples.offset2) by (cbn; lia).
  assert (HK2 : 0 <= xpipeline.Offset.Offset (xpipeline.NewOffset 1))
    by (cbn; lia).
  do 4 (split; [assumption|]).
  destruct (Offset_chain_forwards_error examples.offset2
              (xpipeline.NewOffset 1) examples.fourItems
              examples.moreUpstream examples.boom
              xpipeline.SupportChannelClosed Hcont HN HK1 HK2)
    as [_ [Hlast _]].
  exact Hlast.
Defined.
